(** * Blog server: comment tree, denormalised counters, notification fan-out

    A shallow embedding of the request handlers of [server.js] that mutate
    the comment / notification graph and the counters kept on blogs and
    users, together with the properties of the specification that concern
    them.

    Conventions of the embedding.
    - The document store is a record of four collections; a collection is
      the list of its documents in natural (insertion) order, which is the
      order [findOne...] scans when the filter is not on [_id].
    - Every Mongoose call is one atomic step on one collection.  A handler
      is the sequence of the calls it issues, applied in the order in which
      they are issued; the recursive calls of [deleteComments] on the
      children run one after the other, in array order.
    - Identifiers are opaque strings, counters are integers, the numbers
      of a request are the integers that a double holds exactly ([JsNum]),
      and texts are strings whose characters stand for the code units of
      the JavaScript string (those below 256).
    - A handler returns the new store and what it answered; [NoResponse] is
      a handler whose promise chain threw before [res.json] was reached. *)

From Stdlib Require Import List String Ascii ZArith Bool Arith Lia.
Import ListNotations.

Local Open Scope Z_scope.
Local Open Scope string_scope.

(** Identifiers of documents, as they cross the API. *)
Abbreviation ObjectId := string (only parsing).

(** ** JavaScript truthiness of the request fields the handlers test *)

Module Js.

(** [if (s)] for a field that is a string or absent. *)
Definition truthy (s : option string) : bool :=
  match s with
  | Some s => negb (s =? "")
  | None => false
  end.

(** [s || None]: the value seen by the code below an [if (s)]. *)
Definition given (s : option string) : option string :=
  if truthy s then s else None.

(** [if (b)] for a field that is a boolean or absent. *)
Definition truthyb (b : option bool) : bool :=
  match b with
  | Some b => b
  | None => false
  end.

(** [if (n)] for a field that is a number or absent. *)
Definition truthyz (n : option Z) : bool :=
  match n with
  | Some n => negb (n =? 0)%Z
  | None => false
  end.

(** [s?.length] used as a condition. *)
Definition hasLength (s : option string) : bool :=
  match s with
  | Some s => negb (Nat.eqb (String.length s) 0)
  | None => false
  end.

End Js.

(** ** Collections and the Mongoose calls on them *)

Section Collection.

Context {D : Type}.

(** [Model.findOne(q)]: the first document that matches. *)
Fixpoint findOne (q : D -> bool) (coll : list D) : option D :=
  match coll with
  | [] => None
  | d :: rest => if q d then Some d else findOne q rest
  end.

(** [Model.findOneAndUpdate(q, upd)]: the first match is updated in
    place; the promise resolves to [findOne q coll]. *)
Fixpoint findOneAndUpdate (q : D -> bool) (upd : D -> D) (coll : list D)
  : list D :=
  match coll with
  | [] => []
  | d :: rest =>
      if q d then upd d :: rest else d :: findOneAndUpdate q upd rest
  end.

(** [Model.findOneAndDelete(q)]: the first match is removed; the promise
    resolves to [findOne q coll]. *)
Fixpoint findOneAndDelete (q : D -> bool) (coll : list D) : list D :=
  match coll with
  | [] => []
  | d :: rest => if q d then rest else d :: findOneAndDelete q rest
  end.

(** [Model.deleteMany(q)]. *)
Definition deleteMany (q : D -> bool) (coll : list D) : list D :=
  filter (fun d => negb (q d)) coll.

(** [new Model(d).save()]. *)
Definition save (d : D) (coll : list D) : list D := coll ++ [d].

(** [Model.exists(q)] / [countDocuments(q)]. *)
Definition countDocuments (q : D -> bool) (coll : list D) : nat :=
  List.length (filter q coll).

End Collection.

(** ** Update documents

    An update document is a list of operators on dotted paths.  Mongoose
    moves every top-level key that is not a [$]-operator under [$set]
    ([SetField] below), and with the default strict mode drops a path the
    schema does not have. *)

Inductive Value :=
| VNum (z : Z)
| VId (i : ObjectId).

Inductive UpdateOp :=
| Inc (path : string) (delta : Z)         (* $inc   *)
| Push (path : string) (v : ObjectId)     (* $push  *)
| Pull (path : string) (v : ObjectId)     (* $pull  *)
| SetField (path : string) (v : Value)    (* $set, or a bare key *)
| Unset (path : string).                  (* $unset *)

Definition applyUpdate {D : Type} (applyOp : UpdateOp -> D -> D)
  (upd : list UpdateOp) (d : D) : D :=
  fold_left (fun d op => applyOp op d) upd d.

Definition pull (v : ObjectId) (l : list ObjectId) : list ObjectId :=
  filter (fun x => negb (x =? v)) l.

Definition push (v : ObjectId) (l : list ObjectId) : list ObjectId :=
  l ++ [v].

Definition isId (i : ObjectId) (o : option ObjectId) : bool :=
  match o with
  | Some j => j =? i
  | None => false
  end.

(** ** Documents

    Modelled from the spec: the files [Schema/User.js], [Schema/Blog.js],
    [Schema/Comment.js] and [Schema/Notification.js] are missing; the
    records below have the fields the handlers read and write, with the
    defaults of section 3 of the specification (counters start at 0,
    [children] and [comments] start empty, [isReply] and [seen] start
    false). *)

Module User.

Record t := mk {
  _id : ObjectId;
  total_posts : Z;          (* account_info.total_posts *)
  total_reads : Z;          (* account_info.total_reads *)
  blogs : list ObjectId;
  admin : bool
}.

Definition applyOp (op : UpdateOp) (u : t) : t :=
  match op with
  | Inc p d =>
      if p =? "account_info.total_posts" then
        mk (_id u) (total_posts u + d) (total_reads u) (blogs u) (admin u)
      else if p =? "account_info.total_reads" then
        mk (_id u) (total_posts u) (total_reads u + d) (blogs u) (admin u)
      else u
  | Push p v =>
      if p =? "blogs" then
        mk (_id u) (total_posts u) (total_reads u) (push v (blogs u)) (admin u)
      else u
  | Pull p v =>
      if p =? "blogs" then
        mk (_id u) (total_posts u) (total_reads u) (pull v (blogs u)) (admin u)
      else u
  | SetField _ _ => u
  | Unset _ => u
  end.

Definition byId (i : ObjectId) (u : t) : bool := _id u =? i.

End User.

Module Blog.

Record Activity := mkActivity {
  total_likes : Z;
  total_reads : Z;
  total_comments : Z;
  total_parent_comments : Z
}.

Record t := mk {
  _id : ObjectId;
  blog_id : string;                 (* the slug *)
  title : string;
  banner : string;
  desc : string;
  content : list string;            (* content.blocks *)
  tags : list string;
  author : ObjectId;
  activity : Activity;
  comments : list ObjectId;
  draft : bool;
  publishedAt : Z
}.

Definition withActivity (a : Activity) (b : t) : t :=
  mk (_id b) (blog_id b) (title b) (banner b) (desc b) (content b) (tags b)
     (author b) a (comments b) (draft b) (publishedAt b).

Definition withComments (cs : list ObjectId) (b : t) : t :=
  mk (_id b) (blog_id b) (title b) (banner b) (desc b) (content b) (tags b)
     (author b) (activity b) cs (draft b) (publishedAt b).

Definition incActivity (p : string) (d : Z) (a : Activity) : Activity :=
  if p =? "activity.total_likes" then
    mkActivity (total_likes a + d) (total_reads a) (total_comments a)
               (total_parent_comments a)
  else if p =? "activity.total_reads" then
    mkActivity (total_likes a) (total_reads a + d) (total_comments a)
               (total_parent_comments a)
  else if p =? "activity.total_comments" then
    mkActivity (total_likes a) (total_reads a) (total_comments a + d)
               (total_parent_comments a)
  else if p =? "activity.total_parent_comments" then
    mkActivity (total_likes a) (total_reads a) (total_comments a)
               (total_parent_comments a + d)
  else a.

Definition setActivity (p : string) (z : Z) (a : Activity) : Activity :=
  if p =? "activity.total_likes" then
    mkActivity z (total_reads a) (total_comments a) (total_parent_comments a)
  else if p =? "activity.total_reads" then
    mkActivity (total_likes a) z (total_comments a) (total_parent_comments a)
  else if p =? "activity.total_comments" then
    mkActivity (total_likes a) (total_reads a) z (total_parent_comments a)
  else if p =? "activity.total_parent_comments" then
    mkActivity (total_likes a) (total_reads a) (total_comments a) z
  else a.

Definition applyOp (op : UpdateOp) (b : t) : t :=
  match op with
  | Inc p d => withActivity (incActivity p d (activity b)) b
  | Push p v =>
      if p =? "comments" then withComments (push v (comments b)) b else b
  | Pull p v =>
      if p =? "comments" then withComments (pull v (comments b)) b else b
  | SetField p (VNum z) => withActivity (setActivity p z (activity b)) b
  | SetField _ (VId _) => b
  | Unset _ => b
  end.

Definition byId (i : ObjectId) (b : t) : bool := _id b =? i.
Definition bySlug (s : string) (b : t) : bool := blog_id b =? s.

End Blog.

Module Comment.

Record t := mk {
  _id : ObjectId;
  blog_id : ObjectId;
  blog_author : ObjectId;
  comment : string;
  commented_by : ObjectId;
  parent : option ObjectId;
  isReply : bool;
  children : list ObjectId;
  commentedAt : Z
}.

Definition withChildren (cs : list ObjectId) (c : t) : t :=
  mk (_id c) (blog_id c) (blog_author c) (comment c) (commented_by c)
     (parent c) (isReply c) cs (commentedAt c).

Definition applyOp (op : UpdateOp) (c : t) : t :=
  match op with
  | Push p v =>
      if p =? "children" then withChildren (push v (children c)) c else c
  | Pull p v =>
      if p =? "children" then withChildren (pull v (children c)) c else c
  | Inc _ _ => c
  | SetField _ _ => c
  | Unset _ => c
  end.

Definition byId (i : ObjectId) (c : t) : bool := _id c =? i.
Definition byBlog (b : ObjectId) (c : t) : bool := blog_id c =? b.

End Comment.

Module Notification.

Inductive type := like | comment | reply.

Definition type_eqb (a b : type) : bool :=
  match a, b with
  | like, like | comment, comment | reply, reply => true
  | _, _ => false
  end.

Record t := mk {
  _id : ObjectId;
  type_ : type;
  blog : ObjectId;
  notification_for : ObjectId;
  user : ObjectId;
  comment_ : option ObjectId;
  replied_on_comment : option ObjectId;
  reply_ : option ObjectId;
  seen : bool;
  createdAt : Z
}.

Definition withReply (r : option ObjectId) (n : t) : t :=
  mk (_id n) (type_ n) (blog n) (notification_for n) (user n) (comment_ n)
     (replied_on_comment n) r (seen n) (createdAt n).

Definition applyOp (op : UpdateOp) (n : t) : t :=
  match op with
  | SetField p (VId i) => if p =? "reply" then withReply (Some i) n else n
  | SetField _ (VNum _) => n
  | Unset p => if p =? "reply" then withReply None n else n
  | Inc _ _ => n
  | Push _ _ => n
  | Pull _ _ => n
  end.

Definition byId (i : ObjectId) (n : t) : bool := _id n =? i.
Definition byComment (c : ObjectId) (n : t) : bool := isId c (comment_ n).
Definition byReply (c : ObjectId) (n : t) : bool := isId c (reply_ n).
Definition byBlog (b : ObjectId) (n : t) : bool := blog n =? b.

(** [{ user, blog, type: "like" }] *)
Definition isLikeOf (u b : ObjectId) (n : t) : bool :=
  (user n =? u) && (blog n =? b) && type_eqb (type_ n) like.

End Notification.

(** ** The store *)

Record Store := mkStore {
  users : list User.t;
  blogs : list Blog.t;
  comments : list Comment.t;
  notifications : list Notification.t
}.

Definition withUsers (us : list User.t) (st : Store) : Store :=
  mkStore us (blogs st) (comments st) (notifications st).
Definition withBlogs (bs : list Blog.t) (st : Store) : Store :=
  mkStore (users st) bs (comments st) (notifications st).
Definition withComments (cs : list Comment.t) (st : Store) : Store :=
  mkStore (users st) (blogs st) cs (notifications st).
Definition withNotifications (ns : list Notification.t) (st : Store) : Store :=
  mkStore (users st) (blogs st) (comments st) ns.

(** ** Responses *)

Inductive Body :=
| BError (error : string)
| BId (id : string)
| BLiked (liked_by_user : bool)
| BStatus (status : string)
| BComment (comment : string) (commentedAt : Z) (_id user_id : ObjectId)
           (children : list ObjectId).

Inductive Response :=
| Json (status : Z) (body : Body)
| NoResponse.

(** ** POST /create-blog *)

Module Slug.

Definition code (c : ascii) : nat := nat_of_ascii c.

(** [[a-zA-Z0-9]] *)
Definition isAlnum (c : ascii) : bool :=
  let n := code c in
  ((48 <=? n) && (n <=? 57) || (65 <=? n) && (n <=? 90)
   || (97 <=? n) && (n <=? 122))%nat.

(** [\s] on 8-bit code units. *)
Definition isSpace (c : ascii) : bool :=
  let n := code c in
  ((9 <=? n) && (n <=? 13) || (n =? 32) || (n =? 160))%nat.

(** [.replace(/[^a-zA-Z0-9]/g, " ")] *)
Fixpoint replaceNonAlnum (s : string) : string :=
  match s with
  | EmptyString => EmptyString
  | String c r =>
      String (if isAlnum c then c else " "%char) (replaceNonAlnum r)
  end.

(** [.replace(/\s+/g, "-")]; [inRun] tells that the previous character
    was white space, already replaced. *)
Fixpoint dashRuns (inRun : bool) (s : string) : string :=
  match s with
  | EmptyString => EmptyString
  | String c r =>
      if isSpace c then
        if inRun then dashRuns true r else String "-"%char (dashRuns true r)
      else String c (dashRuns false r)
  end.

Fixpoint trimStart (s : string) : string :=
  match s with
  | EmptyString => EmptyString
  | String c r => if isSpace c then trimStart r else s
  end.

Definition reverse (s : string) : string :=
  string_of_list_ascii (rev (list_ascii_of_string s)).

(** [.trim()] *)
Definition trim (s : string) : string :=
  reverse (trimStart (reverse (trimStart s))).

(** The code units below 256 that [toLowerCase] changes: the letters A-Z
    and the capital letters of Latin-1, 192 to 222 without the
    multiplication sign 215. *)
Definition isUpper (c : ascii) : bool :=
  let n := code c in
  (((65 <=? n) && (n <=? 90))
   || ((192 <=? n) && (n <=? 214))
   || ((216 <=? n) && (n <=? 222)))%nat.

(** [tag.toLowerCase()] on one code unit: each of these capitals is 32
    below its small letter. *)
Definition lowerChar (c : ascii) : ascii :=
  let n := code c in
  if isUpper c then ascii_of_nat (n + 32) else c.

Fixpoint toLowerCase (s : string) : string :=
  match s with
  | EmptyString => EmptyString
  | String c r => String (lowerChar c) (toLowerCase r)
  end.

(** [title.replace(...).replace(...).trim() + nanoid()] *)
Definition ofTitle (title nanoid : string) : string :=
  trim (dashRuns false (replaceNonAlnum title)) ++ nanoid.

End Slug.

Record CreateBlogBody := mkCreateBlogBody {
  cb_title : string;
  cb_banner : string;
  cb_desc : string;
  cb_tags : list string;
  cb_content : list string;           (* content.blocks *)
  cb_draft : option bool;
  cb_id : option string
}.

(** The four checks made when [draft] is falsy, in the order of the code;
    the result is the error message of the first one that fails. *)
Definition publishChecks (body : CreateBlogBody) : option string :=
  let desc := cb_desc body in
  let tags := cb_tags body in
  if (Nat.eqb (String.length desc) 0 || (200 <? String.length desc)%nat) then
    Some "You must provide a blog description under 200 characters"
  else if Nat.eqb (String.length (cb_banner body)) 0 then
    Some "You must provide blog banner to publish it"
  else if Nat.eqb (List.length (cb_content body)) 0 then
    Some "There must be some blog content to publish it"
  else if (Nat.eqb (List.length tags) 0 || (10 <? List.length tags)%nat) then
    Some "Provide tags to publish it, max 10 tags"
  else None.

(** What the handler answers before it touches the store: [Some msg] is a
    403 with that message. *)
Definition createBlogValidation (body : CreateBlogBody) : option string :=
  if Nat.eqb (String.length (cb_title body)) 0 then
    Some "You must provide a title"
  else if negb (Js.truthyb (cb_draft body)) then publishChecks body
  else None.

(** [authorId] and [isAdmin] come from the verified token, [blogOid] is the
    [_id] Mongoose gives the new document, [nanoid] the random suffix and
    [now] the time of the request.  [blog.save()] is taken to succeed. *)
Definition createBlog (authorId : ObjectId) (isAdmin : bool)
  (body : CreateBlogBody) (blogOid : ObjectId) (nanoid : string) (now : Z)
  (st : Store) : Store * Response :=
  if isAdmin then
    match createBlogValidation body with
    | Some msg => (st, Json 403 (BError msg))
    | None =>
        let title := cb_title body in
        let draft := Js.truthyb (cb_draft body) in
        let tags := map Slug.toLowerCase (cb_tags body) in
        let blog_id :=
          match Js.given (cb_id body) with
          | Some id => id
          | None => Slug.ofTitle title nanoid
          end in
        if Js.truthy (cb_id body) then
          let edit (b : Blog.t) :=
            Blog.mk (Blog._id b) (Blog.blog_id b) title (cb_banner body)
                    (cb_desc body) (cb_content body) tags (Blog.author b)
                    (Blog.activity b) (Blog.comments b) draft
                    (Blog.publishedAt b) in
          (withBlogs (findOneAndUpdate (Blog.bySlug blog_id) edit (blogs st)) st,
           Json 200 (BId blog_id))
        else
          let blog :=
            Blog.mk blogOid blog_id title (cb_banner body) (cb_desc body)
                    (cb_content body) tags authorId
                    (Blog.mkActivity 0 0 0 0) [] draft now in
          let st1 := withBlogs (save blog (blogs st)) st in
          let incrementVal := if draft then 0 else 1 in
          let st2 :=
            withUsers
              (findOneAndUpdate (User.byId authorId)
                 (applyUpdate User.applyOp
                    [Inc "account_info.total_posts" incrementVal;
                     Push "blogs" (Blog._id blog)])
                 (users st1)) st1 in
          (st2, Json 200 (BId (Blog.blog_id blog)))
    end
  else
    (st, Json 500 (BError "You don't have permissions to create any blog post")).

(** ** POST /like-blog *)

Module Like.

(** The field [isLikedByUser] of the body: a boolean or a number. *)
Inductive flag := FBool (b : bool) | FNum (z : Z).

(** [!isLikedByUser] is [negb (truthy f)]. *)
Definition truthy (f : option flag) : bool :=
  match f with
  | Some (FBool b) => b
  | Some (FNum z) => negb (z =? 0)%Z
  | None => false
  end.

(** [isLikedByUser > 0] *)
Definition positive (f : option flag) : bool :=
  match f with
  | Some (FBool b) => b
  | Some (FNum z) => (0 <? z)%Z
  | None => false
  end.

End Like.

Definition likeBlog (user_id : ObjectId) (_id : ObjectId)
  (isLikedByUser : option Like.flag) (notifOid : ObjectId) (now : Z)
  (st : Store) : Store * Response :=
  let incrementVal :=
    if negb (Like.truthy isLikedByUser) then 1
    else if Like.positive isLikedByUser then -1 else 0 in
  let blog := findOne (Blog.byId _id) (blogs st) in
  let st1 :=
    withBlogs
      (findOneAndUpdate (Blog.byId _id)
         (applyUpdate Blog.applyOp [Inc "activity.total_likes" incrementVal])
         (blogs st)) st in
  if negb (Like.truthy isLikedByUser) then
    match blog with
    | None => (st1, NoResponse)      (* blog.author of null throws *)
    | Some b =>
        let like :=
          Notification.mk notifOid Notification.like _id (Blog.author b)
                          user_id None None None false now in
        (withNotifications (save like (notifications st1)) st1,
         Json 200 (BLiked true))
    end
  else
    (withNotifications
       (findOneAndDelete (Notification.isLikeOf user_id _id)
          (notifications st1)) st1,
     Json 200 (BLiked false)).

(** ** Numbers of a request

    A number of a request body is a double.  The model represents the
    integers that a double holds exactly, those from [-2^53] to [2^53].
    On them [-] and [*] give the exact integer whenever that is in the
    range again: the operation rounds the exact result, and such an integer
    needs no rounding.  [None] is every other result, which the model does
    not follow. *)
Module JsNum.

(** [2^53] *)
Definition maxSafe : Z := 9007199254740992.

Definition exact (z : Z) : bool :=
  (- maxSafe <=? z)%Z && (z <=? maxSafe)%Z.

Definition ofZ (z : Z) : option Z := if exact z then Some z else None.

Definition sub (a b : Z) : option Z :=
  if exact a && exact b then ofZ (a - b) else None.

Definition mul (a b : Z) : option Z :=
  if exact a && exact b then ofZ (a * b) else None.

End JsNum.

(** ** Pagination of POST /notifications and POST /user-written-blogs *)

(** The argument of [.skip()] for page size [maxLimit]:
    [skipDocs = (page - 1) * maxLimit], then
    [if(deletedDocCount) skipDocs -= deletedDocCount]. *)
Definition skipDocs (maxLimit page : Z) (deletedDocCount : option Z)
  : option Z :=
  match JsNum.sub page 1 with
  | None => None
  | Some pageBefore =>
    match JsNum.mul pageBefore maxLimit with
    | None => None
    | Some skipDocs =>
      if Js.truthyz deletedDocCount then
        match deletedDocCount with
        | Some d => JsNum.sub skipDocs d
        | None => Some skipDocs
        end
      else Some skipDocs
    end
  end.

Definition notificationsSkipDocs (page : Z) (deletedDocCount : option Z)
  : option Z :=
  let maxLimit := 10 in skipDocs maxLimit page deletedDocCount.

Definition userWrittenBlogsSkipDocs (page : Z) (deletedDocCount : option Z)
  : option Z :=
  let maxLimit := 5 in skipDocs maxLimit page deletedDocCount.

(** What a listing answers: 200 with the documents of the page, or 500 from
    the handler's [catch] when the query promise rejects. *)
Inductive Listing (D : Type) : Type :=
| Docs (docs : list D)
| QueryError.

Arguments Docs {D} docs.
Arguments QueryError {D}.

(** [.skip(skip).limit(limit)] with a positive [limit] on the documents
    [matched] that the query finds, in the order of [.sort], which the
    store applies before the skip and the limit wherever it is written in
    the chain.  The store refuses a negative skip. *)
Definition skipLimit {D : Type} (skip limit : Z) (matched : list D)
  : Listing D :=
  if (skip <? 0)%Z then QueryError
  else Docs (firstn (Z.to_nat limit) (skipn (Z.to_nat skip) matched)).

(** The answer of a listing; [None] when the offset is not represented. *)
Definition listPage {D : Type} (maxLimit page : Z)
    (deletedDocCount : option Z) (matched : list D) : option (Listing D) :=
  match skipDocs maxLimit page deletedDocCount with
  | Some skip => Some (skipLimit skip maxLimit matched)
  | None => None
  end.

(** The answers of the two handlers, over the documents their query
    matches ([D] is the selected and populated form of a document); the
    marking of the listed notifications as seen is not part of the
    model. *)
Definition notificationsPage {D : Type} (page : Z)
    (deletedDocCount : option Z) (matched : list D) : option (Listing D) :=
  let maxLimit := 10 in listPage maxLimit page deletedDocCount matched.

Definition userWrittenBlogsPage {D : Type} (page : Z)
    (deletedDocCount : option Z) (matched : list D) : option (Listing D) :=
  let maxLimit := 5 in listPage maxLimit page deletedDocCount matched.

(** ** POST /add-comment *)

Record AddCommentBody := mkAddCommentBody {
  ac__id : ObjectId;                       (* the blog *)
  ac_comment : option string;
  ac_blog_author : ObjectId;
  ac_replying_to : option ObjectId;
  ac_notification_id : option ObjectId
}.

(** [commentOid] and [notifOid] are the [_id]s Mongoose gives the two new
    documents, [now] the time of the request. *)
Definition addComment (user_id : ObjectId) (body : AddCommentBody)
  (commentOid notifOid : ObjectId) (now : Z) (st : Store)
  : Store * Response :=
  let _id := ac__id body in
  let blog_author := ac_blog_author body in
  let replying_to := Js.given (ac_replying_to body) in
  let isReply := Js.truthy (ac_replying_to body) in
  match ac_comment body with
  | None =>
      (st, Json 403 (BError "You must write something to leave a comment"))
  | Some comment =>
      if negb (Js.hasLength (Some comment)) then
        (st, Json 403 (BError "You must write something to leave a comment"))
      else
        let commentFile :=
          Comment.mk commentOid _id blog_author comment user_id
                     replying_to isReply [] now in
        let st1 := withComments (save commentFile (comments st)) st in
        let st2 :=
          withBlogs
            (findOneAndUpdate (Blog.byId _id)
               (applyUpdate Blog.applyOp
                  [Push "comments" (Comment._id commentFile);
                   Inc "activity.total_comments" 1;
                   Inc "activity.total_parent_comments"
                       (if isReply then 0 else 1)])
               (blogs st1)) st1 in
        let notificationObj (notification_for : ObjectId)
                            (replied_on_comment : option ObjectId) :=
          Notification.mk notifOid
            (if isReply then Notification.reply else Notification.comment)
            _id notification_for user_id (Some (Comment._id commentFile))
            replied_on_comment None false now in
        let ok :=
          Json 200 (BComment (Comment.comment commentFile)
                             (Comment.commentedAt commentFile)
                             (Comment._id commentFile) user_id
                             (Comment.children commentFile)) in
        match replying_to with
        | Some parentId =>
            let replyingToCommentDoc :=
              findOne (Comment.byId parentId) (comments st2) in
            let st3 :=
              withComments
                (findOneAndUpdate (Comment.byId parentId)
                   (applyUpdate Comment.applyOp
                      [Push "children" (Comment._id commentFile)])
                   (comments st2)) st2 in
            match replyingToCommentDoc with
            | None => (st3, NoResponse)  (* commented_by of null throws *)
            | Some doc =>
                let st4 :=
                  match Js.given (ac_notification_id body) with
                  | Some notification_id =>
                      withNotifications
                        (findOneAndUpdate (Notification.byId notification_id)
                           (applyUpdate Notification.applyOp
                              [SetField "reply"
                                        (VId (Comment._id commentFile))])
                           (notifications st3)) st3
                  | None => st3
                  end in
                (withNotifications
                   (save (notificationObj (Comment.commented_by doc)
                                          (Some parentId))
                         (notifications st4)) st4,
                 ok)
            end
        | None =>
            (withNotifications
               (save (notificationObj blog_author None) (notifications st2))
               st2,
             ok)
        end
  end.

(** ** deleteComments and POST /delete-comment *)

(** The body of [deleteComments] for a comment that was found and removed,
    up to the point where it recurses on the children: the parent's
    [children], the two notification calls and the blog update.  The last
    key of the blog update is written outside [$inc]. *)
Definition deleteCommentNode (_id : ObjectId) (comment : Comment.t)
  (st : Store) : Store :=
  let st1 :=
    withComments (findOneAndDelete (Comment.byId _id) (comments st)) st in
  let st2 :=
    match Js.given (Comment.parent comment) with
    | Some parent =>
        withComments
          (findOneAndUpdate (Comment.byId parent)
             (applyUpdate Comment.applyOp [Pull "children" _id])
             (comments st1)) st1
    | None => st1
    end in
  let st3 :=
    withNotifications
      (findOneAndDelete (Notification.byComment _id) (notifications st2))
      st2 in
  let st4 :=
    withNotifications
      (findOneAndUpdate (Notification.byReply _id)
         (applyUpdate Notification.applyOp [Unset "reply"])
         (notifications st3)) st3 in
  withBlogs
    (findOneAndUpdate (Blog.byId (Comment.blog_id comment))
       (applyUpdate Blog.applyOp
          [Pull "comments" _id;
           Inc "activity.total_comments" (-1);
           SetField "activity.total_parent_comments"
                    (VNum (if Js.truthy (Comment.parent comment)
                           then 0 else -1))])
       (blogs st4)) st4.

(** One sequential run of the children's calls. *)
Definition forEach (f : ObjectId -> Store -> option Store)
  (ids : list ObjectId) (st : Store) : option Store :=
  fold_left
    (fun acc id => match acc with Some s => f id s | None => None end)
    ids (Some st).

(** [deleteComments(_id)].  [fuel] bounds the depth of the recursion; [None]
    is a run that needs more.  A comment that is not found makes
    [comment.parent] throw, the [catch] logs it and nothing changes. *)
Fixpoint deleteComments (fuel : nat) (_id : ObjectId) (st : Store)
  : option Store :=
  match fuel with
  | O => None
  | S fuel' =>
      match findOne (Comment.byId _id) (comments st) with
      | None => Some st
      | Some comment =>
          forEach (deleteComments fuel') (Comment.children comment)
                  (deleteCommentNode _id comment st)
      end
  end.

(** Each level of the recursion has removed one comment more, so one unit
    of fuel per stored comment, and one for the call itself, is enough. *)
Definition deleteCommentsFuel (st : Store) : nat :=
  S (List.length (comments st)).

Definition deleteComment (user_id : ObjectId) (_id : ObjectId) (st : Store)
  : Store * Response :=
  match findOne (Comment.byId _id) (comments st) with
  | None => (st, NoResponse)         (* commented_by of null throws *)
  | Some comment =>
      if (user_id =? Comment.commented_by comment)
         || (user_id =? Comment.blog_author comment) then
        (match deleteComments (deleteCommentsFuel st) _id st with
         | Some st' => st'
         | None => st
         end,
         Json 200 (BStatus "done"))
      else
        (st, Json 403 (BError "Unauthorize. You can't delete this comment"))
  end.

(** ** POST /delete-blog *)

Definition deleteBlog (user_id : ObjectId) (isAdmin : bool) (blog_id : string)
  (st : Store) : Store * Response :=
  if isAdmin then
    match findOne (Blog.bySlug blog_id) (blogs st) with
    | None =>
        (st, Json 500 (BError "Cannot read properties of null (reading '_id')"))
    | Some blog =>
        let st1 :=
          withBlogs (findOneAndDelete (Blog.bySlug blog_id) (blogs st)) st in
        let st2 :=
          withNotifications
            (deleteMany (Notification.byBlog (Blog._id blog))
                        (notifications st1)) st1 in
        let st3 :=
          withComments
            (deleteMany (Comment.byBlog (Blog._id blog)) (comments st2))
            st2 in
        let st4 :=
          withUsers
            (findOneAndUpdate (User.byId user_id)
               (applyUpdate User.applyOp
                  [Pull "blog" (Blog._id blog);
                   Inc "account_info.total_posts" (-1)])
               (users st3)) st3 in
        (st4, Json 200 (BStatus "done"))
    end
  else
    (st, Json 500 (BError "You don't have permissions to delete the blog post")).

(** ** Vocabulary of the specification *)

(** Section 3, the invariant of a published blog, negated: what the spec
    says makes a payload unfit for publication. *)
Definition publishInvalid (body : CreateBlogBody) : bool :=
  Nat.eqb (String.length (cb_desc body)) 0
  || (200 <? String.length (cb_desc body))%nat
  || Nat.eqb (String.length (cb_banner body)) 0
  || Nat.eqb (List.length (cb_content body)) 0
  || Nat.eqb (List.length (cb_tags body)) 0
  || (10 <? List.length (cb_tags body))%nat.

(** The same payload with another [draft] field. *)
Definition withDraft (d : option bool) (body : CreateBlogBody)
  : CreateBlogBody :=
  mkCreateBlogBody (cb_title body) (cb_banner body) (cb_desc body)
                   (cb_tags body) (cb_content body) d (cb_id body).

Definition emptyStore : Store := mkStore [] [] [] [].

(** The two comment counters of a blog, as stored. *)
Definition commentCounter (b : ObjectId) (st : Store) : option Z :=
  option_map (fun d => Blog.total_comments (Blog.activity d))
             (findOne (Blog.byId b) (blogs st)).

Definition parentCounter (b : ObjectId) (st : Store) : option Z :=
  option_map (fun d => Blog.total_parent_comments (Blog.activity d))
             (findOne (Blog.byId b) (blogs st)).

(** A store as the handlers build it: on blog B of user u0, u1 wrote the
    comment A, u0 answered it with C from the notification of A, u1
    answered C with D from the notification of C, and u2 wrote the
    comment E. *)
Definition sampleBlog : Blog.t :=
  Blog.mk "B" "The-Quick-Fox-Xy12" "The Quick Fox" "banner.jpeg"
          "About a fox" ["block"] ["fox"] "u0"
          (Blog.mkActivity 0 0 4 2) ["A"; "C"; "D"; "E"] false 10.

Definition sampleStore : Store :=
  mkStore
    [User.mk "u0" 1 0 ["B"] true;
     User.mk "u1" 0 0 [] false;
     User.mk "u2" 0 0 [] false]
    [sampleBlog]
    [Comment.mk "A" "B" "u0" "first" "u1" None false ["C"] 11;
     Comment.mk "C" "B" "u0" "thanks" "u0" (Some "A") true ["D"] 12;
     Comment.mk "D" "B" "u0" "welcome" "u1" (Some "C") true [] 13;
     Comment.mk "E" "B" "u0" "second" "u2" None false [] 14]
    [Notification.mk "nA" Notification.comment "B" "u0" "u1" (Some "A") None
                     (Some "C") false 11;
     Notification.mk "nC" Notification.reply "B" "u1" "u0" (Some "C")
                     (Some "A") (Some "D") false 12;
     Notification.mk "nD" Notification.reply "B" "u0" "u1" (Some "D")
                     (Some "C") None false 13;
     Notification.mk "nE" Notification.comment "B" "u0" "u2" (Some "E") None
                     None false 14].

(** The comment document /add-comment stores. *)
Definition newComment (user_id : ObjectId) (body : AddCommentBody)
  (text : string) (commentOid : ObjectId) (now : Z) : Comment.t :=
  Comment.mk commentOid (ac__id body) (ac_blog_author body) text user_id
             (Js.given (ac_replying_to body)) (Js.truthy (ac_replying_to body))
             [] now.

(** Two requests on [sampleStore]: u1 answers E, and u1 answers a comment
    that does not exist. *)
Definition sampleReply : AddCommentBody :=
  mkAddCommentBody "B" (Some "third") "u0" (Some "E") None.

Definition danglingReply : AddCommentBody :=
  mkAddCommentBody "B" (Some "third") "u0" (Some "Z") None.

(** u0 answers D from the notification nD that told about it. *)
Definition replyFromNotification : AddCommentBody :=
  mkAddCommentBody "B" (Some "indeed") "u0" (Some "D") (Some "nD").

(** u1 answers E, a comment on blog B, with a reply that the request puts
    on the blog B2. *)
Definition crossBlogReply : AddCommentBody :=
  mkAddCommentBody "B2" (Some "elsewhere") "u0" (Some "E") None.

(** ** Reply trees *)

(** A comment with the replies below it: its id and the trees of its
    children, in the order of [children]. *)
#[warnings="-register-all"]
Inductive Thread := Node (_id : ObjectId) (replies : list Thread).

Definition root (t : Thread) : ObjectId :=
  match t with Node i _ => i end.

(** The ids of a tree, the root first. *)
Fixpoint ids (t : Thread) : list ObjectId :=
  match t with Node i ts => i :: flat_map ids ts end.

(** The comments of a tree as the store must have them: each id with its
    [children] array. *)
Fixpoint nodes (t : Thread) : list (ObjectId * list ObjectId) :=
  match t with Node i ts => (i, map root ts) :: flat_map nodes ts end.

(** The number of transitive descendants of the root. *)
Definition descendants (t : Thread) : nat :=
  match t with Node _ ts => List.length (flat_map ids ts) end.

(** The collection [cs] has the comment [fst node] with the children
    [snd node], on the blog [b]. *)
Definition stored (cs : list Comment.t) (b : ObjectId)
  (node : ObjectId * list ObjectId) : Prop :=
  exists doc,
    findOne (Comment.byId (fst node)) cs = Some doc
    /\ Comment.children doc = snd node
    /\ Comment.blog_id doc = b.

(** [t] is the children tree of its root in [cs], all of it on blog [b]. *)
Definition threadIn (cs : list Comment.t) (b : ObjectId) (t : Thread) : Prop :=
  Forall (stored cs b) (nodes t).

(** The thread of A in [sampleStore]. *)
Definition sampleThread : Thread := Node "A" [Node "C" [Node "D" []]].

(** The comments a run leaves alone: those outside [gone] that have no
    child in [gone] keep their [children] and their blog. *)
Definition keeps (gone : list ObjectId) (st st' : Store) : Prop :=
  forall j doc,
    findOne (Comment.byId j) (comments st) = Some doc ->
    ~ In j gone ->
    (forall x, In x (Comment.children doc) -> ~ In x gone) ->
    exists doc',
      findOne (Comment.byId j) (comments st') = Some doc'
      /\ Comment.children doc' = Comment.children doc
      /\ Comment.blog_id doc' = Comment.blog_id doc.

(** The ids of the stored comments are distinct, as the store's index on
    [_id] has it. *)
Definition uniqueIds (st : Store) : Prop :=
  NoDup (map Comment._id (comments st)).

(** ** The read endpoints next to the handlers above *)

(** POST /is-liked-by-user: [Notification.exists({ user, type: "like",
    blog })] answers the [_id] of a matching notification, or null. *)
Definition isLikedByUser (user_id _id : ObjectId) (st : Store)
  : option ObjectId :=
  option_map Notification._id
    (findOne (Notification.isLikeOf user_id _id) (notifications st)).

(** The name of a notification type, as the [type] field stores it. *)
Definition typeName (t : Notification.type) : string :=
  match t with
  | Notification.like => "like"
  | Notification.comment => "comment"
  | Notification.reply => "reply"
  end.

(** [{ notification_for: user_id, user: { $ne: user_id } }], with
    [type: filter] added when [filter != "all"]. *)
Definition notificationsQuery (user_id : ObjectId) (filter : string)
  (n : Notification.t) : bool :=
  (Notification.notification_for n =? user_id)
  && negb (Notification.user n =? user_id)
  && (if negb (filter =? "all") then typeName (Notification.type_ n) =? filter
      else true).

(** POST /all-notifications-count *)
Definition allNotificationsCount (user_id : ObjectId) (filter : string)
  (st : Store) : nat :=
  countDocuments (notificationsQuery user_id filter) (notifications st).

(** GET /new-notification: [Notification.exists({ notification_for:
    user_id, seen: false, user: { $ne: user_id } })]. *)
Definition newNotification (user_id : ObjectId) (st : Store) : bool :=
  match
    findOne
      (fun n => (Notification.notification_for n =? user_id)
                && negb (Notification.seen n)
                && negb (Notification.user n =? user_id))
      (notifications st)
  with
  | Some _ => true
  | None => false
  end.

(** POST /all-latest-blogs-count: [Blog.countDocuments({ draft: false })]. *)
Definition allLatestBlogsCount (st : Store) : nat :=
  countDocuments (fun b => negb (Blog.draft b)) (blogs st).

(** ** Further vocabulary *)

(** The handler answered 200. *)
Definition answered200 (r : Response) : bool :=
  match r with
  | Json status _ => (status =? 200)%Z
  | NoResponse => false
  end.

(** The invariant of a stored blog: a draft, or fit for publication. *)
Definition publishable (b : Blog.t) : Prop :=
  Blog.draft b = true
  \/ ((1 <= String.length (Blog.desc b) <= 200)%nat
      /\ Blog.banner b <> ""
      /\ Blog.content b <> []
      /\ (1 <= List.length (Blog.tags b) <= 10)%nat).

(** The characters of a string. *)
Definition chars (s : string) : list ascii := list_ascii_of_string s.

(** No two dashes in a row. *)
Fixpoint singleDashes (l : list ascii) : Prop :=
  match l with
  | a :: ((b :: _) as rest) =>
      ~ (a = "-"%char /\ b = "-"%char) /\ singleDashes rest
  | _ => True
  end.

(** The blog a request of /create-blog without [id] stores. *)
Definition newBlog (authorId : ObjectId) (body : CreateBlogBody)
  (blogOid : ObjectId) (nanoid : string) (now : Z) : Blog.t :=
  Blog.mk blogOid (Slug.ofTitle (cb_title body) nanoid) (cb_title body)
          (cb_banner body) (cb_desc body) (cb_content body)
          (map Slug.toLowerCase (cb_tags body)) authorId
          (Blog.mkActivity 0 0 0 0) [] (Js.truthyb (cb_draft body)) now.

(** A payload that publishes a new blog on [sampleStore], and the same as a
    draft with nothing but a title. *)
Definition publishBody : CreateBlogBody :=
  mkCreateBlogBody "Slow  Turtles!" "turtle.jpeg" "About turtles" ["Pets"; "SEA"]
                   ["block"] None None.

Definition draftBody : CreateBlogBody :=
  mkCreateBlogBody "Slow  Turtles!" "" "" [] [] (Some true) None.

(** [sampleStore] after u0 has published the blog B2 and u1 has answered
    E, a comment on blog B, with a reply that the request puts on B2. *)
Definition crossBlogStore : Store :=
  fst (addComment "u1" crossBlogReply "F" "nF" 21
         (fst (createBlog "u0" true publishBody "B2" "Zz99" 20 sampleStore))).

(** An edit of the blog of [sampleStore]. *)
Definition editBody : CreateBlogBody :=
  mkCreateBlogBody "The Quick Red Fox" "fox.jpeg" "About a red fox" ["Fox"]
                   ["block"; "more"] None (Some "The-Quick-Fox-Xy12").

(** The notification /add-comment stores for a comment on the blog
    itself. *)
Definition commentNotification (user_id : ObjectId) (body : AddCommentBody)
  (commentOid notifOid : ObjectId) (now : Z) : Notification.t :=
  Notification.mk notifOid Notification.comment (ac__id body)
                  (ac_blog_author body) user_id (Some commentOid) None None
                  false now.

(** The flag of a comment agrees with its parent. *)
Definition replyFlagOk (c : Comment.t) : Prop :=
  Comment.isReply c = true <-> Comment.parent c <> None.

(** u2 writes a comment on blog B, and the author u0 writes one. *)
Definition topLevelComment : AddCommentBody :=
  mkAddCommentBody "B" (Some "third") "u0" None None.

(** A store whose [children] arrays form a cycle and name a comment
    twice. *)
Definition cyclicStore : Store :=
  mkStore [] []
    [Comment.mk "X" "B" "u0" "x" "u1" (Some "Y") true ["Y"; "Y"] 1;
     Comment.mk "Y" "B" "u0" "y" "u2" (Some "X") true ["X"; "Z"] 2;
     Comment.mk "Z" "B" "u0" "z" "u2" (Some "Y") true ["X"] 3]
    [].

(** What /delete-comment and [deleteComments] leave of a blog whatever
    they do: everything but [comments] and the two comment counters. *)
Definition blogFrame (b : Blog.t) :=
  (Blog._id b, Blog.blog_id b, Blog.title b, Blog.banner b, Blog.desc b,
   Blog.content b, Blog.tags b, Blog.author b,
   Blog.total_likes (Blog.activity b), Blog.total_reads (Blog.activity b),
   Blog.draft b, Blog.publishedAt b).

(** What they leave of a notification that stays: everything but
    [reply]. *)
Definition notificationFrame (n : Notification.t) :=
  (Notification._id n, Notification.type_ n, Notification.blog n,
   Notification.notification_for n, Notification.user n,
   Notification.comment_ n, Notification.replied_on_comment n,
   Notification.seen n, Notification.createdAt n).

(** What they leave of a comment that stays: everything but [children]. *)
Definition commentFrame (c : Comment.t) :=
  (Comment._id c, Comment.blog_id c, Comment.blog_author c, Comment.comment c,
   Comment.commented_by c, Comment.parent c, Comment.isReply c,
   Comment.commentedAt c).

(** [l'] is [l] with some elements left out, the order kept. *)
Inductive Sublist {A : Type} : list A -> list A -> Prop :=
| Sublist_nil : Sublist [] []
| Sublist_skip (x : A) (l' l : list A) : Sublist l' l -> Sublist l' (x :: l)
| Sublist_keep (x : A) (l' l : list A) :
    Sublist l' l -> Sublist (x :: l') (x :: l).

(** The frame of a run of [deleteComments] from [st] to [st']. *)
Definition deleteFrame (st st' : Store) : Prop :=
  users st' = users st
  /\ map blogFrame (blogs st') = map blogFrame (blogs st)
  /\ Sublist (map commentFrame (comments st')) (map commentFrame (comments st))
  /\ Sublist (map notificationFrame (notifications st'))
             (map notificationFrame (notifications st)).

(** The [children] of the stored comments name only comments whose
    [parent] is the comment that lists them. *)
Definition childrenOk (cs : list Comment.t) : Prop :=
  forall c d,
    In c cs -> In d cs -> In (Comment._id d) (Comment.children c) ->
    Comment.parent d = Some (Comment._id c).

(** Every comment of [cs'] is a comment of [cs] with the same id and
    parent and no new child. *)
Definition shrinks (cs' cs : list Comment.t) : Prop :=
  forall c', In c' cs' ->
    exists c, In c cs
              /\ Comment._id c' = Comment._id c
              /\ Comment.parent c' = Comment.parent c
              /\ incl (Comment.children c') (Comment.children c).

(** The denormalised counter agrees with the collection: every stored blog
    (the one a lookup by [_id] finds) has as [total_comments] the number
    of stored comments of that blog. *)
Definition counterOk (st : Store) : Prop :=
  forall x b,
    findOne (Blog.byId x) (blogs st) = Some b ->
    Blog.total_comments (Blog.activity b)
    = Z.of_nat (countDocuments (Comment.byBlog x) (comments st)).


(** No comment is named twice by the notifications: at most one
    notification has it as [comment] and at most one has it as [reply]. *)
Definition notifiedOnce (st : Store) : Prop :=
  forall c,
    (countDocuments (Notification.byComment c) (notifications st) <= 1)%nat
    /\ (countDocuments (Notification.byReply c) (notifications st) <= 1)%nat.

(** The id [c] is new to the notifications: none names it. *)
Definition unnotified (c : ObjectId) (st : Store) : Prop :=
  Forall (fun n => Notification.comment_ n <> Some c
                   /\ Notification.reply_ n <> Some c)
         (notifications st).

(** [c'] is the small letter of [c] when [c] is a capital, and [c]
    itself otherwise; a string in lower case, character by character. *)
Definition lowerOf (c c' : ascii) : Prop :=
  if Slug.isUpper c then Slug.code c' = (Slug.code c + 32)%nat else c' = c.

Definition lowerCased (s s' : string) : Prop :=
  Forall2 lowerOf (chars s) (chars s').

(** [Dashed inRun title slug]: [slug] is [title] with every letter and
    digit kept and every maximal run of other characters replaced by one
    dash; [inRun] tells that the character before belongs to such a run,
    whose dash is already written. *)
Inductive Dashed : bool -> list ascii -> list ascii -> Prop :=
| Dashed_nil (inRun : bool) : Dashed inRun [] []
| Dashed_keep (inRun : bool) (c : ascii) (title slug : list ascii) :
    Slug.isAlnum c = true -> Dashed false title slug ->
    Dashed inRun (c :: title) (c :: slug)
| Dashed_open (c : ascii) (title slug : list ascii) :
    Slug.isAlnum c = false -> Dashed true title slug ->
    Dashed false (c :: title) ("-"%char :: slug)
| Dashed_skip (c : ascii) (title slug : list ascii) :
    Slug.isAlnum c = false -> Dashed true title slug ->
    Dashed true (c :: title) slug.

(** An edit of a blog that is not stored; its second tag starts with the
    code unit 201, a capital E with an acute accent. *)
Definition editMissing : CreateBlogBody :=
  mkCreateBlogBody "Nothing" "" "" ["Void"; String (ascii_of_nat 201) "t"] []
                   (Some true) (Some "No-Such-Blog").

(** * Properties *)

(** ** The collection calls *)

Section CollectionFacts.

Context {D : Type}.
Implicit Types (q : D -> bool) (upd : D -> D) (coll : list D).

Lemma findOneAndUpdate_length q upd coll :
  List.length (findOneAndUpdate q upd coll) = List.length coll.
Proof.
  induction coll as [|d rest IH]; simpl; [reflexivity|].
  destruct (q d); simpl; congruence.
Qed.

Lemma findOneAndDelete_length q coll d :
  findOne q coll = Some d ->
  S (List.length (findOneAndDelete q coll)) = List.length coll.
Proof.
  induction coll as [|x rest IH]; simpl; [discriminate|].
  destruct (q x); simpl; intros H; [reflexivity|].
  f_equal. now apply IH.
Qed.

Lemma findOneAndDelete_none q coll :
  findOne q coll = None -> findOneAndDelete q coll = coll.
Proof.
  induction coll as [|x rest IH]; simpl; [reflexivity|].
  destruct (q x); [discriminate|]. intros H. f_equal. now apply IH.
Qed.

Lemma findOneAndUpdate_none q upd coll :
  findOne q coll = None -> findOneAndUpdate q upd coll = coll.
Proof.
  induction coll as [|x rest IH]; simpl; [reflexivity|].
  destruct (q x); [discriminate|]. intros H. f_equal. now apply IH.
Qed.

Lemma findOne_matches q coll d : findOne q coll = Some d -> q d = true.
Proof.
  induction coll as [|x rest IH]; simpl; [discriminate|].
  destruct (q x) eqn:E; [|exact IH]. intros [= <-]. exact E.
Qed.

Lemma findOne_In q coll d : findOne q coll = Some d -> In d coll.
Proof.
  induction coll as [|x rest IH]; simpl; [discriminate|].
  destruct (q x); [intros [= <-]; now left | intros H; right; auto].
Qed.

Lemma findOne_save q coll d :
  findOne q (save d coll) =
  match findOne q coll with
  | Some x => Some x
  | None => if q d then Some d else None
  end.
Proof.
  unfold save. induction coll as [|x rest IH]; simpl; [reflexivity|].
  destruct (q x); [reflexivity | exact IH].
Qed.

(** The document an update by [q] leaves under [q], when the update
    keeps the key [q] looks at. *)
Lemma findOne_findOneAndUpdate_same q upd coll :
  (forall d, q (upd d) = q d) ->
  findOne q (findOneAndUpdate q upd coll) = option_map upd (findOne q coll).
Proof.
  intros K. induction coll as [|x rest IH]; simpl; [reflexivity|].
  destruct (q x) eqn:E; simpl.
  - now rewrite K, E.
  - now rewrite E.
Qed.

(** An update by [q'] is invisible to a query [q] that excludes [q']. *)
Lemma findOne_findOneAndUpdate_other q q' upd coll :
  (forall d, q (upd d) = q d) ->
  (forall d, q d = true -> q' d = false) ->
  findOne q (findOneAndUpdate q' upd coll) = findOne q coll.
Proof.
  intros K X. induction coll as [|x rest IH]; simpl; [reflexivity|].
  destruct (q' x) eqn:E'; simpl.
  - rewrite K. destruct (q x) eqn:E; [|reflexivity].
    apply X in E. congruence.
  - now rewrite IH.
Qed.

Lemma findOne_findOneAndDelete_other q q' coll :
  (forall d, q d = true -> q' d = false) ->
  findOne q (findOneAndDelete q' coll) = findOne q coll.
Proof.
  intros X. induction coll as [|x rest IH]; simpl; [reflexivity|].
  destruct (q' x) eqn:E'; simpl.
  - destruct (q x) eqn:E; [|reflexivity]. apply X in E. congruence.
  - now rewrite IH.
Qed.

Lemma findOneAndUpdate_save_found q upd coll d x :
  findOne q coll = Some x ->
  findOneAndUpdate q upd (save d coll) = save d (findOneAndUpdate q upd coll).
Proof.
  unfold save. induction coll as [|y rest IH]; simpl; [discriminate|].
  destruct (q y); [reflexivity|]. intros H. simpl. f_equal. now apply IH.
Qed.

Lemma countDocuments_zero q coll :
  countDocuments q coll = O <-> forall d, In d coll -> q d = false.
Proof.
  unfold countDocuments. induction coll as [|x rest IH]; simpl.
  - split; [intros _ d []|reflexivity].
  - destruct (q x) eqn:E; simpl.
    + split; [discriminate|]. intros H. specialize (H x (or_introl eq_refl)).
      congruence.
    + rewrite IH. split.
      * intros H d [<-|Hd]; auto.
      * intros H d Hd. apply H. now right.
Qed.

Lemma findOne_none q coll :
  findOne q coll = None <-> forall d, In d coll -> q d = false.
Proof.
  induction coll as [|x rest IH]; simpl.
  - split; [intros _ d []|reflexivity].
  - destruct (q x) eqn:E.
    + split; [discriminate|]. intros H. specialize (H x (or_introl eq_refl)).
      congruence.
    + rewrite IH. split.
      * intros H d [<-|Hd]; auto.
      * intros H d Hd. apply H. now right.
Qed.

End CollectionFacts.

(** ** Pagination *)

Lemma exact_range (z : Z) :
  JsNum.exact z = true <-> - JsNum.maxSafe <= z <= JsNum.maxSafe.
Proof. unfold JsNum.exact. rewrite andb_true_iff, !Z.leb_le. tauto. Qed.

Lemma sub_exact (a b : Z) :
  JsNum.exact a = true -> JsNum.exact b = true ->
  JsNum.exact (a - b) = true -> JsNum.sub a b = Some (a - b).
Proof.
  intros Ha Hb Hab. unfold JsNum.sub, JsNum.ofZ. now rewrite Ha, Hb, Hab.
Qed.

Lemma mul_exact (a b : Z) :
  JsNum.exact a = true -> JsNum.exact b = true ->
  JsNum.exact (a * b) = true -> JsNum.mul a b = Some (a * b).
Proof.
  intros Ha Hb Hab. unfold JsNum.mul, JsNum.ofZ. now rewrite Ha, Hb, Hab.
Qed.

Lemma sub_some (a b c : Z) :
  JsNum.sub a b = Some c ->
  c = a - b /\ JsNum.exact a = true /\ JsNum.exact b = true
  /\ JsNum.exact c = true.
Proof.
  unfold JsNum.sub, JsNum.ofZ.
  destruct (JsNum.exact a), (JsNum.exact b); try discriminate. simpl.
  destruct (JsNum.exact (a - b)) eqn:E; [|discriminate].
  intros [= <-]. auto.
Qed.

Lemma mul_some (a b c : Z) :
  JsNum.mul a b = Some c ->
  c = a * b /\ JsNum.exact a = true /\ JsNum.exact b = true
  /\ JsNum.exact c = true.
Proof.
  unfold JsNum.mul, JsNum.ofZ.
  destruct (JsNum.exact a), (JsNum.exact b); try discriminate. simpl.
  destruct (JsNum.exact (a * b)) eqn:E; [|discriminate].
  intros [= <-]. auto.
Qed.

(** On natural numbers up to [2^53] whose product does not exceed [2^53]
    the offset is the exact one. *)
Lemma skipDocs_exact (s p d : Z) :
  1 <= p <= JsNum.maxSafe -> 0 < s <= JsNum.maxSafe ->
  0 <= d <= JsNum.maxSafe -> (p - 1) * s <= JsNum.maxSafe ->
  skipDocs s p (Some d) = Some ((p - 1) * s - d)
  /\ skipDocs s p None = Some ((p - 1) * s).
Proof.
  intros Hp Hs Hd Hps.
  assert (H1 : JsNum.exact 1 = true) by reflexivity.
  assert (Ep : JsNum.exact p = true) by (apply exact_range; lia).
  assert (Ep1 : JsNum.exact (p - 1) = true) by (apply exact_range; lia).
  assert (Es : JsNum.exact s = true) by (apply exact_range; lia).
  assert (Ed : JsNum.exact d = true) by (apply exact_range; lia).
  assert (Eps : JsNum.exact ((p - 1) * s) = true) by (apply exact_range; nia).
  assert (Eo : JsNum.exact ((p - 1) * s - d) = true)
    by (apply exact_range; nia).
  unfold skipDocs. rewrite (sub_exact _ _ Ep H1 Ep1), (mul_exact _ _ Ep1 Es Eps).
  split; [|reflexivity].
  unfold Js.truthyz. destruct (Z.eqb_spec d 0) as [->|_]; cbn [negb].
  - f_equal. lia.
  - now apply sub_exact.
Qed.

(** C9, as amended.  For natural numbers up to [2^53] whose product
    [(p - 1) * s] does not exceed [2^53], the offset handed to the store is
    [(p - 1) * s - d] when [d] is supplied and [(p - 1) * s] when it is
    not.  A listing with a non-negative offset leaves out the first
    [offset] matching documents in the order of the sort (all of them when
    there are fewer) and answers with up to [s] of the following ones; a
    negative offset is refused by the store and the listing answers 500. *)
Theorem skipDocs_offset (D : Type) (s p d : Z) (matched : list D) :
  1 <= p <= JsNum.maxSafe -> 0 < s <= JsNum.maxSafe ->
  0 <= d <= JsNum.maxSafe -> (p - 1) * s <= JsNum.maxSafe ->
  let offset := (p - 1) * s - d in
  let skipped := firstn (Z.to_nat offset) matched in
  let rest := skipn (Z.to_nat offset) matched in
  skipDocs s p (Some d) = Some offset
  /\ skipDocs s p None = Some ((p - 1) * s)
  /\ matched = (skipped ++ rest)%list
  /\ List.length skipped = Nat.min (Z.to_nat offset) (List.length matched)
  /\ listPage s p (Some d) matched
     = Some (if (offset <? 0)%Z then QueryError
             else Docs (firstn (Z.to_nat s) rest)).
Proof.
  intros Hp Hs Hd Hps offset skipped rest.
  destruct (skipDocs_exact s p d Hp Hs Hd Hps) as [Hsome Hnone].
  split; [exact Hsome|]. split; [exact Hnone|].
  split; [symmetry; apply firstn_skipn|].
  split; [apply length_firstn|].
  unfold listPage. rewrite Hsome. reflexivity.
Qed.

Lemma skipDocs_offset_witness :
  let matched :=
    ["b1"; "b2"; "b3"; "b4"; "b5"; "b6"; "b7"; "b8"; "b9"; "b10"; "b11"] in
  (userWrittenBlogsSkipDocs 2 (Some 1) = Some 4
   /\ userWrittenBlogsSkipDocs 2 None = Some 5
   /\ matched
      = (["b1"; "b2"; "b3"; "b4"]
         ++ ["b5"; "b6"; "b7"; "b8"; "b9"; "b10"; "b11"])%list
   /\ List.length ["b1"; "b2"; "b3"; "b4"] = 4%nat
   /\ userWrittenBlogsPage 2 (Some 1) matched
      = Some (Docs ["b5"; "b6"; "b7"; "b8"; "b9"]))
  /\ (notificationsSkipDocs 2 (Some 3) = Some 7
      /\ notificationsSkipDocs 2 None = Some 10
      /\ matched
         = (["b1"; "b2"; "b3"; "b4"; "b5"; "b6"; "b7"]
            ++ ["b8"; "b9"; "b10"; "b11"])%list
      /\ List.length ["b1"; "b2"; "b3"; "b4"; "b5"; "b6"; "b7"] = 7%nat
      /\ notificationsPage 2 (Some 3) matched
         = Some (Docs ["b8"; "b9"; "b10"; "b11"])).
Proof.
  split.
  - refine (skipDocs_offset string 5 2 1 _ _ _ _ _);
      unfold JsNum.maxSafe; lia.
  - refine (skipDocs_offset string 10 2 3 _ _ _ _ _);
      unfold JsNum.maxSafe; lia.
Defined.

(** C9, as stated, fails: on page 1 with one deleted document the offset
    is -1, which is no number of skipped documents; the store refuses it
    and both listings answer 500. *)
Lemma skipDocs_negative_offset :
  userWrittenBlogsSkipDocs 1 (Some 1) = Some (-1)
  /\ userWrittenBlogsPage 1 (Some 1) ["b1"; "b2"] = Some QueryError
  /\ notificationsSkipDocs 1 (Some 1) = Some (-1)
  /\ notificationsPage 1 (Some 1) ["n1"; "n2"] = Some QueryError.
Proof. repeat split. Qed.

(** ** Publishing *)

Lemma publishChecks_spec (body : CreateBlogBody) :
  publishInvalid body = true <-> exists msg, publishChecks body = Some msg.
Proof.
  unfold publishInvalid, publishChecks.
  destruct (Nat.eqb (String.length (cb_desc body)) 0);
    destruct (200 <? String.length (cb_desc body))%nat;
    destruct (Nat.eqb (String.length (cb_banner body)) 0);
    destruct (Nat.eqb (List.length (cb_content body)) 0);
    destruct (Nat.eqb (List.length (cb_tags body)) 0);
    destruct (10 <? List.length (cb_tags body))%nat; simpl;
    split; intros H; try reflexivity; try discriminate; eauto;
    destruct H as [msg H]; discriminate.
Qed.

Lemma title_length (s : string) : s <> "" -> Nat.eqb (String.length s) 0 = false.
Proof. destruct s; [congruence | reflexivity]. Qed.

(** C6, as amended.  For an admin and a payload with a title: when the
    description is empty or longer than 200, or the banner, the content or
    the tag list is empty, or there are more than 10 tags, the payload is
    answered 403 and the store is untouched if [draft] is absent or false,
    and answered 200 if [draft] is true. *)
Theorem createBlog_publish_checks
  (authorId : ObjectId) (body : CreateBlogBody) (blogOid : ObjectId)
  (nanoid : string) (now : Z) (st : Store) :
  cb_title body <> "" ->
  publishInvalid body = true ->
  (forall d, Js.truthyb d = false ->
     exists msg,
       createBlog authorId true (withDraft d body) blogOid nanoid now st
       = (st, Json 403 (BError msg)))
  /\ (exists id,
        snd (createBlog authorId true (withDraft (Some true) body)
                        blogOid nanoid now st)
        = Json 200 (BId id)).
Proof.
  intros Ht Hinv. apply title_length in Ht.
  apply publishChecks_spec in Hinv. destruct Hinv as [msg Hmsg]. split.
  - intros d Hd. exists msg.
    unfold createBlog, createBlogValidation. simpl. rewrite Ht, Hd. simpl.
    change (publishChecks (withDraft d body)) with (publishChecks body).
    now rewrite Hmsg.
  - unfold createBlog, createBlogValidation. simpl. rewrite Ht. simpl.
    destruct (Js.truthy (cb_id body)); simpl; eauto.
Qed.

Lemma createBlog_publish_checks_witness :
  let body := mkCreateBlogBody "Title" "" "" [] [] None None in
  (forall d, Js.truthyb d = false ->
     exists msg,
       createBlog "u1" true (withDraft d body) "b1" "Xy12" 7 emptyStore
       = (emptyStore, Json 403 (BError msg)))
  /\ (exists id,
        snd (createBlog "u1" true (withDraft (Some true) body)
                        "b1" "Xy12" 7 emptyStore)
        = Json 200 (BId id)).
Proof.
  apply (createBlog_publish_checks "u1"
           (mkCreateBlogBody "Title" "" "" [] [] None None) "b1" "Xy12" 7
           emptyStore).
  - discriminate.
  - reflexivity.
Defined.

(** C6, as stated, fails: a payload without a title and without tags is
    refused when [draft] is true as well. *)
Lemma createBlog_draft_without_title :
  let body := mkCreateBlogBody "" "banner" "desc" [] ["block"] (Some true) None in
  publishInvalid body = true
  /\ createBlog "u1" true body "b1" "Xy12" 7 emptyStore
     = (emptyStore, Json 403 (BError "You must provide a title")).
Proof. split; reflexivity. Qed.

(** ** Deleting a blog *)

Lemma map_findOneAndUpdate {D E : Type} (f : D -> E) (q : D -> bool)
  (upd : D -> D) (coll : list D) :
  (forall d, f (upd d) = f d) ->
  map f (findOneAndUpdate q upd coll) = map f coll.
Proof.
  intros K. induction coll as [|x rest IH]; simpl; [reflexivity|].
  destruct (q x); simpl; [now rewrite K | now rewrite IH].
Qed.

(** The update of /delete-blog pulls from a path the user schema does not
    have and decrements the post counter. *)
Lemma deleteBlog_user_update (b : ObjectId) (u : User.t) :
  applyUpdate User.applyOp [Pull "blog" b; Inc "account_info.total_posts" (-1)] u
  = User.mk (User._id u) (User.total_posts u - 1) (User.total_reads u)
            (User.blogs u) (User.admin u).
Proof. reflexivity. Qed.

(** C10. Whatever the caller, the slug and the store, /delete-blog leaves
    the [blogs] array of every user as it was, the author's included: the
    identifiers, their order and their [blogs] are the same before and
    after, and the only user document that can differ is the caller's,
    whose [total_posts] loses one. *)
Theorem deleteBlog_keeps_user_blogs
  (user_id : ObjectId) (isAdmin : bool) (blog_id : string) (st : Store) :
  let st' := fst (deleteBlog user_id isAdmin blog_id st) in
  map User.blogs (users st') = map User.blogs (users st)
  /\ map User._id (users st') = map User._id (users st)
  /\ (users st' = users st
      \/ users st' =
         findOneAndUpdate (User.byId user_id)
           (fun u => User.mk (User._id u) (User.total_posts u - 1)
                             (User.total_reads u) (User.blogs u)
                             (User.admin u))
           (users st)).
Proof.
  unfold deleteBlog. destruct isAdmin; simpl; [|now auto].
  destruct (findOne (Blog.bySlug blog_id) (blogs st)) as [blog|]; simpl;
    [|now auto].
  repeat split.
  - now apply map_findOneAndUpdate.
  - now apply map_findOneAndUpdate.
  - right. reflexivity.
Qed.

(** ** Likes *)

Lemma activity_like_round (a : Blog.Activity) :
  Blog.incActivity "activity.total_likes" (-1)
    (Blog.incActivity "activity.total_likes" 1 a) = a.
Proof. destruct a; unfold Blog.incActivity; simpl. f_equal. lia. Qed.

Lemma findOneAndUpdate_twice {D : Type} (q : D -> bool) (f g : D -> D)
  (coll : list D) :
  (forall d, q (f d) = q d) ->
  findOneAndUpdate q g (findOneAndUpdate q f coll)
  = findOneAndUpdate q (fun d => g (f d)) coll.
Proof.
  intros K. induction coll as [|x rest IH]; simpl; [reflexivity|].
  destruct (q x) eqn:E; simpl.
  - now rewrite K, E.
  - now rewrite E, IH.
Qed.

Lemma findOneAndUpdate_id {D : Type} (q : D -> bool) (f : D -> D)
  (coll : list D) :
  (forall d, f d = d) -> findOneAndUpdate q f coll = coll.
Proof.
  intros K. induction coll as [|x rest IH]; simpl; [reflexivity|].
  destruct (q x); [now rewrite K | now rewrite IH].
Qed.

Lemma findOneAndDelete_save_fresh {D : Type} (q : D -> bool) (d : D)
  (coll : list D) :
  findOne q coll = None -> q d = true ->
  findOneAndDelete q (save d coll) = coll.
Proof.
  unfold save. induction coll as [|x rest IH]; simpl; intros N Q.
  - now rewrite Q.
  - destruct (q x); [discriminate|]. f_equal. now apply IH.
Qed.

(** C5. On a blog that exists and that the user has not liked yet (no
    [like] notification of this user for this blog), a like followed by an
    unlike gives back the store it started from: [total_likes] has its
    original value, and no [like] notification of the pair is left. *)
Theorem like_then_unlike
  (user_id _id : ObjectId) (on off : option Like.flag)
  (n1 n2 : ObjectId) (t1 t2 : Z) (st : Store) (b : Blog.t) :
  Like.truthy on = false ->
  Like.positive off = true ->
  findOne (Blog.byId _id) (blogs st) = Some b ->
  countDocuments (Notification.isLikeOf user_id _id) (notifications st) = O ->
  let st1 := fst (likeBlog user_id _id on n1 t1 st) in
  let st2 := fst (likeBlog user_id _id off n2 t2 st1) in
  (exists b1, findOne (Blog.byId _id) (blogs st1) = Some b1
     /\ Blog.total_likes (Blog.activity b1)
        = Blog.total_likes (Blog.activity b) + 1
     /\ countDocuments (Notification.isLikeOf user_id _id)
                       (notifications st1) = 1%nat)
  /\ findOne (Blog.byId _id) (blogs st2) = Some b
  /\ countDocuments (Notification.isLikeOf user_id _id) (notifications st2) = O
  /\ st2 = st.
Proof.
  intros Hon Hoff Hb Hnone.
  assert (Hoff' : Like.truthy off = true).
  { destruct off as [[[]|z]|]; simpl in *; try discriminate; try reflexivity.
    destruct (Z.eqb_spec z 0) as [->|]; [discriminate | reflexivity]. }
  assert (Hfresh : findOne (Notification.isLikeOf user_id _id)
                           (notifications st) = None).
  { apply findOne_none. now apply countDocuments_zero. }
  unfold likeBlog. rewrite Hon, Hb. simpl.
  rewrite Hoff', Hoff. simpl.
  assert (Hblogs :
    findOneAndUpdate (Blog.byId _id)
      (applyUpdate Blog.applyOp [Inc "activity.total_likes" (-1)])
      (findOneAndUpdate (Blog.byId _id)
         (applyUpdate Blog.applyOp [Inc "activity.total_likes" 1]) (blogs st))
    = blogs st).
  { rewrite findOneAndUpdate_twice by reflexivity.
    apply findOneAndUpdate_id. intros [i s ? ? ? ? ? ? a ? ? ?].
    unfold applyUpdate; simpl. unfold Blog.withActivity; simpl.
    now rewrite activity_like_round. }
  assert (Hnotifs :
    findOneAndDelete (Notification.isLikeOf user_id _id)
      (save (Notification.mk n1 Notification.like _id (Blog.author b) user_id
                             None None None false t1) (notifications st))
    = notifications st).
  { apply findOneAndDelete_save_fresh; [exact Hfresh|].
    unfold Notification.isLikeOf; simpl. now rewrite !String.eqb_refl. }
  split; [|rewrite Hblogs, Hnotifs; repeat split].
  - exists (applyUpdate Blog.applyOp [Inc "activity.total_likes" 1] b).
    split; [|split].
    + rewrite findOne_findOneAndUpdate_same by reflexivity. now rewrite Hb.
    + reflexivity.
    + unfold countDocuments, save in *. rewrite filter_app, length_app.
      rewrite Hnone. simpl. unfold Notification.isLikeOf at 1; simpl.
      now rewrite !String.eqb_refl.
  - exact Hb.
  - exact Hnone.
  - now destruct st.
Qed.

Lemma like_then_unlike_witness :
  let st1 := fst (likeBlog "u2" "B" (Some (Like.FBool false)) "nL" 20
                           sampleStore) in
  let st2 := fst (likeBlog "u2" "B" (Some (Like.FBool true)) "nM" 21 st1) in
  (exists b1, findOne (Blog.byId "B") (blogs st1) = Some b1
     /\ Blog.total_likes (Blog.activity b1) = 0 + 1
     /\ countDocuments (Notification.isLikeOf "u2" "B")
                       (notifications st1) = 1%nat)
  /\ (exists b2, findOne (Blog.byId "B") (blogs st2) = Some b2
        /\ Blog.total_likes (Blog.activity b2) = 0)
  /\ countDocuments (Notification.isLikeOf "u2" "B") (notifications st2) = O
  /\ st2 = sampleStore.
Proof.
  destruct (like_then_unlike "u2" "B" (Some (Like.FBool false))
              (Some (Like.FBool true)) "nL" "nM" 20 21 sampleStore
              sampleBlog eq_refl eq_refl eq_refl eq_refl)
    as (H1 & H2 & H3 & H4).
  split; [exact H1|]. split; [|split; [exact H3 | exact H4]].
  eexists. split; [exact H2 | reflexivity].
Defined.

(** ** Adding a comment *)

Lemma hasLength_nonempty (s : string) : s <> "" -> Js.hasLength (Some s) = true.
Proof. destruct s; [congruence | reflexivity]. Qed.

Lemma truthy_nonempty (s : string) : s <> "" -> Js.truthy (Some s) = true.
Proof. destruct s; [congruence | reflexivity]. Qed.

Lemma given_nonempty (s : string) : s <> "" -> Js.given (Some s) = Some s.
Proof. intros H. unfold Js.given. now rewrite truthy_nonempty. Qed.

Lemma given_truthy (o : option string) :
  Js.truthy o = false -> Js.given o = None.
Proof. unfold Js.given. now intros ->. Qed.

Section AddComment.

Variables (user_id : ObjectId) (body : AddCommentBody)
          (commentOid notifOid : ObjectId) (now : Z) (st : Store)
          (text : string).
Hypothesis Htext : ac_comment body = Some text.
Hypothesis Hnonempty : text <> "".

Let st' := fst (addComment user_id body commentOid notifOid now st).
Let isReply := Js.truthy (ac_replying_to body).

Lemma addComment_blogs :
  blogs st' =
  findOneAndUpdate (Blog.byId (ac__id body))
    (applyUpdate Blog.applyOp
       [Push "comments" commentOid;
        Inc "activity.total_comments" 1;
        Inc "activity.total_parent_comments" (if isReply then 0 else 1)])
    (blogs st).
Proof.
  unfold st', isReply, addComment.
  rewrite Htext, (hasLength_nonempty _ Hnonempty). simpl.
  destruct (Js.given (ac_replying_to body)) as [p|]; [|reflexivity].
  destruct (findOne (Comment.byId p) _); [|reflexivity].
  destruct (Js.given (ac_notification_id body)); reflexivity.
Qed.

Lemma addComment_users : users st' = users st.
Proof.
  unfold st', addComment.
  rewrite Htext, (hasLength_nonempty _ Hnonempty). simpl.
  destruct (Js.given (ac_replying_to body)) as [p|]; [|reflexivity].
  destruct (findOne (Comment.byId p) _); [|reflexivity].
  destruct (Js.given (ac_notification_id body)); reflexivity.
Qed.

Lemma addComment_comments :
  comments st' =
  match Js.given (ac_replying_to body) with
  | Some p =>
      findOneAndUpdate (Comment.byId p)
        (applyUpdate Comment.applyOp [Push "children" commentOid])
        (save (newComment user_id body text commentOid now) (comments st))
  | None => save (newComment user_id body text commentOid now) (comments st)
  end.
Proof.
  unfold st', addComment, newComment.
  rewrite Htext, (hasLength_nonempty _ Hnonempty). simpl.
  destruct (Js.given (ac_replying_to body)) as [p|]; [|reflexivity].
  destruct (findOne (Comment.byId p) _); [|reflexivity].
  destruct (Js.given (ac_notification_id body)); reflexivity.
Qed.

End AddComment.

(** C4. A call of /add-comment with a text that is not empty, on a blog
    that exists, appends the new comment's id to the blog's [comments],
    adds 1 to [activity.total_comments], and adds to
    [activity.total_parent_comments] 1 when no parent is given and 0 when
    the comment is a reply, and leaves the rest of the blog as it is; for
    a reply to the stored comment [pc] with id [p] (the case
    [parent = Some (p, pc)]) the new id is appended to the [children] of
    that comment, which is otherwise as before. *)
Theorem addComment_counters_and_children
  (user_id : ObjectId) (body : AddCommentBody) (commentOid notifOid : ObjectId)
  (now : Z) (st : Store) (text : string) (b : Blog.t)
  (parent : option (ObjectId * Comment.t)) :
  ac_comment body = Some text ->
  text <> "" ->
  findOne (Blog.byId (ac__id body)) (blogs st) = Some b ->
  match parent with
  | Some (p, pc) =>
      ac_replying_to body = Some p /\ p <> ""
      /\ findOne (Comment.byId p) (comments st) = Some pc
  | None => True
  end ->
  let st' := fst (addComment user_id body commentOid notifOid now st) in
  let isReply := Js.truthy (ac_replying_to body) in
  findOne (Blog.byId (ac__id body)) (blogs st')
  = Some (Blog.mk (Blog._id b) (Blog.blog_id b) (Blog.title b)
                  (Blog.banner b) (Blog.desc b) (Blog.content b)
                  (Blog.tags b) (Blog.author b)
                  (Blog.mkActivity
                     (Blog.total_likes (Blog.activity b))
                     (Blog.total_reads (Blog.activity b))
                     (Blog.total_comments (Blog.activity b) + 1)
                     (Blog.total_parent_comments (Blog.activity b)
                      + (if isReply then 0 else 1)))
                  (Blog.comments b ++ [commentOid])%list
                  (Blog.draft b) (Blog.publishedAt b))
  /\ match ac_replying_to body with
     | None => isReply = false
     | Some _ => True
     end
  /\ match parent with
     | Some (p, pc) =>
         isReply = true
         /\ findOne (Comment.byId p) (comments st')
            = Some (Comment.mk (Comment._id pc) (Comment.blog_id pc)
                               (Comment.blog_author pc) (Comment.comment pc)
                               (Comment.commented_by pc) (Comment.parent pc)
                               (Comment.isReply pc)
                               (Comment.children pc ++ [commentOid])%list
                               (Comment.commentedAt pc))
     | None => True
     end.
Proof.
  intros Htext Hne Hb Hparent st' isReply. split; [|split].
  - unfold st'. rewrite (addComment_blogs _ _ _ _ _ _ _ Htext Hne).
    rewrite findOne_findOneAndUpdate_same by reflexivity. rewrite Hb.
    fold isReply. destruct isReply; reflexivity.
  - unfold isReply. destruct (ac_replying_to body); [exact I | reflexivity].
  - destruct parent as [[p pc]|]; [|exact I].
    destruct Hparent as (Hp & Hpne & Hpc). split.
    { unfold isReply. rewrite Hp. now apply truthy_nonempty. }
    unfold st'. rewrite (addComment_comments _ _ _ _ _ _ _ Htext Hne).
    rewrite Hp, (given_nonempty _ Hpne).
    rewrite (findOneAndUpdate_save_found _ _ _ _ _ Hpc), findOne_save.
    rewrite findOne_findOneAndUpdate_same by reflexivity. rewrite Hpc.
    reflexivity.
Qed.

(** On [sampleStore]: u1 answers E, and u2 writes a comment on the blog
    itself. *)
Lemma addComment_counters_and_children_witness :
  (let st' := fst (addComment "u1" sampleReply "F" "nF" 15 sampleStore) in
   findOne (Blog.byId "B") (blogs st')
   = Some (Blog.mk "B" "The-Quick-Fox-Xy12" "The Quick Fox" "banner.jpeg"
                   "About a fox" ["block"] ["fox"] "u0"
                   (Blog.mkActivity 0 0 5 2) ["A"; "C"; "D"; "E"; "F"]
                   false 10)
   /\ True
   /\ (Js.truthy (Some "E") = true
       /\ findOne (Comment.byId "E") (comments st')
          = Some (Comment.mk "E" "B" "u0" "second" "u2" None false ["F"]
                             14)))
  /\ (let st' := fst (addComment "u2" topLevelComment "F" "nF" 15
                                 sampleStore) in
      findOne (Blog.byId "B") (blogs st')
      = Some (Blog.mk "B" "The-Quick-Fox-Xy12" "The Quick Fox" "banner.jpeg"
                      "About a fox" ["block"] ["fox"] "u0"
                      (Blog.mkActivity 0 0 5 3) ["A"; "C"; "D"; "E"; "F"]
                      false 10)
      /\ Js.truthy None = false
      /\ True).
Proof.
  split.
  - refine (addComment_counters_and_children "u1" sampleReply "F" "nF" 15
              sampleStore "third" sampleBlog
              (Some ("E", Comment.mk "E" "B" "u0" "second" "u2" None false []
                                     14))
              _ _ _ _);
      [reflexivity | discriminate | reflexivity |].
    split; [reflexivity|]. split; [discriminate | reflexivity].
  - refine (addComment_counters_and_children "u2" topLevelComment "F" "nF" 15
              sampleStore "third" sampleBlog None _ _ _ _);
      [reflexivity | discriminate | reflexivity | exact I].
Defined.

(** C7, as amended.  A reply on a stored blog whose parent id matches no
    comment is not reported and is not a no-op: no response is sent, the
    reply document is stored with its [parent] set and is the only change
    of the comments, its id is appended to the blog's [comments] and the
    blog's [total_comments] grows by 1; the users and the notifications
    are as before. *)
Theorem addComment_missing_parent
  (user_id : ObjectId) (body : AddCommentBody) (commentOid notifOid : ObjectId)
  (now : Z) (st : Store) (text : string) (p : ObjectId) (b : Blog.t) :
  ac_comment body = Some text ->
  text <> "" ->
  ac_replying_to body = Some p ->
  p <> "" ->
  p <> commentOid ->
  findOne (Comment.byId p) (comments st) = None ->
  findOne (Blog.byId (ac__id body)) (blogs st) = Some b ->
  let r := addComment user_id body commentOid notifOid now st in
  snd r = NoResponse
  /\ comments (fst r)
     = (comments st
        ++ [Comment.mk commentOid (ac__id body) (ac_blog_author body) text
                       user_id (Some p) true [] now])%list
  /\ findOne (Blog.byId (ac__id body)) (blogs (fst r))
     = Some (Blog.mk (Blog._id b) (Blog.blog_id b) (Blog.title b)
                     (Blog.banner b) (Blog.desc b) (Blog.content b)
                     (Blog.tags b) (Blog.author b)
                     (Blog.mkActivity
                        (Blog.total_likes (Blog.activity b))
                        (Blog.total_reads (Blog.activity b))
                        (Blog.total_comments (Blog.activity b) + 1)
                        (Blog.total_parent_comments (Blog.activity b) + 0))
                     (Blog.comments b ++ [commentOid])%list
                     (Blog.draft b) (Blog.publishedAt b))
  /\ notifications (fst r) = notifications st
  /\ users (fst r) = users st.
Proof.
  intros Htext Hne Hp Hpne Hfresh Habsent Hb r.
  assert (Hst2 : findOne (Comment.byId p)
                   (save (newComment user_id body text commentOid now)
                         (comments st)) = None).
  { rewrite findOne_save, Habsent. unfold Comment.byId, newComment; simpl.
    destruct (String.eqb_spec commentOid p); congruence. }
  split; [|split; [|split; [|split]]].
  - unfold r, addComment.
    rewrite Htext, (hasLength_nonempty _ Hne). simpl.
    rewrite Hp, (given_nonempty _ Hpne).
    unfold newComment in Hst2. rewrite Hp, (given_nonempty _ Hpne) in Hst2.
    rewrite (truthy_nonempty _ Hpne) in *.
    now rewrite Hst2.
  - unfold r. rewrite (addComment_comments _ _ _ _ _ _ _ Htext Hne).
    rewrite Hp, (given_nonempty _ Hpne).
    rewrite findOneAndUpdate_none by exact Hst2.
    unfold newComment, save.
    now rewrite Hp, (given_nonempty _ Hpne), (truthy_nonempty _ Hpne).
  - unfold r.
    rewrite (addComment_blogs _ _ _ _ _ _ _ Htext Hne).
    rewrite findOne_findOneAndUpdate_same by reflexivity. rewrite Hb.
    rewrite Hp, (truthy_nonempty _ Hpne). reflexivity.
  - unfold r, addComment.
    rewrite Htext, (hasLength_nonempty _ Hne). simpl.
    rewrite Hp, (given_nonempty _ Hpne).
    unfold newComment in Hst2. rewrite Hp, (given_nonempty _ Hpne) in Hst2.
    rewrite (truthy_nonempty _ Hpne) in *.
    now rewrite Hst2.
  - unfold r. now rewrite (addComment_users _ _ _ _ _ _ _ Htext Hne).
Qed.

Lemma addComment_missing_parent_witness :
  let r := addComment "u1" danglingReply "F" "nF" 15 sampleStore in
  snd r = NoResponse
  /\ comments (fst r)
     = [Comment.mk "A" "B" "u0" "first" "u1" None false ["C"] 11;
        Comment.mk "C" "B" "u0" "thanks" "u0" (Some "A") true ["D"] 12;
        Comment.mk "D" "B" "u0" "welcome" "u1" (Some "C") true [] 13;
        Comment.mk "E" "B" "u0" "second" "u2" None false [] 14;
        Comment.mk "F" "B" "u0" "third" "u1" (Some "Z") true [] 15]
  /\ findOne (Blog.byId "B") (blogs (fst r))
     = Some (Blog.mk "B" "The-Quick-Fox-Xy12" "The Quick Fox" "banner.jpeg"
                     "About a fox" ["block"] ["fox"] "u0"
                     (Blog.mkActivity 0 0 5 2) ["A"; "C"; "D"; "E"; "F"]
                     false 10)
  /\ notifications (fst r) = notifications sampleStore
  /\ users (fst r) = users sampleStore.
Proof.
  refine (addComment_missing_parent "u1" danglingReply "F" "nF" 15 sampleStore
            "third" "Z" sampleBlog _ _ _ _ _ _ _);
    try reflexivity; discriminate.
Defined.

(** C7, as stated, fails: on [sampleStore] a reply to the absent comment Z
    is answered by nothing, and it stores a fifth comment and raises the
    blog's counter. *)
Lemma addComment_dangling_reply_changes_store :
  let r := addComment "u1" danglingReply "F" "nF" 15 sampleStore in
  findOne (Comment.byId "Z") (comments sampleStore) = None
  /\ snd r = NoResponse
  /\ fst r <> sampleStore
  /\ List.length (comments sampleStore) = 4%nat
  /\ List.length (comments (fst r)) = 5%nat
  /\ commentCounter "B" sampleStore = Some 4
  /\ commentCounter "B" (fst r) = Some 5.
Proof.
  repeat split; try reflexivity.
  intros H. apply (f_equal (fun s => List.length (comments s))) in H.
  discriminate H.
Qed.

(** A comment that is not stored: [deleteComments] changes nothing, and
    /delete-comment changes nothing and answers nothing. *)
Lemma deleteComments_absent (fuel : nat) (_id : ObjectId) (st : Store) :
  findOne (Comment.byId _id) (comments st) = None ->
  deleteComments (S fuel) _id st = Some st
  /\ forall user_id, deleteComment user_id _id st = (st, NoResponse).
Proof.
  intros H. unfold deleteComment. simpl. now rewrite H.
Qed.

(** C8. For a reply to a stored comment exactly one notification is
    created, the last of the collection; it has type [reply], is addressed
    to the author of the parent comment (not to the [blog_author] of the
    request), and its [replied_on_comment] is the parent id.  When the id
    of a prior notification is supplied and that notification [old] is
    stored (the case [prior = Some (nid, Some old)]), it is afterwards
    [old] with its [reply] field set to the new comment's id; when the id
    matches no notification, or none is supplied, the earlier notifications
    are untouched. *)
Theorem addComment_reply_notification
  (user_id : ObjectId) (body : AddCommentBody) (commentOid notifOid : ObjectId)
  (now : Z) (st : Store) (text : string) (p : ObjectId) (pc : Comment.t)
  (prior : option (ObjectId * option Notification.t)) :
  ac_comment body = Some text ->
  text <> "" ->
  ac_replying_to body = Some p ->
  p <> "" ->
  findOne (Comment.byId p) (comments st) = Some pc ->
  match prior with
  | Some (nid, old) =>
      ac_notification_id body = Some nid /\ nid <> ""
      /\ findOne (Notification.byId nid) (notifications st) = old
  | None => Js.truthy (ac_notification_id body) = false
  end ->
  let st' := fst (addComment user_id body commentOid notifOid now st) in
  let n := List.length (notifications st) in
  skipn n (notifications st')
  = [Notification.mk notifOid Notification.reply (ac__id body)
                     (Comment.commented_by pc) user_id
                     (Some commentOid) (Some p) None false now]
  /\ match prior with
     | Some (nid, Some old) =>
         findOne (Notification.byId nid) (notifications st')
         = Some (Notification.mk
                   (Notification._id old) (Notification.type_ old)
                   (Notification.blog old) (Notification.notification_for old)
                   (Notification.user old) (Notification.comment_ old)
                   (Notification.replied_on_comment old) (Some commentOid)
                   (Notification.seen old) (Notification.createdAt old))
     | _ => firstn n (notifications st') = notifications st
     end.
Proof.
  intros Htext Hne Hp Hpne Hpc Hprior st' n.
  assert (Hst2 : findOne (Comment.byId p)
                   (save (Comment.mk commentOid (ac__id body)
                            (ac_blog_author body) text user_id (Some p) true
                            [] now) (comments st)) = Some pc).
  { now rewrite findOne_save, Hpc. }
  assert (Hsplit : forall (earlier : list Notification.t) new,
             List.length earlier = n ->
             skipn n (earlier ++ [new]) = [new]
             /\ firstn n (earlier ++ [new]) = earlier).
  { intros earlier new <-. split.
    - rewrite skipn_app, skipn_all, Nat.sub_diag. reflexivity.
    - rewrite firstn_app, firstn_all, Nat.sub_diag. cbn [firstn].
      apply app_nil_r. }
  assert (Hshape :
            notifications st'
            = save (Notification.mk notifOid Notification.reply (ac__id body)
                      (Comment.commented_by pc) user_id (Some commentOid)
                      (Some p) None false now)
                   match Js.given (ac_notification_id body) with
                   | Some nid =>
                       findOneAndUpdate (Notification.byId nid)
                         (applyUpdate Notification.applyOp
                            [SetField "reply" (VId commentOid)])
                         (notifications st)
                   | None => notifications st
                   end).
  { unfold st', addComment.
    rewrite Htext, (hasLength_nonempty _ Hne). simpl.
    rewrite Hp, (given_nonempty _ Hpne), (truthy_nonempty _ Hpne). simpl.
    rewrite Hst2.
    destruct (Js.given (ac_notification_id body)); reflexivity. }
  rewrite Hshape. clear Hshape.
  destruct prior as [[nid old]|].
  - destruct Hprior as (Hnid & Hnz & Hold).
    rewrite Hnid, (given_nonempty _ Hnz).
    destruct (Hsplit _ (Notification.mk notifOid Notification.reply
                          (ac__id body) (Comment.commented_by pc) user_id
                          (Some commentOid) (Some p) None false now)
                (findOneAndUpdate_length (Notification.byId nid)
                   (applyUpdate Notification.applyOp
                      [SetField "reply" (VId commentOid)])
                   (notifications st))) as [Hs Hf].
    split; [exact Hs|].
    destruct old as [old|].
    + rewrite findOne_save.
      rewrite findOne_findOneAndUpdate_same by reflexivity.
      now rewrite Hold.
    + unfold save. rewrite Hf. now apply findOneAndUpdate_none.
  - rewrite (given_truthy _ Hprior).
    destruct (Hsplit (notifications st)
                (Notification.mk notifOid Notification.reply
                   (ac__id body) (Comment.commented_by pc) user_id
                   (Some commentOid) (Some p) None false now) eq_refl)
      as [Hs Hf].
    split; assumption.
Qed.

(** On [sampleStore] u0 answers D from the notification nD that told
    about it: the new notification nF goes to u1, the author of D, and nD
    names the reply F. *)
Lemma addComment_reply_notification_witness :
  let st' := fst (addComment "u0" replyFromNotification "F" "nF" 15
                             sampleStore) in
  skipn 4 (notifications st')
  = [Notification.mk "nF" Notification.reply "B" "u1" "u0"
                     (Some "F") (Some "D") None false 15]
  /\ findOne (Notification.byId "nD") (notifications st')
     = Some (Notification.mk "nD" Notification.reply "B" "u0" "u1"
                             (Some "D") (Some "C") (Some "F") false 13).
Proof.
  refine (addComment_reply_notification "u0" replyFromNotification "F" "nF"
            15 sampleStore "indeed" "D"
            (Comment.mk "D" "B" "u0" "welcome" "u1" (Some "C") true [] 13)
            (Some ("nD",
                   Some (Notification.mk "nD" Notification.reply "B" "u0" "u1"
                                         (Some "D") (Some "C") None false 13)))
            _ _ _ _ _ _);
    [reflexivity | discriminate | reflexivity | discriminate | reflexivity |].
  split; [reflexivity|]. split; [discriminate | reflexivity].
Defined.

(** ** Deleting a comment: the step on one comment *)

(** What the blog update of [deleteComments] does to a blog: the id leaves
    [comments], [total_comments] loses one, and [total_parent_comments] is
    overwritten. *)
Lemma deleteComments_blog_update (_id : ObjectId) (v : Z) (b : Blog.t) :
  applyUpdate Blog.applyOp
    [Pull "comments" _id; Inc "activity.total_comments" (-1);
     SetField "activity.total_parent_comments" (VNum v)] b
  = Blog.mk (Blog._id b) (Blog.blog_id b) (Blog.title b) (Blog.banner b)
            (Blog.desc b) (Blog.content b) (Blog.tags b) (Blog.author b)
            (Blog.mkActivity (Blog.total_likes (Blog.activity b))
                             (Blog.total_reads (Blog.activity b))
                             (Blog.total_comments (Blog.activity b) - 1)
                             v)
            (pull _id (Blog.comments b)) (Blog.draft b) (Blog.publishedAt b).
Proof. reflexivity. Qed.

Lemma deleteCommentNode_blogs (_id : ObjectId) (comment : Comment.t)
  (st : Store) :
  blogs (deleteCommentNode _id comment st)
  = findOneAndUpdate (Blog.byId (Comment.blog_id comment))
      (applyUpdate Blog.applyOp
         [Pull "comments" _id; Inc "activity.total_comments" (-1);
          SetField "activity.total_parent_comments"
                   (VNum (if Js.truthy (Comment.parent comment)
                          then 0 else -1))])
      (blogs st).
Proof.
  unfold deleteCommentNode.
  destruct (Js.given (Comment.parent comment)); reflexivity.
Qed.

(** After the step on one comment the parent counter of its blog is 0 for
    a reply and -1 for a top-level comment, whatever it was. *)
Lemma deleteCommentNode_parent_counter (_id : ObjectId) (comment : Comment.t)
  (st : Store) (b : Blog.t) :
  findOne (Blog.byId (Comment.blog_id comment)) (blogs st) = Some b ->
  parentCounter (Comment.blog_id comment) (deleteCommentNode _id comment st)
  = Some (if Js.truthy (Comment.parent comment) then 0 else -1).
Proof.
  intros Hb. unfold parentCounter. rewrite deleteCommentNode_blogs.
  rewrite findOne_findOneAndUpdate_same by reflexivity. now rewrite Hb.
Qed.

(** C1, on the code.  On [sampleStore] the blog counts 2 top-level
    comments.  Deleting the top-level comment E leaves the counter at -1
    and not at 1; deleting the reply D leaves it at 0 and not at 2. *)
Theorem deleteComments_overwrites_parent_counter :
  parentCounter "B" sampleStore = Some 2
  /\ option_map (parentCounter "B")
       (deleteComments (deleteCommentsFuel sampleStore) "E" sampleStore)
     = Some (Some (-1))
  /\ option_map (parentCounter "B")
       (deleteComments (deleteCommentsFuel sampleStore) "D" sampleStore)
     = Some (Some 0).
Proof. repeat split. Qed.

(** ** Queries that match at most one document *)

Section AtMostOne.

Context {D : Type}.
Implicit Types (q : D -> bool) (upd : D -> D) (coll : list D).

Lemma Forall_findOneAndUpdate (P : D -> Prop) q upd coll :
  (forall d, P d -> P (upd d)) ->
  Forall P coll -> Forall P (findOneAndUpdate q upd coll).
Proof.
  intros K H. induction H as [|x rest Hx Hrest IH]; simpl; [constructor|].
  destruct (q x); constructor; auto.
Qed.

Lemma Forall_findOneAndDelete (P : D -> Prop) q coll :
  Forall P coll -> Forall P (findOneAndDelete q coll).
Proof.
  intros H. induction H as [|x rest Hx Hrest IH]; simpl; [constructor|].
  destruct (q x); [assumption | now constructor].
Qed.

Lemma countDocuments_findOneAndDelete q q' coll :
  (countDocuments q (findOneAndDelete q' coll) <= countDocuments q coll)%nat.
Proof.
  unfold countDocuments. induction coll as [|x rest IH]; simpl; [lia|].
  destruct (q' x); simpl; destruct (q x); simpl; lia.
Qed.





End AtMostOne.

Lemma isId_false (i : ObjectId) (o : option ObjectId) :
  isId i o = false <-> o <> Some i.
Proof.
  destruct o as [j|]; simpl; [|split; [discriminate | reflexivity]].
  destruct (String.eqb_spec j i) as [->|N]; split; congruence.
Qed.


(** ** Deleting a comment: notifications *)

Lemma deleteCommentNode_notifications (_id : ObjectId) (comment : Comment.t)
  (st : Store) :
  notifications (deleteCommentNode _id comment st)
  = findOneAndUpdate (Notification.byReply _id)
      (applyUpdate Notification.applyOp [Unset "reply"])
      (findOneAndDelete (Notification.byComment _id) (notifications st)).
Proof.
  unfold deleteCommentNode.
  destruct (Js.given (Comment.parent comment)); reflexivity.
Qed.



(** ** Deleting a comment: the whole run *)

Lemma forEach_nil (f : ObjectId -> Store -> option Store) (st : Store) :
  forEach f [] st = Some st.
Proof. reflexivity. Qed.

Lemma forEach_cons (f : ObjectId -> Store -> option Store) (id : ObjectId)
  (ids : list ObjectId) (st : Store) :
  forEach f (id :: ids) st =
  match f id st with
  | Some s => forEach f ids s
  | None => None
  end.
Proof.
  unfold forEach. simpl. destruct (f id st); [reflexivity|].
  induction ids; simpl; auto.
Qed.

(** A property that every call establishes from itself holds after the
    run of the calls. *)
Lemma forEach_total (f : ObjectId -> Store -> option Store)
  (I : Store -> Prop) :
  (forall id s, I s -> exists s', f id s = Some s' /\ I s') ->
  forall ids s, I s -> exists s', forEach f ids s = Some s' /\ I s'.
Proof.
  intros Hf ids. induction ids as [|id ids IH]; intros s Hs.
  - exists s. now rewrite forEach_nil.
  - rewrite forEach_cons. destruct (Hf id s Hs) as (s1 & -> & H1).
    now apply IH.
Qed.

Lemma forEach_preserves (f : ObjectId -> Store -> option Store)
  (I : Store -> Prop) :
  (forall id s s', f id s = Some s' -> I s -> I s') ->
  forall ids s s', forEach f ids s = Some s' -> I s -> I s'.
Proof.
  intros Hf ids. induction ids as [|id ids IH]; intros s s'.
  - rewrite forEach_nil. now intros [= <-].
  - rewrite forEach_cons. destruct (f id s) as [s1|] eqn:E; [|discriminate].
    intros H Hs. apply (IH s1 s' H). now apply (Hf id s s1).
Qed.

Lemma deleteCommentNode_comments_length (_id : ObjectId) (comment : Comment.t)
  (st : Store) :
  findOne (Comment.byId _id) (comments st) = Some comment ->
  S (List.length (comments (deleteCommentNode _id comment st)))
  = List.length (comments st).
Proof.
  intros H. unfold deleteCommentNode.
  destruct (Js.given (Comment.parent comment)); simpl;
    rewrite ?findOneAndUpdate_length;
    exact (findOneAndDelete_length _ _ _ H).
Qed.

(** [deleteComments] returns: with more fuel than there are comments the
    run ends, and it stores no more comments than before. *)
Lemma deleteComments_total (fuel : nat) :
  forall (_id : ObjectId) (st : Store),
    (List.length (comments st) < fuel)%nat ->
    exists st',
      deleteComments fuel _id st = Some st'
      /\ (List.length (comments st') <= List.length (comments st))%nat.
Proof.
  induction fuel as [|fuel IH]; intros _id st Hfuel; [lia|]. simpl.
  destruct (findOne (Comment.byId _id) (comments st)) as [comment|] eqn:E.
  - pose proof (deleteCommentNode_comments_length _ _ _ E) as Hlen.
    destruct (forEach_total (deleteComments fuel)
                (fun s => (List.length (comments s) < fuel)%nat
                          /\ (List.length (comments s)
                              <= List.length (comments st))%nat))
      with (ids := Comment.children comment)
           (s := deleteCommentNode _id comment st)
      as (s' & Hs' & _ & Hle).
    + intros id s [Hs1 Hs2]. destruct (IH id s Hs1) as (s1 & -> & Hs3).
      exists s1. split; [reflexivity|]. split; lia.
    + split; lia.
    + exists s'. split; [exact Hs' | exact Hle].
  - exists st. split; [reflexivity | lia].
Qed.


(** ** Reply trees *)

Lemma Thread_induction (P : Thread -> Prop) :
  (forall i ts, Forall P ts -> P (Node i ts)) -> forall t, P t.
Proof.
  intros H. fix IH 1. intros [i ts]. apply H.
  induction ts as [|t ts IHts]; constructor; [apply IH | exact IHts].
Qed.

Lemma root_in_ids (t : Thread) : In (root t) (ids t).
Proof. destruct t; simpl; now left. Qed.

(** A node of a tree has its id and its children among the ids of the
    tree. *)
Lemma nodes_in_ids (t : Thread) :
  forall j ch, In (j, ch) (nodes t) -> In j (ids t) /\ incl ch (ids t).
Proof.
  induction t as [i ts IH] using Thread_induction.
  intros j ch [[= <- <-]|Hin]; simpl.
  - split; [now left|]. intros x Hx. right.
    apply in_map_iff in Hx. destruct Hx as (t' & <- & Ht').
    apply in_flat_map. exists t'. split; [exact Ht' | apply root_in_ids].
  - apply in_flat_map in Hin. destruct Hin as (t' & Ht' & Hn).
    rewrite Forall_forall in IH. destruct (IH t' Ht' j ch Hn) as [Hj Hch].
    split.
    + right. apply in_flat_map. now exists t'.
    + intros x Hx. right. apply in_flat_map. exists t'. split; auto.
Qed.

Lemma forest_nodes_in_ids (ts : list Thread) :
  forall j ch, In (j, ch) (flat_map nodes ts) ->
    In j (flat_map ids ts) /\ incl ch (flat_map ids ts).
Proof.
  intros j ch Hin. apply in_flat_map in Hin. destruct Hin as (t & Ht & Hn).
  destruct (nodes_in_ids t j ch Hn) as [Hj Hch]. split.
  - apply in_flat_map. now exists t.
  - intros x Hx. apply in_flat_map. exists t. split; auto.
Qed.

Lemma forest_threadIn (cs : list Comment.t) (b : ObjectId) (ts : list Thread) :
  Forall (threadIn cs b) ts <-> Forall (stored cs b) (flat_map nodes ts).
Proof.
  unfold threadIn. induction ts as [|t ts IH]; simpl.
  - split; constructor.
  - rewrite Forall_app, <- IH. split.
    + intros H. inversion H; subst. now split.
    + intros [H1 H2]. now constructor.
Qed.

(** ** Deleting a comment: the comments that stay *)

Lemma pull_absent (v : ObjectId) (l : list ObjectId) :
  ~ In v l -> pull v l = l.
Proof.
  unfold pull. induction l as [|x l IH]; simpl; intros H; [reflexivity|].
  destruct (String.eqb_spec x v) as [->|N]; simpl.
  - exfalso. apply H. now left.
  - f_equal. apply IH. intros Hin. apply H. now right.
Qed.

Lemma byId_other (i j : ObjectId) (d : Comment.t) :
  j <> i -> Comment.byId j d = true -> Comment.byId i d = false.
Proof.
  unfold Comment.byId. intros N H. apply String.eqb_eq in H.
  apply String.eqb_neq. congruence.
Qed.

(** The step on the comment [i] keeps every other comment that has not [i]
    among its children: same [children], same blog. *)
Lemma deleteCommentNode_frame (i : ObjectId) (c : Comment.t) (st : Store)
  (j : ObjectId) (doc : Comment.t) :
  findOne (Comment.byId j) (comments st) = Some doc ->
  j <> i ->
  ~ In i (Comment.children doc) ->
  exists doc',
    findOne (Comment.byId j) (comments (deleteCommentNode i c st)) = Some doc'
    /\ Comment.children doc' = Comment.children doc
    /\ Comment.blog_id doc' = Comment.blog_id doc.
Proof.
  intros Hdoc Hji Hch.
  assert (H1 : findOne (Comment.byId j)
                 (findOneAndDelete (Comment.byId i) (comments st)) = Some doc).
  { rewrite findOne_findOneAndDelete_other; [exact Hdoc|].
    intros d. now apply byId_other. }
  unfold deleteCommentNode.
  destruct (Js.given (Comment.parent c)) as [p|]; simpl; [|now exists doc].
  destruct (String.eqb_spec p j) as [->|Hpj].
  - rewrite findOne_findOneAndUpdate_same by reflexivity. rewrite H1. simpl.
    eexists. split; [reflexivity|]. split; [|reflexivity].
    simpl. now apply pull_absent.
  - rewrite findOne_findOneAndUpdate_other; [now exists doc | reflexivity |].
    intros d. apply byId_other. congruence.
Qed.

(** ** Deleting a comment: a whole thread *)

(** After the step on a stored comment its blog, when stored, has one
    comment less on its counter. *)
Lemma deleteCommentNode_comment_counter (_id : ObjectId) (comment : Comment.t)
  (st : Store) (blog : Blog.t) :
  findOne (Blog.byId (Comment.blog_id comment)) (blogs st) = Some blog ->
  exists blog',
    findOne (Blog.byId (Comment.blog_id comment))
            (blogs (deleteCommentNode _id comment st)) = Some blog'
    /\ Blog.total_comments (Blog.activity blog')
       = Blog.total_comments (Blog.activity blog) - 1.
Proof.
  intros Hb. rewrite deleteCommentNode_blogs.
  rewrite findOne_findOneAndUpdate_same by reflexivity. rewrite Hb.
  eexists. split; [reflexivity|]. rewrite deleteComments_blog_update.
  reflexivity.
Qed.

Lemma keeps_stored (gone : list ObjectId) (st st' : Store) (b : ObjectId)
  (node : ObjectId * list ObjectId) :
  keeps gone st st' ->
  stored (comments st) b node ->
  ~ In (fst node) gone ->
  (forall x, In x (snd node) -> ~ In x gone) ->
  stored (comments st') b node.
Proof.
  intros K (doc & Hdoc & Hch & Hb) Hj Hx.
  destruct (K _ _ Hdoc Hj) as (doc' & Hdoc' & Hch' & Hb').
  - now rewrite Hch.
  - exists doc'. split; [exact Hdoc'|]. split; congruence.
Qed.

Lemma keeps_refl (st : Store) : keeps [] st st.
Proof. intros j doc Hdoc _ _. now exists doc. Qed.

Lemma keeps_trans (g1 g2 : list ObjectId) (st st1 st2 : Store) :
  keeps g1 st st1 -> keeps g2 st1 st2 -> keeps (g1 ++ g2) st st2.
Proof.
  intros K1 K2 j doc Hdoc Hj Hx.
  destruct (K1 j doc Hdoc) as (doc1 & Hdoc1 & Hch1 & Hb1).
  - intros H. apply Hj, in_or_app. now left.
  - intros x Hin H. apply (Hx x Hin), in_or_app. now left.
  - destruct (K2 j doc1 Hdoc1) as (doc2 & Hdoc2 & Hch2 & Hb2).
    + intros H. apply Hj, in_or_app. now right.
    + rewrite Hch1. intros x Hin H. apply (Hx x Hin), in_or_app. now right.
    + exists doc2. split; [exact Hdoc2|]. split; congruence.
Qed.

Lemma deleteCommentNode_keeps (i : ObjectId) (c : Comment.t) (st : Store) :
  keeps [i] st (deleteCommentNode i c st).
Proof.
  intros j doc Hdoc Hj Hx. apply deleteCommentNode_frame; [exact Hdoc | |].
  - intros ->. apply Hj. now left.
  - intros H. apply (Hx i H). now left.
Qed.

Lemma NoDup_app_disjoint {A : Type} (l l' : list A) :
  NoDup (l ++ l') -> forall a, In a l -> ~ In a l'.
Proof.
  induction l as [|x l IH]; simpl; intros H a Ha; [contradiction|].
  inversion H as [|? ? Hx Hl]; subst. destruct Ha as [->|Ha].
  - intros Hin. apply Hx, in_or_app. now right.
  - now apply IH.
Qed.

(** The nodes of a forest stay stored when the run leaves alone all the
    ids of the forest. *)
Lemma keeps_forest (gone : list ObjectId) (st st' : Store) (b : ObjectId)
  (ts : list Thread) :
  keeps gone st st' ->
  (forall a, In a (flat_map ids ts) -> ~ In a gone) ->
  Forall (stored (comments st) b) (flat_map nodes ts) ->
  Forall (stored (comments st') b) (flat_map nodes ts).
Proof.
  intros K Hdis H. rewrite Forall_forall in *. intros [j ch] Hin.
  destruct (forest_nodes_in_ids ts j ch Hin) as [Hj Hch].
  apply (keeps_stored gone st st' b (j, ch) K (H _ Hin)); simpl.
  - now apply Hdis.
  - intros x Hx. apply Hdis. now apply Hch.
Qed.

(** *** Comments that are gone stay gone *)

Lemma findOne_absent_findOneAndDelete {D : Type} (q q' : D -> bool)
  (coll : list D) :
  findOne q coll = None -> findOne q (findOneAndDelete q' coll) = None.
Proof.
  rewrite !findOne_none. intros H d Hd. apply H.
  clear H. induction coll as [|x rest IH]; simpl in *; [contradiction|].
  destruct (q' x); [now right|]. destruct Hd as [<-|Hd]; [now left|].
  right. now apply IH.
Qed.

Lemma findOne_absent_findOneAndUpdate {D : Type} (q q' : D -> bool)
  (upd : D -> D) (coll : list D) :
  (forall d, q (upd d) = q d) ->
  findOne q coll = None -> findOne q (findOneAndUpdate q' upd coll) = None.
Proof.
  intros K. induction coll as [|x rest IH]; simpl; [reflexivity|].
  destruct (q x) eqn:E; [discriminate|]. intros H.
  destruct (q' x); simpl; [now rewrite K, E | rewrite E; now apply IH].
Qed.

Lemma deleteCommentNode_absent_stays (i : ObjectId) (c : Comment.t)
  (st : Store) (j : ObjectId) :
  findOne (Comment.byId j) (comments st) = None ->
  findOne (Comment.byId j) (comments (deleteCommentNode i c st)) = None.
Proof.
  intros H. unfold deleteCommentNode.
  destruct (Js.given (Comment.parent c)); simpl.
  - apply findOne_absent_findOneAndUpdate; [reflexivity|].
    now apply findOne_absent_findOneAndDelete.
  - now apply findOne_absent_findOneAndDelete.
Qed.

Lemma deleteComments_absent_stays (j : ObjectId) (fuel : nat) :
  forall (i : ObjectId) (st st' : Store),
    deleteComments fuel i st = Some st' ->
    findOne (Comment.byId j) (comments st) = None ->
    findOne (Comment.byId j) (comments st') = None.
Proof.
  induction fuel as [|fuel IH]; intros i st st'; [discriminate|]. simpl.
  destruct (findOne (Comment.byId i) (comments st)) as [c|];
    [|now intros [= <-]].
  intros Hrun Hj.
  apply (forEach_preserves (deleteComments fuel)
           (fun s => findOne (Comment.byId j) (comments s) = None)
           IH _ _ _ Hrun).
  now apply deleteCommentNode_absent_stays.
Qed.

Lemma forEach_absent_stays (j : ObjectId) (fuel : nat) (l : list ObjectId)
  (st st' : Store) :
  forEach (deleteComments fuel) l st = Some st' ->
  findOne (Comment.byId j) (comments st) = None ->
  findOne (Comment.byId j) (comments st') = None.
Proof.
  apply (forEach_preserves (deleteComments fuel)
           (fun s => findOne (Comment.byId j) (comments s) = None)).
  apply deleteComments_absent_stays.
Qed.

Lemma NoDup_map_findOneAndDelete {D E : Type} (f : D -> E) (q : D -> bool)
  (coll : list D) :
  NoDup (map f coll) -> NoDup (map f (findOneAndDelete q coll)).
Proof.
  induction coll as [|x rest IH]; simpl; [auto|].
  intros H. inversion H as [|? ? Hx Hrest]; subst.
  destruct (q x); [exact Hrest|]. simpl. constructor; [|now apply IH].
  intros Hin. apply Hx. apply in_map_iff in Hin.
  destruct Hin as (d & <- & Hd). apply in_map.
  clear -Hd. induction rest as [|y rest IH]; simpl in *; [contradiction|].
  destruct (q y); [now right|]. destruct Hd as [<-|Hd]; [now left|].
  right. now apply IH.
Qed.

Lemma deleteCommentNode_uniqueIds (i : ObjectId) (c : Comment.t) (st : Store) :
  uniqueIds st -> uniqueIds (deleteCommentNode i c st).
Proof.
  unfold uniqueIds, deleteCommentNode. intros H.
  destruct (Js.given (Comment.parent c)); simpl.
  - rewrite map_findOneAndUpdate by reflexivity.
    now apply NoDup_map_findOneAndDelete.
  - now apply NoDup_map_findOneAndDelete.
Qed.

Lemma deleteComments_uniqueIds (fuel : nat) :
  forall (i : ObjectId) (st st' : Store),
    deleteComments fuel i st = Some st' -> uniqueIds st -> uniqueIds st'.
Proof.
  induction fuel as [|fuel IH]; intros i st st'; [discriminate|]. simpl.
  destruct (findOne (Comment.byId i) (comments st)) as [c|];
    [|now intros [= <-]].
  intros Hrun Hu.
  apply (forEach_preserves (deleteComments fuel) uniqueIds IH _ _ _ Hrun).
  now apply deleteCommentNode_uniqueIds.
Qed.

(** With unique ids the step on [i] leaves no comment [i]. *)
Lemma deleteCommentNode_removes (i : ObjectId) (c : Comment.t) (st : Store) :
  uniqueIds st ->
  findOne (Comment.byId i) (comments (deleteCommentNode i c st)) = None.
Proof.
  intros Hu.
  assert (H : findOne (Comment.byId i)
                (findOneAndDelete (Comment.byId i) (comments st)) = None).
  { unfold uniqueIds in Hu.
    induction (comments st) as [|x rest IH]; simpl; [reflexivity|].
    inversion Hu as [|? ? Hx Hrest]; subst.
    destruct (Comment.byId i x) eqn:E; simpl.
    - apply findOne_none. intros d Hd. unfold Comment.byId in *.
      apply String.eqb_eq in E. apply String.eqb_neq. intros Heq.
      apply Hx. rewrite E, <- Heq. now apply in_map.
    - rewrite E. now apply IH. }
  unfold deleteCommentNode.
  destruct (Js.given (Comment.parent c)); simpl; [|exact H].
  now apply findOne_absent_findOneAndUpdate.
Qed.

(** The run of [deleteComments] over the roots of a forest of stored
    trees with distinct ids, all on one stored blog: it returns, it
    removes one comment per id and these are the comments of the forest,
    the blog's counter loses as many, and the comments outside the forest
    are left alone. *)
Lemma deleteComments_forest (b : ObjectId) (fuel : nat) :
  forall (ts : list Thread) (st : Store) (blog : Blog.t),
    (List.length (comments st) < fuel)%nat ->
    uniqueIds st ->
    NoDup (flat_map ids ts) ->
    Forall (stored (comments st) b) (flat_map nodes ts) ->
    findOne (Blog.byId b) (blogs st) = Some blog ->
    exists st' blog',
      forEach (deleteComments fuel) (map root ts) st = Some st'
      /\ (List.length (comments st') + List.length (flat_map ids ts)
          = List.length (comments st))%nat
      /\ findOne (Blog.byId b) (blogs st') = Some blog'
      /\ Blog.total_comments (Blog.activity blog')
         = Blog.total_comments (Blog.activity blog)
           - Z.of_nat (List.length (flat_map ids ts))
      /\ keeps (flat_map ids ts) st st'
      /\ uniqueIds st'
      /\ (forall a, In a (flat_map ids ts) ->
            findOne (Comment.byId a) (comments st') = None).
Proof.
  induction fuel as [|fuel IHfuel]; [intros ts st blog Hf; lia|].
  induction ts as [|[i ks] rest IHrest];
    intros st blog Hfuel Hu Hnd Hin Hblog.
  - exists st, blog. rewrite forEach_nil. simpl.
    split; [reflexivity|]. split; [lia|]. split; [exact Hblog|].
    split; [lia|]. split; [apply keeps_refl|]. split; [exact Hu|].
    intros a [].
  - simpl map. rewrite forEach_cons. simpl in Hin, Hnd.
    inversion Hin as [|? ? (doc & Hdoc & Hch & Hb) Htail]; subst.
    apply Forall_app in Htail. destruct Htail as [Hks Hrest].
    simpl in Hdoc, Hch.
    inversion Hnd as [|? ? Hi Hnd']; subst.
    pose proof (NoDup_app_remove_r _ _ Hnd') as Hndks.
    pose proof (NoDup_app_remove_l _ _ Hnd') as Hndrest.
    pose proof (NoDup_app_disjoint _ _ Hnd') as Hdis.
    simpl deleteComments. rewrite Hdoc, Hch.
    pose proof (deleteCommentNode_comments_length _ _ _ Hdoc) as Hlen1.
    pose proof (deleteCommentNode_keeps i doc st) as K1.
    pose proof (deleteCommentNode_uniqueIds i doc st Hu) as Hu1.
    pose proof (deleteCommentNode_removes i doc st Hu) as Hgone1.
    destruct (deleteCommentNode_comment_counter i doc st blog Hblog)
      as (blog1 & Hblog1 & Htot1).
    set (st1 := deleteCommentNode i doc st) in *.
    assert (Hi' : forall a, In a (flat_map ids ks ++ flat_map ids rest) ->
                            ~ In a [i]).
    { intros a Ha [<-|[]]. now apply Hi. }
    destruct (IHfuel ks st1 blog1) as (st2 & blog2 & Hrun2 & Hlen2 & Hblog2
                                       & Htot2 & K2 & Hu2 & Hgone2).
    + lia.
    + exact Hu1.
    + exact Hndks.
    + apply (keeps_forest [i] st st1); [exact K1 | | exact Hks].
      intros a Ha. apply Hi', in_or_app. now left.
    + exact Hblog1.
    + rewrite Hrun2.
      destruct (IHrest st2 blog2) as (st3 & blog3 & Hrun3 & Hlen3 & Hblog3
                                      & Htot3 & K3 & Hu3 & Hgone3).
      * lia.
      * exact Hu2.
      * exact Hndrest.
      * apply (keeps_forest (flat_map ids ks) st1 st2); [exact K2 | |].
        -- intros a Ha Hin'. now apply (Hdis a Hin').
        -- apply (keeps_forest [i] st st1); [exact K1 | | exact Hrest].
           intros a Ha. apply Hi', in_or_app. now right.
      * exact Hblog2.
      * exists st3, blog3. split; [exact Hrun3|]. simpl.
        rewrite length_app. split; [lia|]. split; [exact Hblog3|].
        split; [lia|]. split; [|split; [exact Hu3|]].
        -- apply (keeps_trans [i] _ st st1 st3 K1).
           now apply (keeps_trans _ _ st1 st2 st3).
        -- intros a [<-|Ha].
           ++ apply (forEach_absent_stays _ _ _ _ _ Hrun3).
              now apply (forEach_absent_stays _ _ _ _ _ Hrun2).
           ++ apply in_app_or in Ha. destruct Ha as [Ha|Ha].
              ** apply (forEach_absent_stays _ _ _ _ _ Hrun3).
                 now apply Hgone2.
              ** now apply Hgone3.
Qed.

(** C2, as amended.  Let [t] be the children tree of a stored comment,
    with [N] descendants, all stored with distinct ids on the blog of the
    comment, which is stored.  Then
    [deleteComments] on the root returns, with any fuel above the number
    of stored comments; it removes exactly [N + 1] comment documents, the
    comments of [t]; and the blog's [activity.total_comments] is lower by
    exactly [N + 1]. *)
Theorem deleteComments_thread
  (fuel : nat) (t : Thread) (st : Store) (b : ObjectId) (blog : Blog.t) :
  (List.length (comments st) < fuel)%nat ->
  uniqueIds st ->
  NoDup (ids t) ->
  threadIn (comments st) b t ->
  findOne (Blog.byId b) (blogs st) = Some blog ->
  exists st',
    deleteComments fuel (root t) st = Some st'
    /\ (List.length (comments st') + (descendants t + 1)
        = List.length (comments st))%nat
    /\ (forall a, In a (ids t) ->
          findOne (Comment.byId a) (comments st') = None)
    /\ commentCounter b st'
       = Some (Blog.total_comments (Blog.activity blog)
               - (Z.of_nat (descendants t) + 1)).
Proof.
  intros Hfuel Hu Hnd Hin Hblog.
  destruct (deleteComments_forest b fuel [t] st blog Hfuel Hu)
    as (st' & blog' & Hrun & Hlen & Hblog' & Htot & _ & _ & Hgone).
  - simpl. now rewrite app_nil_r.
  - simpl. rewrite app_nil_r. exact Hin.
  - exact Hblog.
  - exists st'. simpl in Hrun, Hlen, Htot, Hgone.
    rewrite forEach_cons in Hrun.
    destruct (deleteComments fuel (root t) st) as [s|] eqn:E;
      [|discriminate].
    rewrite forEach_nil in Hrun. injection Hrun as ->.
    rewrite app_nil_r in *.
    assert (Hn : List.length (ids t) = S (descendants t)).
    { destruct t; reflexivity. }
    split; [reflexivity|]. split; [lia|]. split; [exact Hgone|].
    unfold commentCounter. rewrite Hblog'. simpl. f_equal. lia.
Qed.

Lemma deleteComments_thread_witness :
  exists st',
    deleteComments 5 "A" sampleStore = Some st'
    /\ (List.length (comments st') + (2 + 1) = 4)%nat
    /\ (forall a, In a ["A"; "C"; "D"] ->
          findOne (Comment.byId a) (comments st') = None)
    /\ commentCounter "B" st' = Some (4 - (2 + 1)).
Proof.
  refine (deleteComments_thread 5 sampleThread sampleStore "B" sampleBlog
            (le_n 5) _ _ _ eq_refl).
  - unfold uniqueIds. simpl.
    repeat (constructor; [simpl; intuition discriminate|]). constructor.
  - simpl. repeat (constructor; [simpl; intuition discriminate|]).
    constructor.
  - unfold threadIn. simpl.
    repeat (constructor; [eexists; split; [reflexivity|]; split; reflexivity|]).
    constructor.
Defined.

(** C2, as stated, fails: /add-comment does not check that a reply is on
    the blog of its parent.  In [crossBlogStore] the comment E of blog B
    has one descendant, the reply F, stored on blog B2.  Deleting E
    removes the two comments, and the counter of B, the owning blog of E,
    goes from 4 to 3 and not to 2: the other unit is taken from B2. *)
Lemma deleteComments_cross_blog_reply :
  let after :=
    deleteComments (deleteCommentsFuel crossBlogStore) "E" crossBlogStore in
  option_map (fun c => (Comment.blog_id c, Comment.children c))
             (findOne (Comment.byId "E") (comments crossBlogStore))
  = Some ("B", ["F"])
  /\ option_map (fun c => (Comment.blog_id c, Comment.children c))
                (findOne (Comment.byId "F") (comments crossBlogStore))
     = Some ("B2", [])
  /\ map Comment._id (comments crossBlogStore) = ["A"; "C"; "D"; "E"; "F"]
  /\ commentCounter "B" crossBlogStore = Some 4
  /\ commentCounter "B2" crossBlogStore = Some 1
  /\ option_map (fun s => map Comment._id (comments s)) after
     = Some ["A"; "C"; "D"]
  /\ option_map (commentCounter "B") after = Some (Some 3)
  /\ option_map (commentCounter "B2") after = Some (Some 0).
Proof. repeat split. Qed.

(** ** Deleting a comment: the notifications after the run *)






(** * Further properties of the handlers *)

(** ** /create-blog *)

Lemma publishChecks_none (body : CreateBlogBody) :
  publishChecks body = None <-> publishInvalid body = false.
Proof.
  destruct (publishInvalid body) eqn:E.
  - apply publishChecks_spec in E. destruct E as [msg ->].
    split; discriminate.
  - split; [reflexivity|]. intros _.
    destruct (publishChecks body) as [msg|] eqn:E'; [|reflexivity].
    assert (H : publishInvalid body = true)
      by (apply publishChecks_spec; eauto).
    congruence.
Qed.

Lemma length_zero_iff (s : string) : Nat.eqb (String.length s) 0 = true <-> s = "".
Proof. destruct s; simpl; split; congruence. Qed.

(** X1. /create-blog answers 200 exactly when the caller is an admin, the
    title is not empty, and the payload is a draft or passes the four
    publication checks; in every other case it leaves the store as it
    was. *)
Theorem createBlog_accepts_iff
  (authorId : ObjectId) (isAdmin : bool) (body : CreateBlogBody)
  (blogOid : ObjectId) (nanoid : string) (now : Z) (st : Store) :
  let r := createBlog authorId isAdmin body blogOid nanoid now st in
  (answered200 (snd r) = true <->
     isAdmin = true /\ cb_title body <> ""
     /\ (Js.truthyb (cb_draft body) = true \/ publishInvalid body = false))
  /\ (answered200 (snd r) = false -> fst r = st).
Proof.
  unfold createBlog, createBlogValidation.
  destruct isAdmin; simpl.
  2:{ split; [|reflexivity]. split; [discriminate | intros [H _]; discriminate]. }
  destruct (Nat.eqb (String.length (cb_title body)) 0) eqn:Ht; simpl.
  { apply length_zero_iff in Ht. split; [|reflexivity].
    split; [discriminate | intros (_ & H & _); contradiction]. }
  assert (Htitle : cb_title body <> "").
  { intros H. apply length_zero_iff in H. congruence. }
  destruct (Js.truthyb (cb_draft body)) eqn:Hd; simpl.
  - destruct (Js.truthy (cb_id body)); simpl;
      (split; [split; [auto | reflexivity] | discriminate]).
  - destruct (publishChecks body) as [msg|] eqn:Hc; simpl.
    + split; [|reflexivity]. split; [discriminate|].
      intros (_ & _ & [H|H]); [discriminate|].
      apply publishChecks_none in H. congruence.
    + apply publishChecks_none in Hc.
      destruct (Js.truthy (cb_id body)); simpl;
        (split; [split; [auto | reflexivity] | discriminate]).
Qed.

Lemma createBlogValidation_none (body : CreateBlogBody) :
  cb_title body <> "" ->
  Js.truthyb (cb_draft body) = true \/ publishInvalid body = false ->
  createBlogValidation body = None.
Proof.
  intros Ht Hok. unfold createBlogValidation.
  rewrite (title_length _ Ht).
  destruct (Js.truthyb (cb_draft body)); simpl; [reflexivity|].
  destruct Hok as [H|H]; [discriminate | now apply publishChecks_none].
Qed.

Lemma lowerChar_lowerOf (c : ascii) : lowerOf c (Slug.lowerChar c).
Proof.
  unfold lowerOf, Slug.lowerChar. destruct (Slug.isUpper c) eqn:E;
    [|reflexivity].
  unfold Slug.code. apply nat_ascii_embedding.
  unfold Slug.isUpper, Slug.code in E.
  rewrite !orb_true_iff, !andb_true_iff, !Nat.leb_le in E. lia.
Qed.

Lemma toLowerCase_lowerCased (s : string) :
  lowerCased s (Slug.toLowerCase s).
Proof.
  unfold lowerCased.
  induction s as [|c r IH]; simpl; constructor;
    [apply lowerChar_lowerOf | exact IH].
Qed.

Lemma tags_lowerCased (tags : list string) :
  Forall2 lowerCased tags (map Slug.toLowerCase tags).
Proof.
  induction tags as [|t r IH]; simpl; constructor;
    [apply toLowerCase_lowerCased | exact IH].
Qed.

(** X2. An accepted request of /create-blog without [id] appends one blog
    to the collection: it belongs to the caller, has all four counters at
    0 and no comments, carries the title, banner, description and content
    of the payload and its tags in lower case (every capital replaced by
    its small letter, every other character kept).  The caller's document
    [author], when there is one, gets the blog's [_id] appended to [blogs]
    and [total_posts] raised by 1 for a published blog and by 0 for a
    draft; comments and notifications are untouched, and
    /all-latest-blogs-count counts one more blog exactly when the blog is
    not a draft. *)
Theorem createBlog_new_blog
  (authorId : ObjectId) (body : CreateBlogBody) (blogOid : ObjectId)
  (nanoid : string) (now : Z) (st : Store) (author : option User.t) :
  cb_title body <> "" ->
  Js.truthyb (cb_draft body) = true \/ publishInvalid body = false ->
  Js.truthy (cb_id body) = false ->
  findOne (User.byId authorId) (users st) = author ->
  let st' := fst (createBlog authorId true body blogOid nanoid now st) in
  let draft := Js.truthyb (cb_draft body) in
  let blog := newBlog authorId body blogOid nanoid now in
  blogs st' = (blogs st ++ [blog])%list
  /\ Forall2 lowerCased (cb_tags body) (Blog.tags blog)
  /\ comments st' = comments st
  /\ notifications st' = notifications st
  /\ map User._id (users st') = map User._id (users st)
  /\ findOne (User.byId authorId) (users st')
     = option_map
         (fun u => User.mk (User._id u)
                     (User.total_posts u + (if draft then 0 else 1))
                     (User.total_reads u)
                     (User.blogs u ++ [blogOid])%list (User.admin u))
         author
  /\ allLatestBlogsCount st'
     = (allLatestBlogsCount st + (if draft then 0 else 1))%nat.
Proof.
  intros Ht Hok Hid Hauthor st' draft blog. unfold st', createBlog.
  rewrite (createBlogValidation_none body Ht Hok), Hid.
  rewrite (given_truthy _ Hid). simpl. fold draft.
  split; [reflexivity|]. split; [apply tags_lowerCased|].
  split; [reflexivity|]. split; [reflexivity|].
  split; [now apply map_findOneAndUpdate|]. split.
  - rewrite findOne_findOneAndUpdate_same by reflexivity.
    rewrite Hauthor. destruct author as [u|]; [|reflexivity].
    simpl. unfold applyUpdate; simpl. unfold push.
    now destruct draft.
  - unfold allLatestBlogsCount, countDocuments, save. simpl.
    rewrite filter_app, length_app. simpl. fold draft.
    now destruct draft.
Qed.

(** On [sampleStore] the admin u0 publishes a blog, and saves a draft. *)
Lemma createBlog_new_blog_witness :
  (let st' := fst (createBlog "u0" true publishBody "B2" "Zz99" 20
                              sampleStore) in
   blogs st'
   = [sampleBlog;
      Blog.mk "B2" "Slow-Turtles-Zz99" "Slow  Turtles!" "turtle.jpeg"
              "About turtles" ["block"] ["pets"; "sea"] "u0"
              (Blog.mkActivity 0 0 0 0) [] false 20]
   /\ Forall2 lowerCased ["Pets"; "SEA"] ["pets"; "sea"]
   /\ comments st' = comments sampleStore
   /\ notifications st' = notifications sampleStore
   /\ map User._id (users st') = ["u0"; "u1"; "u2"]
   /\ findOne (User.byId "u0") (users st')
      = Some (User.mk "u0" 2 0 ["B"; "B2"] true)
   /\ allLatestBlogsCount st' = 2%nat)
  /\ (let st' := fst (createBlog "u0" true draftBody "B2" "Zz99" 20
                                 sampleStore) in
      blogs st'
      = [sampleBlog;
         Blog.mk "B2" "Slow-Turtles-Zz99" "Slow  Turtles!" "" "" [] [] "u0"
                 (Blog.mkActivity 0 0 0 0) [] true 20]
      /\ Forall2 lowerCased [] []
      /\ comments st' = comments sampleStore
      /\ notifications st' = notifications sampleStore
      /\ map User._id (users st') = ["u0"; "u1"; "u2"]
      /\ findOne (User.byId "u0") (users st')
         = Some (User.mk "u0" 1 0 ["B"; "B2"] true)
      /\ allLatestBlogsCount st' = 1%nat).
Proof.
  split.
  - refine (createBlog_new_blog "u0" publishBody "B2" "Zz99" 20 sampleStore
              (Some (User.mk "u0" 1 0 ["B"] true)) _ _ _ _);
      [discriminate | right; reflexivity | reflexivity | reflexivity].
  - refine (createBlog_new_blog "u0" draftBody "B2" "Zz99" 20 sampleStore
              (Some (User.mk "u0" 1 0 ["B"] true)) _ _ _ _);
      [discriminate | left; reflexivity | reflexivity | reflexivity].
Defined.

Lemma publishInvalid_false (body : CreateBlogBody) :
  publishInvalid body = false ->
  (1 <= String.length (cb_desc body) <= 200)%nat
  /\ cb_banner body <> ""
  /\ cb_content body <> []
  /\ (1 <= List.length (cb_tags body) <= 10)%nat.
Proof.
  unfold publishInvalid. rewrite !orb_false_iff.
  intros (((((H1 & H2) & H3) & H4) & H5) & H6).
  apply Nat.eqb_neq in H1, H3, H4, H5. apply Nat.ltb_ge in H2, H6.
  repeat split; try lia.
  - intros E. rewrite E in H3. now apply H3.
  - intros E. rewrite E in H4. now apply H4.
Qed.

(** X3. /create-blog keeps the invariant of the stored blogs: if every
    stored blog is a draft or has a description of 1 to 200 characters, a
    banner, some content and 1 to 10 tags, the same holds after the
    request, whatever the caller and the payload, for a new blog and for
    an edit. *)
Theorem createBlog_keeps_publishable
  (authorId : ObjectId) (isAdmin : bool) (body : CreateBlogBody)
  (blogOid : ObjectId) (nanoid : string) (now : Z) (st : Store) :
  Forall publishable (blogs st) ->
  Forall publishable
    (blogs (fst (createBlog authorId isAdmin body blogOid nanoid now st))).
Proof.
  intros Hst. unfold createBlog.
  destruct isAdmin; [|exact Hst].
  unfold createBlogValidation.
  destruct (Nat.eqb (String.length (cb_title body)) 0); [exact Hst|].
  assert (Hnew : forall i s au ac cs p,
            (if negb (Js.truthyb (cb_draft body)) then publishChecks body
             else None) = None ->
            publishable
              (Blog.mk i s (cb_title body) (cb_banner body) (cb_desc body)
                       (cb_content body)
                       (map Slug.toLowerCase (cb_tags body)) au ac cs
                       (Js.truthyb (cb_draft body)) p)).
  { intros i s au ac cs p Hc. unfold publishable. simpl.
    destruct (Js.truthyb (cb_draft body)); simpl in *; [now left|]. right.
    rewrite length_map. apply publishInvalid_false.
    now apply publishChecks_none. }
  destruct (if negb (Js.truthyb (cb_draft body)) then publishChecks body
            else None) as [msg|] eqn:Hc; [exact Hst|].
  destruct (Js.truthy (cb_id body)); simpl.
  - apply Forall_findOneAndUpdate; [|exact Hst]. intros b _. now apply Hnew.
  - unfold save. apply Forall_app. split; [exact Hst|].
    constructor; [now apply Hnew | constructor].
Qed.

Lemma createBlog_keeps_publishable_witness :
  Forall publishable
    (blogs (fst (createBlog "u0" true editBody "B2" "Zz99" 20 sampleStore))).
Proof.
  apply (createBlog_keeps_publishable "u0" true editBody "B2" "Zz99" 20
           sampleStore).
  constructor; [|constructor]. right. simpl.
  repeat split; try lia; discriminate.
Defined.

(** X4. An accepted request of /create-blog with an [id] answers 200 with
    that id and edits in place: users, comments and notifications are
    untouched (so [total_posts] does not move, also when a draft becomes
    published), and every stored blog keeps its [_id], slug, author,
    counters, comment list and date.  The blog [b] with that slug, when
    there is one, takes the title, banner, description and content of the
    payload, its tags in lower case and its draft flag, whoever the admin
    is; when there is none the store is unchanged. *)
Theorem createBlog_edit
  (authorId : ObjectId) (body : CreateBlogBody) (blogOid : ObjectId)
  (nanoid : string) (now : Z) (st : Store) (id : string)
  (target : option Blog.t) :
  cb_title body <> "" ->
  Js.truthyb (cb_draft body) = true \/ publishInvalid body = false ->
  cb_id body = Some id ->
  id <> "" ->
  findOne (Blog.bySlug id) (blogs st) = target ->
  let r := createBlog authorId true body blogOid nanoid now st in
  let tags := map Slug.toLowerCase (cb_tags body) in
  snd r = Json 200 (BId id)
  /\ users (fst r) = users st
  /\ comments (fst r) = comments st
  /\ notifications (fst r) = notifications st
  /\ map (fun b => (Blog._id b, Blog.blog_id b, Blog.author b,
                    Blog.activity b, Blog.comments b, Blog.publishedAt b))
         (blogs (fst r))
     = map (fun b => (Blog._id b, Blog.blog_id b, Blog.author b,
                      Blog.activity b, Blog.comments b, Blog.publishedAt b))
           (blogs st)
  /\ Forall2 lowerCased (cb_tags body) tags
  /\ match target with
     | Some b =>
         findOne (Blog.bySlug id) (blogs (fst r))
         = Some (Blog.mk (Blog._id b) (Blog.blog_id b) (cb_title body)
                         (cb_banner body) (cb_desc body) (cb_content body)
                         tags (Blog.author b) (Blog.activity b)
                         (Blog.comments b) (Js.truthyb (cb_draft body))
                         (Blog.publishedAt b))
     | None => fst r = st
     end.
Proof.
  intros Ht Hok Hid Hne Htarget r tags. unfold r, createBlog.
  rewrite (createBlogValidation_none body Ht Hok), Hid.
  rewrite (given_nonempty _ Hne), (truthy_nonempty _ Hne). simpl.
  split; [reflexivity|]. split; [reflexivity|]. split; [reflexivity|].
  split; [reflexivity|]. split; [now apply map_findOneAndUpdate|].
  split; [apply tags_lowerCased|].
  destruct target as [b|].
  - rewrite findOne_findOneAndUpdate_same by reflexivity.
    rewrite Htarget. reflexivity.
  - rewrite (findOneAndUpdate_none _ _ _ Htarget). now destruct st.
Qed.

(** On [sampleStore] the admin u7, who is not the author, edits the blog
    of u0; and an edit of a slug that no blog has changes nothing. *)
Lemma createBlog_edit_witness :
  (let r := createBlog "u7" true editBody "B2" "Zz99" 20 sampleStore in
   snd r = Json 200 (BId "The-Quick-Fox-Xy12")
   /\ users (fst r) = users sampleStore
   /\ comments (fst r) = comments sampleStore
   /\ notifications (fst r) = notifications sampleStore
   /\ map (fun b => (Blog._id b, Blog.blog_id b, Blog.author b,
                     Blog.activity b, Blog.comments b, Blog.publishedAt b))
          (blogs (fst r))
      = [("B", "The-Quick-Fox-Xy12", "u0", Blog.mkActivity 0 0 4 2,
          ["A"; "C"; "D"; "E"], 10)]
   /\ Forall2 lowerCased ["Fox"] ["fox"]
   /\ findOne (Blog.bySlug "The-Quick-Fox-Xy12") (blogs (fst r))
      = Some (Blog.mk "B" "The-Quick-Fox-Xy12" "The Quick Red Fox" "fox.jpeg"
                      "About a red fox" ["block"; "more"] ["fox"] "u0"
                      (Blog.mkActivity 0 0 4 2) ["A"; "C"; "D"; "E"] false
                      10))
  /\ (let r := createBlog "u7" true editMissing "B2" "Zz99" 20 sampleStore in
      snd r = Json 200 (BId "No-Such-Blog")
      /\ users (fst r) = users sampleStore
      /\ comments (fst r) = comments sampleStore
      /\ notifications (fst r) = notifications sampleStore
      /\ map (fun b => (Blog._id b, Blog.blog_id b, Blog.author b,
                        Blog.activity b, Blog.comments b, Blog.publishedAt b))
             (blogs (fst r))
         = [("B", "The-Quick-Fox-Xy12", "u0", Blog.mkActivity 0 0 4 2,
             ["A"; "C"; "D"; "E"], 10)]
      /\ Forall2 lowerCased ["Void"; String (ascii_of_nat 201) "t"]
                 ["void"; String (ascii_of_nat 233) "t"]
      /\ fst r = sampleStore).
Proof.
  split.
  - refine (createBlog_edit "u7" editBody "B2" "Zz99" 20 sampleStore
              "The-Quick-Fox-Xy12" (Some sampleBlog) _ _ _ _ _);
      [discriminate | right; reflexivity | reflexivity | discriminate
       | reflexivity].
  - refine (createBlog_edit "u7" editMissing "B2" "Zz99" 20 sampleStore
              "No-Such-Blog" None _ _ _ _ _);
      [discriminate | left; reflexivity | reflexivity | discriminate
       | reflexivity].
Defined.

(** ** The slug of a new blog *)

Lemma alnum_not_space (c : ascii) :
  Slug.isAlnum c = true -> Slug.isSpace c = false /\ c <> "-"%char.
Proof.
  unfold Slug.isAlnum, Slug.isSpace. intros H. split.
  - destruct (Slug.code c) as [|n] eqn:E; [discriminate|].
    rewrite !orb_true_iff, !andb_true_iff, !Nat.leb_le in H.
    rewrite !orb_false_iff, andb_false_iff, !Nat.leb_gt, !Nat.eqb_neq. lia.
  - intros ->. vm_compute in H. discriminate.
Qed.

Lemma space_not_alnum (c : ascii) :
  Slug.isSpace c = true -> Slug.isAlnum c = false.
Proof.
  intros H. destruct (Slug.isAlnum c) eqn:E; [|reflexivity].
  apply alnum_not_space in E. destruct E as [E _]. congruence.
Qed.

Lemma replaceNonAlnum_chars (s : string) :
  Forall (fun c => Slug.isAlnum c = true \/ c = " "%char)
         (chars (Slug.replaceNonAlnum s))
  /\ filter Slug.isAlnum (chars (Slug.replaceNonAlnum s))
     = filter Slug.isAlnum (chars s).
Proof.
  induction s as [|c r [IH1 IH2]]; simpl; [split; [constructor | reflexivity]|].
  destruct (Slug.isAlnum c) eqn:E; simpl.
  - rewrite E. split; [constructor; auto | now f_equal].
  - split; [constructor; auto | exact IH2].
Qed.

Lemma dashRuns_alnum (s : string) :
  forall inRun,
    filter Slug.isAlnum (chars (Slug.dashRuns inRun s))
    = filter Slug.isAlnum (chars s).
Proof.
  induction s as [|c r IH]; intros inRun; simpl; [reflexivity|].
  destruct (Slug.isSpace c) eqn:E.
  - rewrite (space_not_alnum _ E).
    destruct inRun; simpl; [apply IH | apply IH].
  - simpl. destruct (Slug.isAlnum c); [f_equal|]; apply IH.
Qed.

Lemma dashRuns_chars (s : string) :
  Forall (fun c => Slug.isAlnum c = true \/ c = " "%char) (chars s) ->
  forall inRun,
    Forall (fun c => Slug.isAlnum c = true \/ c = "-"%char)
           (chars (Slug.dashRuns inRun s))
    /\ singleDashes (chars (Slug.dashRuns inRun s))
    /\ (inRun = true ->
        hd_error (chars (Slug.dashRuns inRun s)) <> Some "-"%char).
Proof.
  induction s as [|c r IH]; simpl; intros H inRun.
  - repeat split; [constructor | discriminate].
  - inversion H as [|? ? Hc Hr]; subst. specialize (IH Hr).
    destruct (Slug.isSpace c) eqn:E.
    + destruct inRun.
      * apply IH.
      * destruct (IH true) as (I1 & I2 & I3). simpl. split; [|split].
        -- constructor; auto.
        -- destruct (chars (Slug.dashRuns true r)) as [|b rest] eqn:Er;
             [exact I|]. split; [|exact I2].
           intros [_ ->]. now apply I3.
        -- discriminate.
    + destruct Hc as [Hc| ->]; [|discriminate E].
      destruct (alnum_not_space c Hc) as [_ Hdash].
      destruct (IH false) as (I1 & I2 & _). simpl. split; [|split].
      * constructor; auto.
      * destruct (chars (Slug.dashRuns false r)) as [|b rest] eqn:Er;
          [exact I|]. split; [|exact I2]. intros [-> _]. now apply Hdash.
      * intros _ [= ->]. now apply Hdash.
Qed.

Lemma reverse_chars (s : string) : chars (Slug.reverse s) = rev (chars s).
Proof.
  unfold chars, Slug.reverse. apply list_ascii_of_string_of_list_ascii.
Qed.

Lemma reverse_involutive (s : string) : Slug.reverse (Slug.reverse s) = s.
Proof.
  unfold Slug.reverse. rewrite list_ascii_of_string_of_list_ascii.
  rewrite rev_involutive. apply string_of_list_ascii_of_string.
Qed.

Lemma trimStart_no_space (s : string) :
  Forall (fun c => Slug.isSpace c = false) (chars s) -> Slug.trimStart s = s.
Proof.
  destruct s as [|c r]; simpl; [reflexivity|].
  intros H. inversion H as [|? ? Hc _]; subst. now rewrite Hc.
Qed.

(** [trim] finds nothing to remove in a string without white space. *)
Lemma trim_no_space (s : string) :
  Forall (fun c => Slug.isSpace c = false) (chars s) -> Slug.trim s = s.
Proof.
  intros H. unfold Slug.trim. rewrite (trimStart_no_space s H).
  rewrite trimStart_no_space; [apply reverse_involutive|].
  rewrite reverse_chars. now apply Forall_rev.
Qed.

Lemma dashRuns_Dashed (title : string) :
  forall inRun,
    Dashed inRun (chars title)
           (chars (Slug.dashRuns inRun (Slug.replaceNonAlnum title))).
Proof.
  induction title as [|c r IH]; intros inRun; simpl; [constructor|].
  destruct (Slug.isAlnum c) eqn:E.
  - destruct (alnum_not_space c E) as [Hs _]. rewrite Hs. simpl.
    apply Dashed_keep; [exact E | apply IH].
  - change (Slug.isSpace " "%char) with true. cbv iota.
    destruct inRun; simpl.
    + apply Dashed_skip; [exact E | apply IH].
    + apply Dashed_open; [exact E | apply IH].
Qed.

(** X5. The slug /create-blog generates is the nanoid suffix after the
    title with every letter and digit kept, in their order, and every
    maximal run of other characters replaced by exactly one dash (also at
    the start and at the end: the trim finds nothing to remove).  So the
    part before the suffix is made only of the letters and digits of the
    title and of dashes, never two in a row. *)
Theorem ofTitle_shape (title nanoid : string) :
  exists s,
    Slug.ofTitle title nanoid = s ++ nanoid
    /\ Dashed false (chars title) (chars s)
    /\ Forall (fun c => Slug.isAlnum c = true \/ c = "-"%char) (chars s)
    /\ filter Slug.isAlnum (chars s) = filter Slug.isAlnum (chars title)
    /\ singleDashes (chars s)
    /\ Slug.ofTitle "  Slow  Turtles  &  Co!" "Zz99" = "-Slow-Turtles-Co-Zz99".
Proof.
  destruct (replaceNonAlnum_chars title) as [R1 R2].
  destruct (dashRuns_chars _ R1 false) as (D1 & D2 & _).
  exists (Slug.dashRuns false (Slug.replaceNonAlnum title)).
  split; [|split; [apply dashRuns_Dashed
                  |split; [exact D1 | split; [|split; [exact D2|]]]]].
  - unfold Slug.ofTitle. rewrite trim_no_space; [reflexivity|].
    revert D1. apply Forall_impl. intros c [Hc| ->]; [|reflexivity].
    now apply alnum_not_space.
  - now rewrite dashRuns_alnum.
  - reflexivity.
Qed.

(** ** /delete-blog *)

Lemma deleteMany_In {D : Type} (q : D -> bool) (coll : list D) (d : D) :
  In d (deleteMany q coll) <-> In d coll /\ q d = false.
Proof.
  unfold deleteMany. rewrite filter_In. now rewrite negb_true_iff.
Qed.

Lemma deleteMany_none {D : Type} (q : D -> bool) (coll : list D) :
  (forall d, In d coll -> q d = false) -> deleteMany q coll = coll.
Proof.
  unfold deleteMany. induction coll as [|x rest IH]; simpl; intros H;
    [reflexivity|].
  rewrite (H x (or_introl eq_refl)). simpl. f_equal. apply IH.
  intros d Hd. apply H. now right.
Qed.

(** X6. /delete-blog answers 200 exactly when the caller is an admin and a
    blog with the slug is stored; otherwise it answers 500 and leaves the
    store as it was. *)
Theorem deleteBlog_accepts_iff
  (user_id : ObjectId) (isAdmin : bool) (blog_id : string) (st : Store) :
  let r := deleteBlog user_id isAdmin blog_id st in
  (answered200 (snd r) = true <->
     isAdmin = true /\ findOne (Blog.bySlug blog_id) (blogs st) <> None)
  /\ (answered200 (snd r) = false ->
      fst r = st /\ exists msg, snd r = Json 500 (BError msg)).
Proof.
  unfold deleteBlog. destruct isAdmin; simpl.
  - destruct (findOne (Blog.bySlug blog_id) (blogs st)) as [blog|]; simpl.
    + split; [|discriminate]. split; [|reflexivity].
      intros _. split; [reflexivity | discriminate].
    + split; [|intros _; split; [reflexivity | eauto]].
      split; [discriminate | intros [_ H]; now contradiction H].
  - split; [|intros _; split; [reflexivity | eauto]].
    split; [discriminate | intros [H _]; discriminate].
Qed.

(** X7. When an admin, whoever it is, deletes a stored blog, the blog
    collection loses that one document, the comments and the notifications
    that stay are exactly those of the other blogs, and the lookup of any
    other slug gives what it gave before. *)
Theorem deleteBlog_cascade
  (user_id : ObjectId) (blog_id : string) (st : Store) (blog : Blog.t) :
  findOne (Blog.bySlug blog_id) (blogs st) = Some blog ->
  let st' := fst (deleteBlog user_id true blog_id st) in
  S (List.length (blogs st')) = List.length (blogs st)
  /\ (forall c, In c (comments st') <->
                In c (comments st) /\ Comment.blog_id c <> Blog._id blog)
  /\ (forall n, In n (notifications st') <->
                In n (notifications st)
                /\ Notification.blog n <> Blog._id blog)
  /\ (forall slug, slug <> blog_id ->
        findOne (Blog.bySlug slug) (blogs st')
        = findOne (Blog.bySlug slug) (blogs st)).
Proof.
  intros Hb st'. unfold st', deleteBlog. rewrite Hb. simpl.
  split; [exact (findOneAndDelete_length _ _ _ Hb)|]. split; [|split].
  - intros c. rewrite deleteMany_In. unfold Comment.byBlog.
    now rewrite String.eqb_neq.
  - intros n. rewrite deleteMany_In. unfold Notification.byBlog.
    now rewrite String.eqb_neq.
  - intros slug Hs. apply findOne_findOneAndDelete_other.
    intros d Hd. unfold Blog.bySlug in *. apply String.eqb_eq in Hd.
    apply String.eqb_neq. congruence.
Qed.

Lemma deleteBlog_cascade_witness :
  let st' := fst (deleteBlog "u7" true "The-Quick-Fox-Xy12" sampleStore) in
  S (List.length (blogs st')) = List.length (blogs sampleStore)
  /\ (forall c, In c (comments st') <->
                In c (comments sampleStore)
                /\ Comment.blog_id c <> Blog._id sampleBlog)
  /\ (forall n, In n (notifications st') <->
                In n (notifications sampleStore)
                /\ Notification.blog n <> Blog._id sampleBlog)
  /\ (forall slug, slug <> "The-Quick-Fox-Xy12" ->
        findOne (Blog.bySlug slug) (blogs st')
        = findOne (Blog.bySlug slug) (blogs sampleStore)).
Proof.
  exact (deleteBlog_cascade "u7" "The-Quick-Fox-Xy12" sampleStore sampleBlog
           eq_refl).
Defined.

(** X8. Creating a blog and deleting it by its slug, when no stored blog
    had that slug and nothing referred to the new [_id], gives back the
    blogs, the comments and the notifications as they were.  The
    document [author] of the caller, when there is one, is not restored:
    the deleted blog's id stays in [blogs], and [total_posts] is back at
    its value for a published blog but one lower for a draft. *)
Theorem createBlog_then_deleteBlog
  (authorId : ObjectId) (body : CreateBlogBody) (blogOid : ObjectId)
  (nanoid : string) (now : Z) (st : Store) (author : option User.t) :
  cb_title body <> "" ->
  Js.truthyb (cb_draft body) = true \/ publishInvalid body = false ->
  Js.truthy (cb_id body) = false ->
  findOne (Blog.bySlug (Slug.ofTitle (cb_title body) nanoid)) (blogs st)
  = None ->
  (forall c, In c (comments st) -> Comment.blog_id c <> blogOid) ->
  (forall n, In n (notifications st) -> Notification.blog n <> blogOid) ->
  findOne (User.byId authorId) (users st) = author ->
  let st1 := fst (createBlog authorId true body blogOid nanoid now st) in
  let r := deleteBlog authorId true (Slug.ofTitle (cb_title body) nanoid)
                      st1 in
  snd r = Json 200 (BStatus "done")
  /\ blogs (fst r) = blogs st
  /\ comments (fst r) = comments st
  /\ notifications (fst r) = notifications st
  /\ findOne (User.byId authorId) (users (fst r))
     = option_map
         (fun u => User.mk (User._id u)
                     (User.total_posts u
                      + (if Js.truthyb (cb_draft body) then -1 else 0))
                     (User.total_reads u) (User.blogs u ++ [blogOid])%list
                     (User.admin u))
         author.
Proof.
  intros Ht Hok Hid Hslug Hc Hn Hauthor st1 r.
  set (slug := Slug.ofTitle (cb_title body) nanoid) in *.
  set (new := newBlog authorId body blogOid nanoid now).
  assert (Hst1 : st1 =
    withUsers
      (findOneAndUpdate (User.byId authorId)
         (applyUpdate User.applyOp
            [Inc "account_info.total_posts"
                 (if Js.truthyb (cb_draft body) then 0 else 1);
             Push "blogs" blogOid])
         (users st))
      (withBlogs (save new (blogs st)) st)).
  { unfold st1, createBlog.
    rewrite (createBlogValidation_none body Ht Hok), Hid.
    now rewrite (given_truthy _ Hid). }
  assert (Hfound : findOne (Blog.bySlug slug) (save new (blogs st)) = Some new).
  { rewrite findOne_save, Hslug. unfold Blog.bySlug, new, newBlog. simpl.
    fold slug. now rewrite String.eqb_refl. }
  unfold r. rewrite Hst1. unfold deleteBlog.
  cbn [blogs withUsers withBlogs withComments withNotifications users
       comments notifications fst snd].
  rewrite Hfound.
  cbn [blogs withUsers withBlogs withComments withNotifications users
       comments notifications fst snd].
  split; [reflexivity|]. split; [|split; [|split]].
  - apply findOneAndDelete_save_fresh; [exact Hslug|].
    unfold Blog.bySlug, new, newBlog. simpl. fold slug.
    apply String.eqb_refl.
  - apply deleteMany_none. intros c Hin. unfold Comment.byBlog.
    apply String.eqb_neq. now apply Hc.
  - apply deleteMany_none. intros n Hin. unfold Notification.byBlog.
    apply String.eqb_neq. now apply Hn.
  - rewrite findOneAndUpdate_twice by reflexivity.
    rewrite findOne_findOneAndUpdate_same by reflexivity. rewrite Hauthor.
    destruct author as [u|]; [|reflexivity].
    simpl. unfold applyUpdate, push; simpl. f_equal. f_equal.
    destruct (Js.truthyb (cb_draft body)); lia.
Qed.

(** On [sampleStore] the admin u0, with one post, saves a draft and
    deletes it, and publishes a blog and deletes it. *)
Lemma createBlog_then_deleteBlog_witness :
  (let st1 := fst (createBlog "u0" true draftBody "B2" "Zz99" 20
                              sampleStore) in
   let r := deleteBlog "u0" true "Slow-Turtles-Zz99" st1 in
   snd r = Json 200 (BStatus "done")
   /\ blogs (fst r) = blogs sampleStore
   /\ comments (fst r) = comments sampleStore
   /\ notifications (fst r) = notifications sampleStore
   /\ findOne (User.byId "u0") (users (fst r))
      = Some (User.mk "u0" 0 0 ["B"; "B2"] true))
  /\ (let st1 := fst (createBlog "u0" true publishBody "B2" "Zz99" 20
                                 sampleStore) in
      let r := deleteBlog "u0" true "Slow-Turtles-Zz99" st1 in
      snd r = Json 200 (BStatus "done")
      /\ blogs (fst r) = blogs sampleStore
      /\ comments (fst r) = comments sampleStore
      /\ notifications (fst r) = notifications sampleStore
      /\ findOne (User.byId "u0") (users (fst r))
         = Some (User.mk "u0" 1 0 ["B"; "B2"] true)).
Proof.
  assert (Hc : forall c, In c (comments sampleStore) ->
                         Comment.blog_id c <> "B2").
  { intros c Hin. simpl in Hin.
    repeat (destruct Hin as [<-|Hin]; [discriminate|]). contradiction. }
  assert (Hn : forall n, In n (notifications sampleStore) ->
                         Notification.blog n <> "B2").
  { intros n Hin. simpl in Hin.
    repeat (destruct Hin as [<-|Hin]; [discriminate|]). contradiction. }
  split.
  - refine (createBlog_then_deleteBlog "u0" draftBody "B2" "Zz99" 20
              sampleStore (Some (User.mk "u0" 1 0 ["B"] true))
              _ _ _ _ Hc Hn _);
      [discriminate | left; reflexivity | reflexivity | reflexivity
       | reflexivity].
  - refine (createBlog_then_deleteBlog "u0" publishBody "B2" "Zz99" 20
              sampleStore (Some (User.mk "u0" 1 0 ["B"] true))
              _ _ _ _ Hc Hn _);
      [discriminate | right; reflexivity | reflexivity | reflexivity
       | reflexivity].
Defined.

(** ** /like-blog and /is-liked-by-user *)

Lemma countDocuments_findOneAndDelete_same {D : Type} (q : D -> bool)
  (coll : list D) :
  countDocuments q (findOneAndDelete q coll) = pred (countDocuments q coll).
Proof.
  unfold countDocuments. induction coll as [|x rest IH]; simpl; [reflexivity|].
  destruct (q x) eqn:E; simpl; [reflexivity|]. now rewrite E.
Qed.

Lemma countDocuments_save {D : Type} (q : D -> bool) (coll : list D) (d : D) :
  countDocuments q (save d coll)
  = (countDocuments q coll + (if q d then 1 else 0))%nat.
Proof.
  unfold countDocuments, save. rewrite filter_app, length_app. simpl.
  now destruct (q d).
Qed.

Lemma findOne_none_count {D : Type} (q : D -> bool) (coll : list D) :
  findOne q coll = None <-> countDocuments q coll = O.
Proof. now rewrite findOne_none, countDocuments_zero. Qed.

Lemma withBlogs_same (st : Store) : withBlogs (blogs st) st = st.
Proof. now destruct st. Qed.

(** The like notifications of the pair after /like-blog on a stored
    blog. *)
Lemma likeBlog_likes
  (user_id _id : ObjectId) (flag : option Like.flag) (notifOid : ObjectId)
  (now : Z) (st : Store) (b : Blog.t) :
  findOne (Blog.byId _id) (blogs st) = Some b ->
  let likes s :=
    countDocuments (Notification.isLikeOf user_id _id) (notifications s) in
  let st' := fst (likeBlog user_id _id flag notifOid now st) in
  (Like.truthy flag = false -> likes st' = S (likes st))
  /\ (Like.truthy flag = true -> likes st' = pred (likes st)).
Proof.
  intros Hb likes st'. unfold st', likes, likeBlog. rewrite Hb. split.
  - intros ->. simpl. rewrite countDocuments_save.
    unfold Notification.isLikeOf at 2. simpl. rewrite !String.eqb_refl.
    simpl. lia.
  - intros ->. simpl. apply countDocuments_findOneAndDelete_same.
Qed.

(** X9. On a stored blog /like-blog follows the flag of the request and
    not the store.  With a falsy flag it adds 1 to [total_likes] and
    stores one more like notification of the pair, also when the pair has
    one already.  With a truthy flag it removes one like notification of
    the pair if there is any, and [total_likes] loses 1 when the flag is
    true or a positive number and stays when it is another number, also
    when the pair had no like. *)
Theorem likeBlog_follows_flag
  (user_id _id : ObjectId) (flag : option Like.flag) (notifOid : ObjectId)
  (now : Z) (st : Store) (b : Blog.t) :
  findOne (Blog.byId _id) (blogs st) = Some b ->
  let st' := fst (likeBlog user_id _id flag notifOid now st) in
  let likes s :=
    countDocuments (Notification.isLikeOf user_id _id) (notifications s) in
  let delta :=
    if negb (Like.truthy flag) then 1
    else if Like.positive flag then -1 else 0 in
  (exists b', findOne (Blog.byId _id) (blogs st') = Some b'
     /\ Blog.total_likes (Blog.activity b')
        = Blog.total_likes (Blog.activity b) + delta)
  /\ (Like.truthy flag = false -> likes st' = S (likes st))
  /\ (Like.truthy flag = true -> likes st' = pred (likes st)).
Proof.
  intros Hb st' likes delta.
  destruct (likeBlog_likes user_id _id flag notifOid now st b Hb)
    as [Hon Hoff].
  split; [|split; [exact Hon | exact Hoff]].
  unfold st', likeBlog. rewrite Hb. fold delta.
  exists (applyUpdate Blog.applyOp [Inc "activity.total_likes" delta] b).
  split; [|reflexivity].
  destruct (Like.truthy flag); simpl;
    rewrite findOne_findOneAndUpdate_same by reflexivity; now rewrite Hb.
Qed.

Lemma likeBlog_follows_flag_witness :
  let st' := fst (likeBlog "u2" "B" (Some (Like.FBool true)) "nL" 20
                           sampleStore) in
  let likes s :=
    countDocuments (Notification.isLikeOf "u2" "B") (notifications s) in
  let delta :=
    if negb (Like.truthy (Some (Like.FBool true))) then 1
    else if Like.positive (Some (Like.FBool true)) then -1 else 0 in
  (exists b', findOne (Blog.byId "B") (blogs st') = Some b'
     /\ Blog.total_likes (Blog.activity b')
        = Blog.total_likes (Blog.activity sampleBlog) + delta)
  /\ (Like.truthy (Some (Like.FBool true)) = false ->
      likes st' = S (likes sampleStore))
  /\ (Like.truthy (Some (Like.FBool true)) = true ->
      likes st' = pred (likes sampleStore)).
Proof.
  exact (likeBlog_follows_flag "u2" "B" (Some (Like.FBool true)) "nL" 20
           sampleStore sampleBlog eq_refl).
Defined.

(** X10. /is-liked-by-user after /like-blog: after a like on a stored blog
    it finds a notification; after an unlike it finds none exactly when
    the pair had at most one like notification. *)
Theorem isLikedByUser_after_likeBlog
  (user_id _id : ObjectId) (flag : option Like.flag) (notifOid : ObjectId)
  (now : Z) (st : Store) (b : Blog.t) :
  findOne (Blog.byId _id) (blogs st) = Some b ->
  let st' := fst (likeBlog user_id _id flag notifOid now st) in
  (Like.truthy flag = false -> isLikedByUser user_id _id st' <> None)
  /\ (Like.truthy flag = true ->
      (isLikedByUser user_id _id st' = None <->
       (countDocuments (Notification.isLikeOf user_id _id)
                       (notifications st) <= 1)%nat)).
Proof.
  intros Hb st'.
  assert (Hnone : forall s, isLikedByUser user_id _id s = None <->
            countDocuments (Notification.isLikeOf user_id _id)
                           (notifications s) = O).
  { intros s. unfold isLikedByUser. rewrite <- findOne_none_count.
    destruct (findOne _ (notifications s)); simpl; split; congruence. }
  destruct (likeBlog_likes user_id _id flag notifOid now st b Hb)
    as [Hon Hoff].
  split.
  - intros Hf. rewrite Hnone. fold st' in Hon. rewrite (Hon Hf).
    discriminate.
  - intros Hf. rewrite Hnone. fold st' in Hoff. rewrite (Hoff Hf). lia.
Qed.

Lemma isLikedByUser_after_likeBlog_witness :
  let st' := fst (likeBlog "u2" "B" None "nL" 20 sampleStore) in
  (Like.truthy None = false -> isLikedByUser "u2" "B" st' <> None)
  /\ (Like.truthy None = true ->
      (isLikedByUser "u2" "B" st' = None <->
       (countDocuments (Notification.isLikeOf "u2" "B")
                       (notifications sampleStore) <= 1)%nat)).
Proof.
  exact (isLikedByUser_after_likeBlog "u2" "B" None "nL" 20 sampleStore
           sampleBlog eq_refl).
Defined.

(** X11. /like-blog on a blog that is not stored: a like is answered by
    nothing and changes nothing; an unlike still answers 200 and removes a
    like notification of the pair when there is one. *)
Theorem likeBlog_unknown_blog
  (user_id _id : ObjectId) (flag : option Like.flag) (notifOid : ObjectId)
  (now : Z) (st : Store) :
  findOne (Blog.byId _id) (blogs st) = None ->
  let r := likeBlog user_id _id flag notifOid now st in
  blogs (fst r) = blogs st
  /\ (Like.truthy flag = false -> r = (st, NoResponse))
  /\ (Like.truthy flag = true ->
      snd r = Json 200 (BLiked false)
      /\ countDocuments (Notification.isLikeOf user_id _id)
                        (notifications (fst r))
         = pred (countDocuments (Notification.isLikeOf user_id _id)
                                (notifications st))).
Proof.
  intros Hb r. unfold r, likeBlog. rewrite Hb.
  rewrite (findOneAndUpdate_none _ _ _ Hb), withBlogs_same.
  destruct (Like.truthy flag); simpl.
  - split; [reflexivity|]. split; [discriminate|]. intros _.
    split; [reflexivity | apply countDocuments_findOneAndDelete_same].
  - split; [reflexivity|]. split; [reflexivity | discriminate].
Qed.

Lemma likeBlog_unknown_blog_witness :
  let r := likeBlog "u2" "Nowhere" None "nL" 20 sampleStore in
  blogs (fst r) = blogs sampleStore
  /\ (Like.truthy None = false -> r = (sampleStore, NoResponse))
  /\ (Like.truthy None = true ->
      snd r = Json 200 (BLiked false)
      /\ countDocuments (Notification.isLikeOf "u2" "Nowhere")
                        (notifications (fst r))
         = pred (countDocuments (Notification.isLikeOf "u2" "Nowhere")
                                (notifications sampleStore))).
Proof.
  exact (likeBlog_unknown_blog "u2" "Nowhere" None "nL" 20 sampleStore
           eq_refl).
Defined.

(** ** /add-comment *)

Lemma hasLength_some (o : option string) :
  Js.hasLength o = true -> exists text, o = Some text /\ text <> "".
Proof.
  destruct o as [[|c s]|]; simpl; try discriminate.
  intros _. eexists. split; [reflexivity | discriminate].
Qed.

(** X12. /add-comment answers 403 and changes nothing when the text is
    missing or empty.  Otherwise it always stores exactly one more comment
    and leaves the users alone; it answers 200 after storing exactly one
    more notification, or answers nothing and stores no notification, the
    latter only for a reply whose parent is not among the stored
    comments. *)
Theorem addComment_outcome
  (user_id : ObjectId) (body : AddCommentBody) (commentOid notifOid : ObjectId)
  (now : Z) (st : Store) :
  let r := addComment user_id body commentOid notifOid now st in
  (Js.hasLength (ac_comment body) = false ->
   r = (st, Json 403 (BError "You must write something to leave a comment")))
  /\ (Js.hasLength (ac_comment body) = true ->
      List.length (comments (fst r)) = S (List.length (comments st))
      /\ users (fst r) = users st
      /\ (answered200 (snd r) = true ->
          List.length (notifications (fst r))
          = S (List.length (notifications st)))
      /\ (answered200 (snd r) = false ->
          snd r = NoResponse
          /\ notifications (fst r) = notifications st
          /\ exists p, Js.given (ac_replying_to body) = Some p
                       /\ findOne (Comment.byId p) (comments st) = None)).
Proof.
  intros r. split.
  - unfold r, addComment. destruct (ac_comment body) as [text|];
      [|reflexivity]. now intros ->.
  - intros Hlen. destruct (hasLength_some _ Hlen) as (text & Htext & Hne).
    split; [|split].
    + unfold r. rewrite (addComment_comments _ _ _ _ _ _ _ Htext Hne).
      destruct (Js.given (ac_replying_to body));
        rewrite ?findOneAndUpdate_length; unfold save;
        rewrite length_app; simpl; lia.
    + unfold r. apply (addComment_users _ _ _ _ _ _ _ Htext Hne).
    + unfold r, addComment.
      rewrite Htext, (hasLength_nonempty _ Hne). simpl.
      destruct (Js.given (ac_replying_to body)) as [p|] eqn:Hp; simpl.
      * rewrite findOne_save.
        destruct (findOne (Comment.byId p) (comments st)) as [pc|] eqn:Hpc.
        -- split; [|discriminate]. intros _.
           destruct (Js.given (ac_notification_id body)); simpl;
             unfold save; rewrite length_app, ?findOneAndUpdate_length;
             simpl; lia.
        -- match goal with
           | |- context [if ?c then _ else _] => destruct c
           end.
           ++ split; [|discriminate]. intros _.
              destruct (Js.given (ac_notification_id body)); simpl;
                unfold save; rewrite length_app, ?findOneAndUpdate_length;
                simpl; lia.
           ++ split; [discriminate|]. intros _.
              split; [reflexivity|]. split; [reflexivity|]. now exists p.
      * split; [|discriminate]. intros _. unfold save.
        rewrite length_app. simpl. lia.
Qed.

(** X13. A comment on the blog itself (no parent given) with a text that
    is not empty is always answered 200 with the text, the time and the
    new id; the stored comment has no parent and is not a reply; and the
    one notification that is stored has type [comment], names the new
    comment, and is addressed to the [blog_author] of the request, whether
    or not the blog or that user is stored. *)
Theorem addComment_top_level
  (user_id : ObjectId) (body : AddCommentBody) (commentOid notifOid : ObjectId)
  (now : Z) (st : Store) (text : string) :
  ac_comment body = Some text ->
  text <> "" ->
  Js.truthy (ac_replying_to body) = false ->
  let r := addComment user_id body commentOid notifOid now st in
  snd r = Json 200 (BComment text now commentOid user_id [])
  /\ comments (fst r)
     = (comments st
        ++ [Comment.mk commentOid (ac__id body) (ac_blog_author body) text
                       user_id None false [] now])%list
  /\ notifications (fst r)
     = (notifications st
        ++ [commentNotification user_id body commentOid notifOid now])%list.
Proof.
  intros Htext Hne Hp r. unfold r, addComment.
  rewrite Htext, (hasLength_nonempty _ Hne), (given_truthy _ Hp), Hp.
  repeat split.
Qed.

Lemma addComment_top_level_witness :
  let r := addComment "u2" topLevelComment "F" "nF" 15 sampleStore in
  snd r = Json 200 (BComment "third" 15 "F" "u2" [])
  /\ comments (fst r)
     = (comments sampleStore
        ++ [Comment.mk "F" "B" "u0" "third" "u2" None false [] 15])%list
  /\ notifications (fst r)
     = (notifications sampleStore
        ++ [commentNotification "u2" topLevelComment "F" "nF" 15])%list.
Proof.
  exact (addComment_top_level "u2" topLevelComment "F" "nF" 15 sampleStore
           "third" eq_refl ltac:(discriminate) eq_refl).
Defined.

(** ** The notification counts after a comment *)

Lemma addComment_top_level_notifications
  (user_id : ObjectId) (body : AddCommentBody) (commentOid notifOid : ObjectId)
  (now : Z) (st : Store) (text : string) :
  ac_comment body = Some text ->
  text <> "" ->
  Js.truthy (ac_replying_to body) = false ->
  notifications (fst (addComment user_id body commentOid notifOid now st))
  = save (commentNotification user_id body commentOid notifOid now)
         (notifications st).
Proof.
  intros Htext Hne Hp. unfold addComment.
  now rewrite Htext, (hasLength_nonempty _ Hne), (given_truthy _ Hp), Hp.
Qed.

(** X14. After a comment on the blog itself, /all-notifications-count of
    the [blog_author] of the request is one higher under the filters
    [all] and [comment], and /new-notification answers true for that
    user, provided the commenter is someone else.  A comment by the blog
    author on the own blog changes no count of anybody; and in every case
    the counts of the other users and the counts under the filters [like]
    and [reply] stay as they were. *)
Theorem addComment_notification_count
  (user_id : ObjectId) (body : AddCommentBody) (commentOid notifOid : ObjectId)
  (now : Z) (st : Store) (text : string) :
  ac_comment body = Some text ->
  text <> "" ->
  Js.truthy (ac_replying_to body) = false ->
  let st' := fst (addComment user_id body commentOid notifOid now st) in
  let author := ac_blog_author body in
  (user_id <> author ->
     allNotificationsCount author "all" st'
     = S (allNotificationsCount author "all" st)
     /\ allNotificationsCount author "comment" st'
        = S (allNotificationsCount author "comment" st)
     /\ newNotification author st' = true)
  /\ (user_id = author ->
      forall v f, allNotificationsCount v f st' = allNotificationsCount v f st)
  /\ (forall v f, v <> author ->
        allNotificationsCount v f st' = allNotificationsCount v f st)
  /\ (forall v,
        allNotificationsCount v "like" st' = allNotificationsCount v "like" st
        /\ allNotificationsCount v "reply" st'
           = allNotificationsCount v "reply" st).
Proof.
  intros Htext Hne Hp st' author.
  assert (Hcount : forall v f,
    allNotificationsCount v f st'
    = (allNotificationsCount v f st
       + (if notificationsQuery v f
               (commentNotification user_id body commentOid notifOid now)
          then 1 else 0))%nat).
  { intros v f. unfold allNotificationsCount, st'.
    rewrite (addComment_top_level_notifications _ _ _ _ _ _ _ Htext Hne Hp).
    apply countDocuments_save. }
  assert (Hq : forall v f,
    notificationsQuery v f
      (commentNotification user_id body commentOid notifOid now)
    = (author =? v) && negb (user_id =? v)
      && (if negb (f =? "all") then "comment" =? f else true)).
  { reflexivity. }
  split; [|split; [|split]].
  - intros Hother. apply String.eqb_neq in Hother.
    rewrite !Hcount, !Hq, String.eqb_refl, Hother. simpl.
    split; [lia|]. split; [lia|].
    unfold newNotification, st'.
    rewrite (addComment_top_level_notifications _ _ _ _ _ _ _ Htext Hne Hp).
    rewrite findOne_save.
    destruct (findOne _ (notifications st)); [reflexivity|].
    unfold commentNotification. simpl. fold author.
    now rewrite String.eqb_refl, Hother.
  - intros Hsame v f. rewrite Hcount, Hq, Hsame.
    destruct (author =? v); simpl; lia.
  - intros v f Hv. rewrite Hcount, Hq.
    destruct (String.eqb_spec author v) as [E|]; [congruence|]. simpl. lia.
  - intros v. rewrite !Hcount, !Hq. simpl. rewrite !andb_false_r. lia.
Qed.

Lemma addComment_notification_count_witness :
  let st' := fst (addComment "u2" topLevelComment "F" "nF" 15 sampleStore) in
  let author := ac_blog_author topLevelComment in
  ("u2" <> author ->
     allNotificationsCount author "all" st'
     = S (allNotificationsCount author "all" sampleStore)
     /\ allNotificationsCount author "comment" st'
        = S (allNotificationsCount author "comment" sampleStore)
     /\ newNotification author st' = true)
  /\ ("u2" = author ->
      forall v f,
        allNotificationsCount v f st' = allNotificationsCount v f sampleStore)
  /\ (forall v f, v <> author ->
        allNotificationsCount v f st' = allNotificationsCount v f sampleStore)
  /\ (forall v,
        allNotificationsCount v "like" st'
        = allNotificationsCount v "like" sampleStore
        /\ allNotificationsCount v "reply" st'
           = allNotificationsCount v "reply" sampleStore).
Proof.
  exact (addComment_notification_count "u2" topLevelComment "F" "nF" 15
           sampleStore "third" eq_refl ltac:(discriminate) eq_refl).
Defined.

(** ** Invariants of the stored comments *)

Lemma addComment_rejects
  (user_id : ObjectId) (body : AddCommentBody) (commentOid notifOid : ObjectId)
  (now : Z) (st : Store) :
  Js.hasLength (ac_comment body) = false ->
  fst (addComment user_id body commentOid notifOid now st) = st.
Proof.
  unfold addComment. destruct (ac_comment body) as [text|]; [|reflexivity].
  now intros ->.
Qed.

(** A property of comments that does not look at [children] is kept by
    the step on one comment and by the whole run. *)
Lemma deleteCommentNode_comments_stable (P : Comment.t -> Prop)
  (i : ObjectId) (c : Comment.t) (st : Store) :
  (forall d cs, P d -> P (Comment.withChildren cs d)) ->
  Forall P (comments st) -> Forall P (comments (deleteCommentNode i c st)).
Proof.
  intros HP H. unfold deleteCommentNode.
  destruct (Js.given (Comment.parent c)); simpl.
  - apply Forall_findOneAndUpdate; [|now apply Forall_findOneAndDelete].
    intros d Hd. now apply HP.
  - now apply Forall_findOneAndDelete.
Qed.

Lemma deleteComments_comments_stable (P : Comment.t -> Prop) :
  (forall d cs, P d -> P (Comment.withChildren cs d)) ->
  forall (fuel : nat) (i : ObjectId) (st st' : Store),
    deleteComments fuel i st = Some st' ->
    Forall P (comments st) -> Forall P (comments st').
Proof.
  intros HP fuel. induction fuel as [|fuel IH]; intros i st st';
    [discriminate|]. simpl.
  destruct (findOne (Comment.byId i) (comments st)) as [c|];
    [|now intros [= <-]].
  intros Hrun Hst.
  apply (forEach_preserves (deleteComments fuel)
           (fun s => Forall P (comments s)) IH _ _ _ Hrun).
  now apply deleteCommentNode_comments_stable.
Qed.

Lemma deleteComment_comments_stable (P : Comment.t -> Prop)
  (user_id i : ObjectId) (st : Store) :
  (forall d cs, P d -> P (Comment.withChildren cs d)) ->
  Forall P (comments st) ->
  Forall P (comments (fst (deleteComment user_id i st))).
Proof.
  intros HP H. unfold deleteComment.
  destruct (findOne (Comment.byId i) (comments st)) as [c|]; [|exact H].
  destruct ((user_id =? Comment.commented_by c)
            || (user_id =? Comment.blog_author c)); [|exact H]. cbn [fst].
  destruct (deleteComments (deleteCommentsFuel st) i st) as [st'|] eqn:E;
    [|exact H].
  exact (deleteComments_comments_stable P HP _ _ _ _ E H).
Qed.

(** X15. Every handler keeps the invariant that a stored comment has
    [isReply] true exactly when its [parent] is set: if it holds for all
    stored comments, it holds after /add-comment, /delete-comment,
    /delete-blog, /create-blog and /like-blog, whatever the request. *)
Theorem replyFlag_invariant (st : Store) :
  Forall replyFlagOk (comments st) ->
  (forall user_id body commentOid notifOid now,
     Forall replyFlagOk
       (comments (fst (addComment user_id body commentOid notifOid now st))))
  /\ (forall user_id _id,
        Forall replyFlagOk (comments (fst (deleteComment user_id _id st))))
  /\ (forall user_id isAdmin blog_id,
        Forall replyFlagOk
          (comments (fst (deleteBlog user_id isAdmin blog_id st))))
  /\ (forall authorId isAdmin body blogOid nanoid now,
        comments (fst (createBlog authorId isAdmin body blogOid nanoid now st))
        = comments st)
  /\ (forall user_id _id flag notifOid now,
        comments (fst (likeBlog user_id _id flag notifOid now st))
        = comments st).
Proof.
  intros H. split; [|split; [|split; [|split]]].
  - intros user_id body commentOid notifOid now.
    destruct (Js.hasLength (ac_comment body)) eqn:Hlen.
    + destruct (hasLength_some _ Hlen) as (text & Htext & Hne).
      rewrite (addComment_comments _ _ _ _ _ _ _ Htext Hne).
      assert (Hnew : Forall replyFlagOk
                (save (newComment user_id body text commentOid now)
                      (comments st))).
      { unfold save. apply Forall_app. split; [exact H|].
        constructor; [|constructor]. unfold replyFlagOk, newComment. simpl.
        unfold Js.given. destruct (Js.truthy (ac_replying_to body)) eqn:E.
        - destruct (ac_replying_to body); [|discriminate].
          split; [discriminate | reflexivity].
        - split; [discriminate | intros N; now contradiction N]. }
      destruct (Js.given (ac_replying_to body)); [|exact Hnew].
      apply Forall_findOneAndUpdate; [|exact Hnew].
      intros d Hd. exact Hd.
    + now rewrite addComment_rejects.
  - intros user_id _id. apply deleteComment_comments_stable; [|exact H].
    intros d cs Hd. exact Hd.
  - intros user_id isAdmin blog_id. unfold deleteBlog.
    destruct isAdmin; [|exact H].
    destruct (findOne (Blog.bySlug blog_id) (blogs st)); [|exact H]. simpl.
    unfold deleteMany. apply Forall_forall. intros c Hc.
    apply filter_In in Hc. destruct Hc as [Hc _].
    rewrite Forall_forall in H. now apply H.
  - intros authorId isAdmin body blogOid nanoid now. unfold createBlog.
    destruct isAdmin; [|reflexivity].
    destruct (createBlogValidation body); [reflexivity|].
    destruct (Js.truthy (cb_id body)); reflexivity.
  - intros user_id _id flag notifOid now. unfold likeBlog.
    destruct (negb (Like.truthy flag)); [|reflexivity].
    destruct (findOne (Blog.byId _id) (blogs st)); reflexivity.
Qed.

Lemma replyFlag_invariant_witness :
  (forall user_id body commentOid notifOid now,
     Forall replyFlagOk
       (comments (fst (addComment user_id body commentOid notifOid now
                                  sampleStore))))
  /\ (forall user_id _id,
        Forall replyFlagOk
          (comments (fst (deleteComment user_id _id sampleStore))))
  /\ (forall user_id isAdmin blog_id,
        Forall replyFlagOk
          (comments (fst (deleteBlog user_id isAdmin blog_id sampleStore))))
  /\ (forall authorId isAdmin body blogOid nanoid now,
        comments (fst (createBlog authorId isAdmin body blogOid nanoid now
                                  sampleStore))
        = comments sampleStore)
  /\ (forall user_id _id flag notifOid now,
        comments (fst (likeBlog user_id _id flag notifOid now sampleStore))
        = comments sampleStore).
Proof.
  apply (replyFlag_invariant sampleStore).
  unfold replyFlagOk. simpl.
  repeat (constructor; [simpl; split; intros; congruence|]). constructor.
Defined.

(** ** [deleteComments]: termination, idempotence, frame *)

Lemma forEach_mono (f g : ObjectId -> Store -> option Store) :
  (forall id s s', f id s = Some s' -> g id s = Some s') ->
  forall ids s s', forEach f ids s = Some s' -> forEach g ids s = Some s'.
Proof.
  intros Hfg ids. induction ids as [|id ids IH]; intros s s'.
  - now rewrite !forEach_nil.
  - rewrite !forEach_cons. destruct (f id s) as [s1|] eqn:E; [|discriminate].
    rewrite (Hfg _ _ _ E). apply IH.
Qed.

Lemma deleteComments_fuel_S (fuel : nat) :
  forall i st st',
    deleteComments fuel i st = Some st' ->
    deleteComments (S fuel) i st = Some st'.
Proof.
  induction fuel as [|fuel IH]; intros i st st'; [discriminate|].
  change (deleteComments (S (S fuel)) i st)
    with (match findOne (Comment.byId i) (comments st) with
          | None => Some st
          | Some comment =>
              forEach (deleteComments (S fuel)) (Comment.children comment)
                      (deleteCommentNode i comment st)
          end).
  simpl. destruct (findOne (Comment.byId i) (comments st)); [|auto].
  apply forEach_mono. exact IH.
Qed.

Lemma deleteComments_fuel_le (fuel fuel' : nat) (i : ObjectId)
  (st st' : Store) :
  (fuel <= fuel')%nat ->
  deleteComments fuel i st = Some st' -> deleteComments fuel' i st = Some st'.
Proof.
  intros Hle H. induction Hle as [|m Hle IH]; [exact H|].
  now apply deleteComments_fuel_S.
Qed.

(** X16. [deleteComments] returns on every store, also when the
    [children] arrays form a cycle or name a comment twice or name a
    comment that is not stored: a depth of recursion above the number of
    stored comments is enough, the result is the same for every such
    depth, and the result stores no more comments than before. *)
Theorem deleteComments_terminates
  (fuel fuel' : nat) (i : ObjectId) (st : Store) :
  (List.length (comments st) < fuel)%nat ->
  (List.length (comments st) < fuel')%nat ->
  exists st',
    deleteComments fuel i st = Some st'
    /\ deleteComments fuel' i st = Some st'
    /\ (List.length (comments st') <= List.length (comments st))%nat.
Proof.
  intros H H'.
  destruct (deleteComments_total fuel i st H) as (st1 & H1 & Hlen1).
  destruct (deleteComments_total fuel' i st H') as (st2 & H2 & Hlen2).
  exists st1. split; [exact H1|]. split; [|exact Hlen1].
  destruct (Nat.le_ge_cases fuel fuel') as [Hle|Hle].
  - exact (deleteComments_fuel_le _ _ _ _ _ Hle H1).
  - pose proof (deleteComments_fuel_le _ _ _ _ _ Hle H2) as H3. congruence.
Qed.

Lemma deleteComments_terminates_witness :
  exists st',
    deleteComments 4 "X" cyclicStore = Some st'
    /\ deleteComments 9 "X" cyclicStore = Some st'
    /\ (List.length (comments st') <= List.length (comments cyclicStore))%nat.
Proof.
  apply (deleteComments_terminates 4 9 "X" cyclicStore); simpl; lia.
Defined.

(** X17. Deleting a deleted comment again is a no-op: in a store with
    distinct comment ids, after [deleteComments] has returned for an id,
    the comment with that id is not stored and a second call returns the
    same store. *)
Theorem deleteComments_idempotent
  (fuel fuel' : nat) (i : ObjectId) (st st' : Store) :
  uniqueIds st ->
  deleteComments fuel i st = Some st' ->
  findOne (Comment.byId i) (comments st') = None
  /\ deleteComments (S fuel') i st' = Some st'.
Proof.
  intros Hu Hrun.
  assert (Habsent : findOne (Comment.byId i) (comments st') = None).
  { destruct fuel as [|fuel]; [discriminate|]. simpl in Hrun.
    destruct (findOne (Comment.byId i) (comments st)) as [c|] eqn:E.
    - apply (forEach_absent_stays _ _ _ _ _ Hrun).
      now apply deleteCommentNode_removes.
    - injection Hrun as <-. exact E. }
  split; [exact Habsent|]. simpl. now rewrite Habsent.
Qed.

Lemma deleteComments_idempotent_witness :
  exists st',
    deleteComments 5 "A" sampleStore = Some st'
    /\ findOne (Comment.byId "A") (comments st') = None
    /\ deleteComments 1 "A" st' = Some st'.
Proof.
  eexists. split; [reflexivity|].
  refine (deleteComments_idempotent 5 0 "A" sampleStore _ _ eq_refl).
  unfold uniqueIds. simpl.
  repeat (constructor; [simpl; intuition discriminate|]). constructor.
Defined.

Lemma Sublist_refl {A : Type} (l : list A) : Sublist l l.
Proof. induction l; constructor; assumption. Qed.

Lemma Sublist_trans {A : Type} (l1 l2 l3 : list A) :
  Sublist l1 l2 -> Sublist l2 l3 -> Sublist l1 l3.
Proof.
  intros H12 H23. revert l1 H12.
  induction H23 as [|x l2 l3 H IH|x l2 l3 H IH]; intros l1 H12.
  - exact H12.
  - constructor. now apply IH.
  - inversion H12; subst; constructor; now apply IH.
Qed.

Lemma Sublist_length {A : Type} (l' l : list A) :
  Sublist l' l -> (List.length l' <= List.length l)%nat.
Proof. induction 1; simpl; lia. Qed.

Lemma Sublist_findOneAndDelete {D E : Type} (f : D -> E) (q : D -> bool)
  (coll : list D) :
  Sublist (map f (findOneAndDelete q coll)) (map f coll).
Proof.
  induction coll as [|x rest IH]; simpl; [constructor|].
  destruct (q x); simpl.
  - constructor. apply Sublist_refl.
  - now constructor.
Qed.

Lemma deleteFrame_refl (st : Store) : deleteFrame st st.
Proof. repeat split; apply Sublist_refl. Qed.

Lemma deleteFrame_trans (a b c : Store) :
  deleteFrame a b -> deleteFrame b c -> deleteFrame a c.
Proof.
  intros (U1 & B1 & C1 & N1) (U2 & B2 & C2 & N2).
  split; [congruence|]. split; [congruence|].
  split; eapply Sublist_trans; eassumption.
Qed.

Lemma deleteCommentNode_deleteFrame (i : ObjectId) (c : Comment.t)
  (st : Store) :
  deleteFrame st (deleteCommentNode i c st).
Proof.
  unfold deleteFrame. split; [|split; [|split]].
  - unfold deleteCommentNode.
    destruct (Js.given (Comment.parent c)); reflexivity.
  - rewrite deleteCommentNode_blogs. apply map_findOneAndUpdate.
    intros b. rewrite deleteComments_blog_update. reflexivity.
  - unfold deleteCommentNode.
    destruct (Js.given (Comment.parent c)); simpl.
    + rewrite map_findOneAndUpdate by reflexivity.
      apply Sublist_findOneAndDelete.
    + apply Sublist_findOneAndDelete.
  - rewrite deleteCommentNode_notifications.
    rewrite map_findOneAndUpdate by reflexivity.
    apply Sublist_findOneAndDelete.
Qed.

Lemma deleteComments_deleteFrame (fuel : nat) :
  forall (i : ObjectId) (st st' : Store),
    deleteComments fuel i st = Some st' -> deleteFrame st st'.
Proof.
  induction fuel as [|fuel IH]; intros i st st'; [discriminate|]. simpl.
  destruct (findOne (Comment.byId i) (comments st)) as [c|];
    [|intros [= <-]; apply deleteFrame_refl].
  intros Hrun.
  apply (forEach_preserves (deleteComments fuel) (deleteFrame st))
    with (ids := Comment.children c) (s := deleteCommentNode i c st).
  - intros id s s' H Hs. apply (deleteFrame_trans st s s' Hs).
    now apply (IH id).
  - exact Hrun.
  - apply deleteCommentNode_deleteFrame.
Qed.

(** X18. What deleting a comment never does.  After /delete-comment, and
    after any run of [deleteComments], the users are as before; the blogs
    are the same documents in the same order, changed at most in
    [comments] and the two comment counters; the comments that are left
    are comments of before, in their order, changed at most in
    [children]; and the notifications that are left are notifications of
    before, in their order, changed at most in [reply].  Nothing is
    created. *)
Theorem deleteComment_frame (user_id _id : ObjectId) (st : Store) :
  deleteFrame st (fst (deleteComment user_id _id st))
  /\ (forall fuel st',
        deleteComments fuel _id st = Some st' -> deleteFrame st st').
Proof.
  split; [|intros fuel st'; apply deleteComments_deleteFrame].
  unfold deleteComment.
  destruct (findOne (Comment.byId _id) (comments st)) as [c|];
    [|apply deleteFrame_refl].
  destruct ((user_id =? Comment.commented_by c)
            || (user_id =? Comment.blog_author c));
    [|apply deleteFrame_refl]. cbn [fst].
  destruct (deleteComments (deleteCommentsFuel st) _id st) as [st'|] eqn:E;
    [|apply deleteFrame_refl].
  exact (deleteComments_deleteFrame _ _ _ _ E).
Qed.

(** X19. /delete-comment lets through the user who wrote the comment and
    the user stored in the comment as [blog_author], and nobody else: for
    them it answers 200 and at least the comment is gone (with distinct
    ids no comment has its id any more); for anybody else it answers 403
    and changes nothing.  For an id that is not stored it answers nothing
    and changes nothing. *)
Theorem deleteComment_authorization
  (user_id _id : ObjectId) (st : Store) :
  let r := deleteComment user_id _id st in
  (findOne (Comment.byId _id) (comments st) = None -> r = (st, NoResponse))
  /\ (forall c, findOne (Comment.byId _id) (comments st) = Some c ->
        (user_id = Comment.commented_by c \/ user_id = Comment.blog_author c ->
           snd r = Json 200 (BStatus "done")
           /\ (List.length (comments (fst r)) < List.length (comments st))%nat
           /\ (uniqueIds st ->
               findOne (Comment.byId _id) (comments (fst r)) = None))
        /\ (user_id <> Comment.commented_by c ->
            user_id <> Comment.blog_author c ->
            r = (st, Json 403
                       (BError "Unauthorize. You can't delete this comment")))).
Proof.
  intros r. unfold r, deleteComment. split; [now intros ->|].
  intros c Hc. rewrite Hc. split.
  - intros Hauth.
    assert (Hb : (user_id =? Comment.commented_by c)
                 || (user_id =? Comment.blog_author c) = true).
    { apply orb_true_iff. destruct Hauth as [->| ->];
        [left | right]; apply String.eqb_refl. }
    rewrite Hb. cbn [fst snd]. split; [reflexivity|].
    destruct (deleteComments_total (deleteCommentsFuel st) _id st)
      as (st' & Hrun & _); [unfold deleteCommentsFuel; lia|].
    rewrite Hrun. unfold deleteCommentsFuel in Hrun. simpl in Hrun.
    rewrite Hc in Hrun.
    pose proof (deleteCommentNode_comments_length _ _ _ Hc) as Hlen.
    assert (Hle : (List.length (comments st')
                   <= List.length (comments (deleteCommentNode _id c st)))%nat).
    { apply (forEach_preserves
               (deleteComments (List.length (comments st)))
               (fun s => (List.length (comments s)
                          <= List.length
                               (comments (deleteCommentNode _id c st)))%nat))
        with (ids := Comment.children c) (s := deleteCommentNode _id c st);
        [|exact Hrun|lia].
      intros id s s' H Hs.
      destruct (deleteComments_deleteFrame _ _ _ _ H) as (_ & _ & Hsub & _).
      apply Sublist_length in Hsub. rewrite !length_map in Hsub. lia. }
    split; [lia|]. intros Hu.
    apply (forEach_absent_stays _ _ _ _ _ Hrun).
    now apply deleteCommentNode_removes.
  - intros H1 H2. apply String.eqb_neq in H1, H2. now rewrite H1, H2.
Qed.

(** ** Adding a comment and deleting it again *)

Lemma truthy_given (o : option string) : Js.truthy (Js.given o) = Js.truthy o.
Proof. unfold Js.given. destruct (Js.truthy o) eqn:E; [exact E | reflexivity]. Qed.

Lemma given_given (o : option string) : Js.given (Js.given o) = Js.given o.
Proof.
  unfold Js.given at 1. rewrite truthy_given. unfold Js.given.
  now destruct (Js.truthy o).
Qed.

Lemma findOneAndUpdate_first {D : Type} (q : D -> bool) (f g : D -> D)
  (coll : list D) (d : D) :
  findOne q coll = Some d -> f d = g d ->
  findOneAndUpdate q f coll = findOneAndUpdate q g coll.
Proof.
  induction coll as [|x rest IH]; simpl; [discriminate|].
  destruct (q x); [intros [= ->] ->; reflexivity|].
  intros H E. f_equal. now apply IH.
Qed.

Lemma findOneAndUpdate_fixed {D : Type} (q : D -> bool) (f : D -> D)
  (coll : list D) (d : D) :
  findOne q coll = Some d -> f d = d -> findOneAndUpdate q f coll = coll.
Proof.
  induction coll as [|x rest IH]; simpl; [discriminate|].
  destruct (q x); [intros [= ->] ->; reflexivity|].
  intros H E. f_equal. now apply IH.
Qed.

Lemma pull_push (v : ObjectId) (l : list ObjectId) :
  ~ In v l -> pull v (push v l) = l.
Proof.
  intros H. unfold pull, push. rewrite filter_app. simpl.
  rewrite String.eqb_refl. simpl. rewrite app_nil_r.
  now apply pull_absent.
Qed.

(** The notifications after /add-comment when no prior notification is
    named and the parent, if one is given, is stored: one more, which
    names the new comment. *)
Lemma addComment_notifications_plain
  (user_id : ObjectId) (body : AddCommentBody) (commentOid notifOid : ObjectId)
  (now : Z) (st : Store) (text : string) :
  ac_comment body = Some text ->
  text <> "" ->
  Js.truthy (ac_notification_id body) = false ->
  (forall p, Js.given (ac_replying_to body) = Some p ->
     exists pc, findOne (Comment.byId p) (comments st) = Some pc) ->
  exists n,
    notifications (fst (addComment user_id body commentOid notifOid now st))
    = save n (notifications st)
    /\ Notification.comment_ n = Some commentOid.
Proof.
  intros Htext Hne Hnid Hparent. unfold addComment.
  rewrite Htext, (hasLength_nonempty _ Hne). simpl.
  destruct (Js.given (ac_replying_to body)) as [p|] eqn:Hp.
  - destruct (Hparent p eq_refl) as (pc & Hpc).
    rewrite findOne_save, Hpc, (given_truthy _ Hnid). simpl.
    eexists. split; reflexivity.
  - simpl. eexists. split; reflexivity.
Qed.

(** X20. Adding a comment and deleting it again.  Take a comment on a
    stored blog, top-level or a reply to a stored comment, with no prior
    notification named, and new ids that nothing in the store refers to.
    Then [deleteComments] on the new comment gives back the users, the
    comments (the parent's [children] included) and the notifications as
    they were, and the blog with its [comments] and [total_comments] as
    they were; only [total_parent_comments] is not restored: it is 0
    after a reply and -1 after a top-level comment. *)
Theorem addComment_then_deleteComments
  (user_id : ObjectId) (body : AddCommentBody) (commentOid notifOid : ObjectId)
  (now : Z) (st : Store) (text : string) (b : Blog.t) (fuel : nat) :
  ac_comment body = Some text ->
  text <> "" ->
  Js.truthy (ac_notification_id body) = false ->
  findOne (Blog.byId (ac__id body)) (blogs st) = Some b ->
  ~ In commentOid (Blog.comments b) ->
  findOne (Comment.byId commentOid) (comments st) = None ->
  findOne (Notification.byComment commentOid) (notifications st) = None ->
  findOne (Notification.byReply commentOid) (notifications st) = None ->
  (forall p, Js.given (ac_replying_to body) = Some p ->
     exists pc, findOne (Comment.byId p) (comments st) = Some pc
                /\ ~ In commentOid (Comment.children pc)) ->
  let st1 := fst (addComment user_id body commentOid notifOid now st) in
  exists st2,
    deleteComments (S fuel) commentOid st1 = Some st2
    /\ users st2 = users st
    /\ comments st2 = comments st
    /\ notifications st2 = notifications st
    /\ blogs st2
       = findOneAndUpdate (Blog.byId (ac__id body))
           (fun _ =>
              Blog.withActivity
                (Blog.mkActivity
                   (Blog.total_likes (Blog.activity b))
                   (Blog.total_reads (Blog.activity b))
                   (Blog.total_comments (Blog.activity b))
                   (if Js.truthy (ac_replying_to body) then 0 else -1))
                b)
           (blogs st).
Proof.
  intros Htext Hne Hnid Hb Hbc Hfresh HfreshC HfreshR Hparent st1.
  set (new := newComment user_id body text commentOid now).
  pose proof (addComment_comments _ _ _ _ _ _ _ Htext Hne
             : comments st1 = _) as Hcs.
  pose proof (addComment_blogs _ _ _ _ _ _ _ Htext Hne
             : blogs st1 = _) as Hbs.
  pose proof (addComment_users _ _ _ _ _ _ _ Htext Hne
             : users st1 = _) as Hus.
  destruct (addComment_notifications_plain user_id body commentOid notifOid
              now st text Htext Hne Hnid) as (n & Hns & Hn).
  { intros p Hp. destruct (Hparent p Hp) as (pc & Hpc & _). now exists pc. }
  fold st1 in Hns. fold new in Hcs.
  assert (HnewId : Comment.byId commentOid new = true).
  { unfold Comment.byId, new, newComment. simpl. apply String.eqb_refl. }
  (* the comments after the request: the old ones, the parent with one
     more child, and the new comment last *)
  assert (Hcs1 : exists old,
            comments st1 = save new old
            /\ findOne (Comment.byId commentOid) old = None
            /\ match Js.given (ac_replying_to body) with
               | Some p =>
                   findOneAndUpdate (Comment.byId p)
                     (applyUpdate Comment.applyOp [Pull "children" commentOid])
                     old
               | None => old
               end = comments st).
  { destruct (Js.given (ac_replying_to body)) as [p|] eqn:Hp.
    - destruct (Hparent p eq_refl) as (pc & Hpc & Hch).
      rewrite (findOneAndUpdate_save_found _ _ _ _ _ Hpc) in Hcs.
      eexists. split; [exact Hcs|]. split.
      + now apply findOne_absent_findOneAndUpdate.
      + rewrite findOneAndUpdate_twice by reflexivity.
        apply (findOneAndUpdate_fixed _ _ _ pc Hpc).
        destruct pc. unfold applyUpdate; simpl.
        unfold Comment.withChildren; simpl. f_equal.
        now apply pull_push.
    - exists (comments st). now repeat split. }
  destruct Hcs1 as (old & Hsave & Hold & Hrestore).
  assert (Hfound : findOne (Comment.byId commentOid) (comments st1) = Some new).
  { now rewrite Hsave, findOne_save, Hold, HnewId. }
  exists (deleteCommentNode commentOid new st1). split; [|split; [|split; [|split]]].
  - simpl. rewrite Hfound. reflexivity.
  - destruct (deleteCommentNode_deleteFrame commentOid new st1) as (U & _).
    congruence.
  - unfold deleteCommentNode.
    replace (Js.given (Comment.parent new))
      with (Js.given (ac_replying_to body))
      by (unfold new, newComment; simpl; now rewrite given_given).
    rewrite Hsave, (findOneAndDelete_save_fresh _ _ _ Hold HnewId).
    destruct (Js.given (ac_replying_to body)); exact Hrestore.
  - rewrite deleteCommentNode_notifications, Hns.
    rewrite findOneAndDelete_save_fresh;
      [now apply findOneAndUpdate_none | exact HfreshC |].
    unfold Notification.byComment. rewrite Hn. simpl.
    apply String.eqb_refl.
  - rewrite deleteCommentNode_blogs, Hbs.
    replace (Comment.blog_id new) with (ac__id body) by reflexivity.
    replace (Js.truthy (Comment.parent new))
      with (Js.truthy (ac_replying_to body))
      by (unfold new, newComment; simpl; now rewrite truthy_given).
    rewrite findOneAndUpdate_twice by reflexivity.
    apply (findOneAndUpdate_first _ _ _ _ b Hb).
    rewrite deleteComments_blog_update.
    destruct b as [i s t bn ds ct tg au [l r c p] cs dr pa].
    unfold applyUpdate; simpl. unfold Blog.withActivity, Blog.withComments.
    simpl. unfold Blog.incActivity; simpl. f_equal.
    + f_equal. lia.
    + simpl in Hbc. now apply pull_push.
Qed.

Lemma addComment_then_deleteComments_witness :
  let st1 := fst (addComment "u1" sampleReply "F" "nF" 15 sampleStore) in
  exists st2,
    deleteComments 1 "F" st1 = Some st2
    /\ users st2 = users sampleStore
    /\ comments st2 = comments sampleStore
    /\ notifications st2 = notifications sampleStore
    /\ blogs st2
       = findOneAndUpdate (Blog.byId "B")
           (fun _ =>
              Blog.withActivity
                (Blog.mkActivity
                   (Blog.total_likes (Blog.activity sampleBlog))
                   (Blog.total_reads (Blog.activity sampleBlog))
                   (Blog.total_comments (Blog.activity sampleBlog))
                   (if Js.truthy (ac_replying_to sampleReply) then 0 else -1))
                sampleBlog)
           (blogs sampleStore).
Proof.
  refine (addComment_then_deleteComments "u1" sampleReply "F" "nF" 15
            sampleStore "third" sampleBlog 0 eq_refl ltac:(discriminate)
            eq_refl eq_refl _ eq_refl eq_refl eq_refl _).
  - simpl. intuition discriminate.
  - intros p [= <-]. eexists. split; [reflexivity|]. simpl. tauto.
Defined.

(** ** Pagination *)

Lemma firstn_add_skipn (A : Type) (n m : nat) (l : list A) :
  firstn (n + m) l = (firstn n l ++ firstn m (skipn n l))%list.
Proof.
  revert l. induction n as [|n IH]; intros l; [reflexivity|].
  destruct l as [|x l]; cbn [Nat.add firstn skipn app].
  - now rewrite firstn_nil.
  - now rewrite IH.
Qed.

(** X21. Consecutive pages of a listing: whenever the offsets of page
    [page] and of page [page + 1] are both represented for the same
    [deletedDocCount] and the first is not negative, the second is exactly
    one page size further, both pages are answered with documents, and
    the two pages one after the other are the [2 * maxLimit] matching
    documents that follow the first offset: consecutive pages neither
    overlap nor leave a gap. *)
Theorem skipDocs_pages (D : Type) (maxLimit page : Z)
    (deletedDocCount : option Z) (matched : list D) (off off' : Z) :
  0 < maxLimit -> 0 <= off ->
  skipDocs maxLimit page deletedDocCount = Some off ->
  skipDocs maxLimit (page + 1) deletedDocCount = Some off' ->
  let rest := skipn (Z.to_nat off) matched in
  off' = off + maxLimit
  /\ listPage maxLimit page deletedDocCount matched
     = Some (Docs (firstn (Z.to_nat maxLimit) rest))
  /\ listPage maxLimit (page + 1) deletedDocCount matched
     = Some (Docs (firstn (Z.to_nat maxLimit)
                          (skipn (Z.to_nat maxLimit) rest)))
  /\ (firstn (Z.to_nat maxLimit) rest
      ++ firstn (Z.to_nat maxLimit) (skipn (Z.to_nat maxLimit) rest))%list
     = firstn (Z.to_nat (2 * maxLimit)) rest.
Proof.
  intros Hm Hoff H1 H2 rest.
  assert (Hstep : off' = off + maxLimit).
  { revert H1 H2. unfold skipDocs.
    destruct (JsNum.sub page 1) as [a|] eqn:Ea; [|discriminate].
    destruct (JsNum.sub (page + 1) 1) as [a'|] eqn:Ea'; [|discriminate].
    apply sub_some in Ea. apply sub_some in Ea'.
    destruct Ea as (-> & _). destruct Ea' as (-> & _).
    destruct (JsNum.mul (page - 1) maxLimit) as [b|] eqn:Eb; [|discriminate].
    destruct (JsNum.mul (page + 1 - 1) maxLimit) as [b'|] eqn:Eb';
      [|discriminate].
    apply mul_some in Eb. apply mul_some in Eb'.
    destruct Eb as (-> & _). destruct Eb' as (-> & _).
    destruct (Js.truthyz deletedDocCount); [destruct deletedDocCount as [d|]|].
    - intros Hd Hd'. apply sub_some in Hd. apply sub_some in Hd'.
      destruct Hd as (-> & _). destruct Hd' as (-> & _). lia.
    - intros [= <-] [= <-]. lia.
    - intros [= <-] [= <-]. lia. }
  split; [exact Hstep|].
  assert (Hlt : (off <? 0)%Z = false) by (apply Z.ltb_ge; lia).
  assert (Hlt' : (off' <? 0)%Z = false) by (apply Z.ltb_ge; lia).
  unfold listPage, skipLimit. rewrite H1, H2, Hlt, Hlt'.
  split; [reflexivity|]. split.
  - do 3 f_equal. subst rest. rewrite skipn_skipn. f_equal. lia.
  - replace (Z.to_nat (2 * maxLimit))
      with (Z.to_nat maxLimit + Z.to_nat maxLimit)%nat by lia.
    symmetry. apply firstn_add_skipn.
Qed.

Lemma skipDocs_pages_witness :
  let matched :=
    ["b1"; "b2"; "b3"; "b4"; "b5"; "b6"; "b7"; "b8"; "b9"; "b10"; "b11";
     "b12"] in
  9 = 4 + 5
  /\ userWrittenBlogsPage 2 (Some 1) matched
     = Some (Docs ["b5"; "b6"; "b7"; "b8"; "b9"])
  /\ userWrittenBlogsPage 3 (Some 1) matched
     = Some (Docs ["b10"; "b11"; "b12"])
  /\ (["b5"; "b6"; "b7"; "b8"; "b9"] ++ ["b10"; "b11"; "b12"])%list
     = ["b5"; "b6"; "b7"; "b8"; "b9"; "b10"; "b11"; "b12"].
Proof.
  refine (skipDocs_pages string 5 2 (Some 1) _ 4 9 _ _ eq_refl eq_refl); lia.
Defined.

(** ** The children of a comment are its replies *)

Lemma shrinks_refl (cs : list Comment.t) : shrinks cs cs.
Proof. intros c Hc. exists c. repeat split; auto. apply incl_refl. Qed.

Lemma shrinks_trans (a b c : list Comment.t) :
  shrinks a b -> shrinks b c -> shrinks a c.
Proof.
  intros Hab Hbc x Hx.
  destruct (Hab x Hx) as (y & Hy & I1 & P1 & C1).
  destruct (Hbc y Hy) as (z & Hz & I2 & P2 & C2).
  exists z. repeat split; try congruence. eapply incl_tran; eassumption.
Qed.

Lemma childrenOk_shrinks (cs' cs : list Comment.t) :
  shrinks cs' cs -> childrenOk cs -> childrenOk cs'.
Proof.
  intros Hs Hok c' d' Hc' Hd' Hin.
  destruct (Hs c' Hc') as (c & Hc & Ic & _ & Cc).
  destruct (Hs d' Hd') as (d & Hd & Id & Pd & _).
  rewrite Pd, Ic. apply (Hok c d Hc Hd). rewrite <- Id. now apply Cc.
Qed.

Lemma In_findOneAndDelete {D : Type} (q : D -> bool) (coll : list D) (d : D) :
  In d (findOneAndDelete q coll) -> In d coll.
Proof.
  induction coll as [|x rest IH]; simpl; [tauto|].
  destruct (q x); [now right|]. intros [<-|H]; [now left | right; auto].
Qed.

Lemma In_findOneAndUpdate {D : Type} (q : D -> bool) (upd : D -> D)
  (coll : list D) (d : D) :
  In d (findOneAndUpdate q upd coll) ->
  In d coll \/ exists d0, In d0 coll /\ q d0 = true /\ d = upd d0.
Proof.
  induction coll as [|x rest IH]; simpl; [tauto|].
  destruct (q x) eqn:E.
  - intros [<-|H]; [right; exists x; auto | left; now right].
  - intros [<-|H]; [left; now left|].
    destruct (IH H) as [H'|(d0 & H0 & Q0 & E0)]; [left; now right|].
    right. exists d0. auto.
Qed.

Lemma pull_incl (v : ObjectId) (l : list ObjectId) : incl (pull v l) l.
Proof. intros x Hx. unfold pull in Hx. now apply filter_In in Hx. Qed.

Lemma deleteCommentNode_shrinks (i : ObjectId) (c : Comment.t) (st : Store) :
  shrinks (comments (deleteCommentNode i c st)) (comments st).
Proof.
  assert (H1 : shrinks (findOneAndDelete (Comment.byId i) (comments st))
                       (comments st)).
  { intros x Hx. apply In_findOneAndDelete in Hx. exists x.
    repeat split; auto. apply incl_refl. }
  unfold deleteCommentNode.
  destruct (Js.given (Comment.parent c)) as [p|]; simpl; [|exact H1].
  refine (shrinks_trans _ _ _ _ H1). intros x Hx.
  apply In_findOneAndUpdate in Hx.
  destruct Hx as [Hx|(x0 & Hx0 & _ & ->)].
  - exists x. repeat split; auto. apply incl_refl.
  - exists x0. repeat split; auto. apply pull_incl.
Qed.

Lemma deleteComments_shrinks (fuel : nat) :
  forall (i : ObjectId) (st st' : Store),
    deleteComments fuel i st = Some st' ->
    shrinks (comments st') (comments st).
Proof.
  induction fuel as [|fuel IH]; intros i st st'; [discriminate|]. simpl.
  destruct (findOne (Comment.byId i) (comments st)) as [c|];
    [|intros [= <-]; apply shrinks_refl].
  intros Hrun.
  apply (forEach_preserves (deleteComments fuel)
           (fun s => shrinks (comments s) (comments st)))
    with (ids := Comment.children c) (s := deleteCommentNode i c st).
  - intros id s s' H Hs. apply (shrinks_trans _ (comments s) _); [|exact Hs].
    now apply (IH id).
  - exact Hrun.
  - apply deleteCommentNode_shrinks.
Qed.

(** The comments after /add-comment with a fresh id: each is a comment of
    before or the new one, with the same id and parent, and with the same
    children or, for a comment with the id of the given parent, with the
    new id as one more child. *)
Lemma addComment_origin
  (user_id : ObjectId) (body : AddCommentBody) (commentOid notifOid : ObjectId)
  (now : Z) (st : Store) (text : string) :
  ac_comment body = Some text ->
  text <> "" ->
  forall c',
    In c' (comments (fst (addComment user_id body commentOid notifOid now st)))
    ->
    exists c,
      In c (comments st ++ [newComment user_id body text commentOid now])
      /\ Comment._id c' = Comment._id c
      /\ Comment.parent c' = Comment.parent c
      /\ (Comment.children c' = Comment.children c
          \/ (Js.given (ac_replying_to body) = Some (Comment._id c)
              /\ Comment.children c'
                 = (Comment.children c ++ [commentOid])%list)).
Proof.
  intros Htext Hne c'.
  rewrite (addComment_comments _ _ _ _ _ _ _ Htext Hne). unfold save.
  destruct (Js.given (ac_replying_to body)) as [p|].
  - intros Hin. apply In_findOneAndUpdate in Hin.
    destruct Hin as [Hin|(c0 & H0 & Q0 & ->)].
    + exists c'. auto.
    + exists c0. split; [exact H0|]. split; [reflexivity|].
      split; [reflexivity|]. right. unfold Comment.byId in Q0.
      apply String.eqb_eq in Q0. split; [now rewrite Q0 | reflexivity].
  - intros Hin. exists c'. auto.
Qed.

(** X22. The invariant that the [children] of a stored comment name only
    comments whose [parent] is that comment is kept by /add-comment, when
    the new id is not the id of a stored comment and is in no [children]
    array, and by /delete-comment and /delete-blog, whatever the
    request. *)
Theorem children_invariant (st : Store) :
  childrenOk (comments st) ->
  (forall user_id body commentOid notifOid now,
     (forall c, In c (comments st) ->
        Comment._id c <> commentOid /\ ~ In commentOid (Comment.children c)) ->
     childrenOk
       (comments (fst (addComment user_id body commentOid notifOid now st))))
  /\ (forall user_id _id,
        childrenOk (comments (fst (deleteComment user_id _id st))))
  /\ (forall user_id isAdmin blog_id,
        childrenOk (comments (fst (deleteBlog user_id isAdmin blog_id st)))).
Proof.
  intros Hok. split; [|split].
  - intros user_id body k notifOid now Hfresh.
    destruct (Js.hasLength (ac_comment body)) eqn:Hlen;
      [|now rewrite addComment_rejects].
    destruct (hasLength_some _ Hlen) as (text & Htext & Hne).
    set (new := newComment user_id body text k now).
    (* an origin is a stored comment or the new one *)
    assert (Horigin : forall c,
              In c (comments st ++ [new]) ->
              (In c (comments st) /\ Comment._id c <> k
               /\ ~ In k (Comment.children c))
              \/ c = new).
    { intros c Hc. apply in_app_or in Hc. destruct Hc as [Hc|[<-|[]]].
      - left. split; [exact Hc | now apply Hfresh].
      - now right. }
    intros c' d' Hc' Hd' Hin.
    destruct (addComment_origin user_id body k notifOid now st text Htext Hne
                c' Hc') as (c & Hc & Ic & _ & Cc).
    destruct (addComment_origin user_id body k notifOid now st text Htext Hne
                d' Hd') as (d & Hd & Id & Pd & _).
    fold new in Hc, Hd. rewrite Pd, Ic, Id in *. clear Pd Ic Id Hc' Hd'.
    assert (Hold : In (Comment._id d) (Comment.children c) ->
                   Comment.parent d = Some (Comment._id c)).
    { intros Hdc.
      destruct (Horigin c Hc) as [(Hc0 & _ & Hck)| ->]; [|contradiction Hdc].
      destruct (Horigin d Hd) as [(Hd0 & _ & _)| ->].
      - now apply Hok.
      - contradiction Hck. }
    destruct Cc as [Cc|[Hp Cc]]; rewrite Cc in Hin; [now apply Hold|].
    apply in_app_or in Hin. destruct Hin as [Hin|[Hin|[]]]; [now apply Hold|].
    destruct (Horigin d Hd) as [(_ & Hdk & _)| ->]; [congruence|].
    unfold new, newComment. simpl. exact Hp.
  - intros user_id _id. unfold deleteComment.
    destruct (findOne (Comment.byId _id) (comments st)) as [c|]; [|exact Hok].
    destruct ((user_id =? Comment.commented_by c)
              || (user_id =? Comment.blog_author c)); [|exact Hok].
    cbn [fst].
    destruct (deleteComments (deleteCommentsFuel st) _id st) as [st'|] eqn:E;
      [|exact Hok].
    exact (childrenOk_shrinks _ _ (deleteComments_shrinks _ _ _ _ E) Hok).
  - intros user_id isAdmin blog_id. unfold deleteBlog.
    destruct isAdmin; [|exact Hok].
    destruct (findOne (Blog.bySlug blog_id) (blogs st)); [|exact Hok]. simpl.
    refine (childrenOk_shrinks _ _ _ Hok). intros c Hc.
    apply deleteMany_In in Hc. exists c. repeat split; try tauto.
    apply incl_refl.
Qed.

Lemma children_invariant_witness :
  (forall user_id body commentOid notifOid now,
     (forall c, In c (comments sampleStore) ->
        Comment._id c <> commentOid /\ ~ In commentOid (Comment.children c)) ->
     childrenOk
       (comments (fst (addComment user_id body commentOid notifOid now
                                  sampleStore))))
  /\ (forall user_id _id,
        childrenOk (comments (fst (deleteComment user_id _id sampleStore))))
  /\ (forall user_id isAdmin blog_id,
        childrenOk
          (comments (fst (deleteBlog user_id isAdmin blog_id sampleStore)))).
Proof.
  apply (children_invariant sampleStore).
  intros c d Hc Hd. simpl in Hc, Hd.
  repeat (destruct Hc as [<-|Hc]);
    repeat (destruct Hd as [<-|Hd]); simpl; try contradiction;
    intuition discriminate.
Defined.

(** ** [total_comments] counts the stored comments *)

Lemma countDocuments_findOneAndUpdate {D : Type} (q q' : D -> bool)
  (upd : D -> D) (coll : list D) :
  (forall d, q' (upd d) = q' d) ->
  countDocuments q' (findOneAndUpdate q upd coll) = countDocuments q' coll.
Proof.
  intros K. unfold countDocuments.
  induction coll as [|x rest IH]; simpl; [reflexivity|].
  destruct (q x); simpl; [rewrite K; now destruct (q' x)|].
  destruct (q' x); simpl; rewrite IH; reflexivity.
Qed.

Lemma countDocuments_findOneAndDelete_found {D : Type} (q q' : D -> bool)
  (coll : list D) (d : D) :
  findOne q coll = Some d ->
  countDocuments q' coll
  = (countDocuments q' (findOneAndDelete q coll)
     + (if q' d then 1 else 0))%nat.
Proof.
  unfold countDocuments. induction coll as [|x rest IH]; simpl; [discriminate|].
  destruct (q x).
  - intros [= ->]. destruct (q' d); simpl; lia.
  - intros H. specialize (IH H). simpl.
    destruct (q' x); destruct (q' d); simpl in *; lia.
Qed.

Lemma blog_byId_other (x y : ObjectId) (b : Blog.t) :
  x <> y -> Blog.byId x b = true -> Blog.byId y b = false.
Proof.
  unfold Blog.byId. intros N H. apply String.eqb_eq in H.
  apply String.eqb_neq. congruence.
Qed.

(** The step of [deleteComments] on a stored comment keeps the counters
    in step with the collection. *)
Lemma deleteCommentNode_counterOk (i : ObjectId) (c : Comment.t) (st : Store) :
  findOne (Comment.byId i) (comments st) = Some c ->
  counterOk st -> counterOk (deleteCommentNode i c st).
Proof.
  intros Hc Hok x b'.
  assert (Hcount : countDocuments (Comment.byBlog x) (comments st)
            = (countDocuments (Comment.byBlog x)
                 (comments (deleteCommentNode i c st))
               + (if Comment.byBlog x c then 1 else 0))%nat).
  { rewrite (countDocuments_findOneAndDelete_found _ (Comment.byBlog x) _ _ Hc).
    f_equal. unfold deleteCommentNode.
    destruct (Js.given (Comment.parent c)); simpl; [|reflexivity].
    symmetry. now apply countDocuments_findOneAndUpdate. }
  rewrite deleteCommentNode_blogs.
  set (n1 := countDocuments (Comment.byBlog x)
               (comments (deleteCommentNode i c st))) in *.
  destruct (String.eqb_spec (Comment.blog_id c) x) as [E|N].
  - rewrite E. rewrite findOne_findOneAndUpdate_same by reflexivity.
    destruct (findOne (Blog.byId x) (blogs st)) as [b|] eqn:Hb;
      [|discriminate].
    intros [= <-]. unfold applyUpdate; simpl.
    rewrite (Hok x b Hb), Hcount.
    unfold Comment.byBlog. rewrite E, String.eqb_refl. lia.
  - rewrite findOne_findOneAndUpdate_other;
      [|reflexivity|intros d; apply blog_byId_other; congruence].
    intros Hb. rewrite (Hok x b' Hb), Hcount.
    unfold Comment.byBlog. apply String.eqb_neq in N. rewrite N. lia.
Qed.

Lemma deleteComments_counterOk (fuel : nat) :
  forall (i : ObjectId) (st st' : Store),
    deleteComments fuel i st = Some st' -> counterOk st -> counterOk st'.
Proof.
  induction fuel as [|fuel IH]; intros i st st'; [discriminate|]. simpl.
  destruct (findOne (Comment.byId i) (comments st)) as [c|] eqn:Hc;
    [|now intros [= <-]].
  intros Hrun Hok.
  apply (forEach_preserves (deleteComments fuel) counterOk IH _ _ _ Hrun).
  now apply deleteCommentNode_counterOk.
Qed.

(** X23. The counter [total_comments] stays equal to the number of stored
    comments of the blog.  If that holds for every stored blog, it holds
    after /add-comment, after /delete-comment and any run of
    [deleteComments], and after /like-blog, whatever the request and
    whatever the shape of the comment trees. *)
Theorem total_comments_invariant (st : Store) :
  counterOk st ->
  (forall user_id body commentOid notifOid now,
     counterOk (fst (addComment user_id body commentOid notifOid now st)))
  /\ (forall user_id _id, counterOk (fst (deleteComment user_id _id st)))
  /\ (forall fuel _id st',
        deleteComments fuel _id st = Some st' -> counterOk st')
  /\ (forall user_id _id flag notifOid now,
        counterOk (fst (likeBlog user_id _id flag notifOid now st))).
Proof.
  intros Hok. split; [|split; [|split]].
  - intros user_id body k notifOid now.
    destruct (Js.hasLength (ac_comment body)) eqn:Hlen;
      [|now rewrite addComment_rejects].
    destruct (hasLength_some _ Hlen) as (text & Htext & Hne).
    intros x b'.
    rewrite (addComment_blogs _ _ _ _ _ _ _ Htext Hne).
    rewrite (addComment_comments _ _ _ _ _ _ _ Htext Hne).
    assert (Hcount :
      countDocuments (Comment.byBlog x)
        match Js.given (ac_replying_to body) with
        | Some p =>
            findOneAndUpdate (Comment.byId p)
              (applyUpdate Comment.applyOp [Push "children" k])
              (save (newComment user_id body text k now) (comments st))
        | None => save (newComment user_id body text k now) (comments st)
        end
      = (countDocuments (Comment.byBlog x) (comments st)
         + (if (ac__id body =? x)%string then 1 else 0))%nat).
    { destruct (Js.given (ac_replying_to body));
        rewrite ?countDocuments_findOneAndUpdate by reflexivity;
        rewrite countDocuments_save; reflexivity. }
    rewrite Hcount.
    destruct (String.eqb_spec (ac__id body) x) as [E|N].
    + rewrite E. rewrite findOne_findOneAndUpdate_same by reflexivity.
      destruct (findOne (Blog.byId x) (blogs st)) as [b|] eqn:Hb;
        [|discriminate].
      intros [= <-]. unfold applyUpdate; simpl. rewrite (Hok x b Hb). lia.
    + rewrite findOne_findOneAndUpdate_other;
        [|reflexivity|intros d; apply blog_byId_other; congruence].
      intros Hb. rewrite (Hok x b' Hb). lia.
  - intros user_id _id. unfold deleteComment.
    destruct (findOne (Comment.byId _id) (comments st)) as [c|]; [|exact Hok].
    destruct ((user_id =? Comment.commented_by c)
              || (user_id =? Comment.blog_author c)); [|exact Hok].
    cbn [fst].
    destruct (deleteComments (deleteCommentsFuel st) _id st) as [st'|] eqn:E;
      [|exact Hok].
    exact (deleteComments_counterOk _ _ _ _ E Hok).
  - intros fuel _id st' Hrun. exact (deleteComments_counterOk _ _ _ _ Hrun Hok).
  - intros user_id _id flag notifOid now x b'.
    assert (Hst : exists d,
              blogs (fst (likeBlog user_id _id flag notifOid now st))
              = findOneAndUpdate (Blog.byId _id)
                  (applyUpdate Blog.applyOp [Inc "activity.total_likes" d])
                  (blogs st)
              /\ comments (fst (likeBlog user_id _id flag notifOid now st))
                 = comments st).
    { unfold likeBlog.
      exists (if negb (Like.truthy flag) then 1
              else if Like.positive flag then -1 else 0).
      destruct (negb (Like.truthy flag)); [|split; reflexivity].
      destruct (findOne (Blog.byId _id) (blogs st)); split; reflexivity. }
    destruct Hst as (d & -> & ->).
    destruct (String.eqb_spec _id x) as [E|N].
    + rewrite E. rewrite findOne_findOneAndUpdate_same by reflexivity.
      destruct (findOne (Blog.byId x) (blogs st)) as [b|] eqn:Hb;
        [|discriminate].
      intros [= <-]. unfold applyUpdate; simpl. exact (Hok x b Hb).
    + rewrite findOne_findOneAndUpdate_other;
        [|reflexivity|intros b0; apply blog_byId_other; congruence].
      apply Hok.
Qed.

Lemma total_comments_invariant_witness :
  (forall user_id body commentOid notifOid now,
     counterOk
       (fst (addComment user_id body commentOid notifOid now sampleStore)))
  /\ (forall user_id _id,
        counterOk (fst (deleteComment user_id _id sampleStore)))
  /\ (forall fuel _id st',
        deleteComments fuel _id sampleStore = Some st' -> counterOk st')
  /\ (forall user_id _id flag notifOid now,
        counterOk (fst (likeBlog user_id _id flag notifOid now sampleStore))).
Proof.
  apply (total_comments_invariant sampleStore).
  intros x b Hb.
  pose proof (findOne_matches _ _ _ Hb) as Hx.
  apply findOne_In in Hb. destruct Hb as [<-|[]].
  unfold Blog.byId in Hx. apply String.eqb_eq in Hx. rewrite <- Hx.
  reflexivity.
Defined.

(** ** No comment is named twice by the notifications *)

Lemma countDocuments_findOneAndUpdate_le {D : Type} (q q' : D -> bool)
  (upd : D -> D) (coll : list D) :
  (forall d, q (upd d) = true -> q d = true) ->
  (countDocuments q (findOneAndUpdate q' upd coll) <= countDocuments q coll)%nat.
Proof.
  intros K. unfold countDocuments.
  induction coll as [|x rest IH]; simpl; [lia|].
  destruct (q' x); simpl.
  - specialize (K x).
    destruct (q (upd x)), (q x); simpl; try lia; discriminate (K eq_refl).
  - destruct (q x); simpl; lia.
Qed.

Lemma countDocuments_findOneAndUpdate_S {D : Type} (q q' : D -> bool)
  (upd : D -> D) (coll : list D) :
  (countDocuments q (findOneAndUpdate q' upd coll)
   <= S (countDocuments q coll))%nat.
Proof.
  unfold countDocuments.
  induction coll as [|x rest IH]; simpl; [lia|].
  destruct (q' x); simpl.
  - destruct (q (upd x)), (q x); simpl; lia.
  - destruct (q x); simpl; lia.
Qed.

Lemma countDocuments_deleteMany_le {D : Type} (q q' : D -> bool)
  (coll : list D) :
  (countDocuments q (deleteMany q' coll) <= countDocuments q coll)%nat.
Proof.
  unfold countDocuments, deleteMany.
  induction coll as [|x rest IH]; simpl; [lia|].
  destruct (q' x); simpl; destruct (q x); simpl; lia.
Qed.

Lemma unnotified_counts (c : ObjectId) (st : Store) :
  unnotified c st ->
  countDocuments (Notification.byComment c) (notifications st) = O
  /\ countDocuments (Notification.byReply c) (notifications st) = O.
Proof.
  unfold unnotified. rewrite Forall_forall. intros H.
  split; apply countDocuments_zero; intros n Hn; apply isId_false;
    now apply H.
Qed.

(** Storing the notification of a new comment, after the [reply] of one
    earlier notification may have been set to the new comment. *)
Lemma notifiedOnce_save (commentOid : ObjectId) (new : Notification.t)
  (q : Notification.t -> bool) (st : Store) :
  notifiedOnce st ->
  unnotified commentOid st ->
  Notification.comment_ new = Some commentOid ->
  Notification.reply_ new = None ->
  forall c,
    let after :=
      save new
        (findOneAndUpdate q
           (applyUpdate Notification.applyOp
              [SetField "reply" (VId commentOid)])
           (notifications st)) in
    (countDocuments (Notification.byComment c) after <= 1)%nat
    /\ (countDocuments (Notification.byReply c) after <= 1)%nat.
Proof.
  intros Hinv Hfresh Hcomment Hreply c after. unfold after.
  destruct (unnotified_counts _ _ Hfresh) as [Hc0 Hr0].
  destruct (Hinv c) as [Hc Hr].
  rewrite !countDocuments_save.
  unfold Notification.byComment at 2. unfold Notification.byReply at 2.
  rewrite Hcomment, Hreply. cbn [isId].
  rewrite countDocuments_findOneAndUpdate by (now intros []).
  split.
  - destruct (String.eqb_spec commentOid c) as [<-|_]; lia.
  - rewrite Nat.add_0_r.
    destruct (String.eqb_spec commentOid c) as [<-|Hne].
    + pose proof (countDocuments_findOneAndUpdate_S
                    (Notification.byReply commentOid) q
                    (applyUpdate Notification.applyOp
                       [SetField "reply" (VId commentOid)])
                    (notifications st)). lia.
    + refine (Nat.le_trans _ _ _ _ Hr).
      apply countDocuments_findOneAndUpdate_le.
      intros d. unfold Notification.byReply. cbn.
      destruct (String.eqb_spec commentOid c); congruence.
Qed.

Lemma notifiedOnce_save_plain (commentOid : ObjectId) (new : Notification.t)
  (st : Store) :
  notifiedOnce st ->
  unnotified commentOid st ->
  Notification.comment_ new = Some commentOid ->
  Notification.reply_ new = None ->
  forall c,
    (countDocuments (Notification.byComment c) (save new (notifications st))
     <= 1)%nat
    /\ (countDocuments (Notification.byReply c) (save new (notifications st))
        <= 1)%nat.
Proof.
  intros Hinv Hfresh Hcomment Hreply c.
  destruct (unnotified_counts _ _ Hfresh) as [Hc0 Hr0].
  destruct (Hinv c) as [Hc Hr].
  rewrite !countDocuments_save.
  unfold Notification.byComment at 2. unfold Notification.byReply at 2.
  rewrite Hcomment, Hreply. cbn [isId].
  split; [|lia].
  destruct (String.eqb_spec commentOid c) as [<-|_]; lia.
Qed.

Lemma addComment_notifiedOnce
  (user_id : ObjectId) (body : AddCommentBody) (commentOid notifOid : ObjectId)
  (now : Z) (st : Store) :
  notifiedOnce st ->
  unnotified commentOid st ->
  notifiedOnce (fst (addComment user_id body commentOid notifOid now st)).
Proof.
  intros Hinv Hfresh c. unfold addComment.
  destruct (ac_comment body) as [text|]; [|apply Hinv].
  destruct (negb (Js.hasLength (Some text))); [apply Hinv|]. cbv zeta.
  destruct (Js.given (ac_replying_to body)) as [p|].
  - destruct (findOne (Comment.byId p) _) as [pdoc|]; [|apply Hinv].
    destruct (Js.given (ac_notification_id body)) as [nid|].
    + now apply notifiedOnce_save.
    + now apply notifiedOnce_save_plain with (commentOid := commentOid).
  - now apply notifiedOnce_save_plain with (commentOid := commentOid).
Qed.

Lemma deleteCommentNode_counts (q : Notification.t -> bool) (d : ObjectId)
  (doc : Comment.t) (st : Store) :
  (forall n, q (Notification.withReply None n) = true -> q n = true) ->
  (countDocuments q (notifications (deleteCommentNode d doc st))
   <= countDocuments q (notifications st))%nat.
Proof.
  intros Hq. rewrite deleteCommentNode_notifications.
  refine (Nat.le_trans _ _ _ _ (countDocuments_findOneAndDelete q _ _)).
  apply countDocuments_findOneAndUpdate_le. exact Hq.
Qed.

Lemma deleteComments_counts (q : Notification.t -> bool) :
  (forall n, q (Notification.withReply None n) = true -> q n = true) ->
  forall (fuel : nat) (d : ObjectId) (st st' : Store),
    deleteComments fuel d st = Some st' ->
    forall k, (countDocuments q (notifications st) <= k)%nat ->
              (countDocuments q (notifications st') <= k)%nat.
Proof.
  intros Hq fuel. induction fuel as [|fuel IH]; intros d st st';
    [discriminate|]. simpl.
  destruct (findOne (Comment.byId d) (comments st)) as [doc|];
    [|now intros [= <-]].
  intros Hrun k Hk.
  apply (forEach_preserves (deleteComments fuel)
           (fun s => (countDocuments q (notifications s) <= k)%nat)
           (fun id s s' H => IH id s s' H k) _ _ _ Hrun).
  exact (Nat.le_trans _ _ _ (deleteCommentNode_counts q d doc st Hq) Hk).
Qed.

Lemma deleteComments_notifiedOnce (fuel : nat) (d : ObjectId)
  (st st' : Store) :
  deleteComments fuel d st = Some st' -> notifiedOnce st -> notifiedOnce st'.
Proof.
  intros Hrun Hinv c. destruct (Hinv c) as [Hc Hr]. split.
  - refine (deleteComments_counts (Notification.byComment c) _ fuel d st st'
              Hrun 1%nat Hc).
    intros n H. exact H.
  - refine (deleteComments_counts (Notification.byReply c) _ fuel d st st'
              Hrun 1%nat Hr).
    intros n H. discriminate H.
Qed.

(** X24. That no comment is named twice by the notifications (at most one
    notification has it as [comment], at most one as [reply]) is an
    invariant of the handlers: /add-comment keeps it when the id of the
    new comment is new to the notifications, and /delete-comment, every
    run of [deleteComments], /delete-blog, /like-blog and /create-blog keep
    it always. *)
Theorem notifiedOnce_invariant (st : Store) :
  notifiedOnce st ->
  (forall user_id body commentOid notifOid now,
      unnotified commentOid st ->
      notifiedOnce (fst (addComment user_id body commentOid notifOid now st)))
  /\ (forall user_id _id, notifiedOnce (fst (deleteComment user_id _id st)))
  /\ (forall fuel _id st',
        deleteComments fuel _id st = Some st' -> notifiedOnce st')
  /\ (forall user_id isAdmin blog_id,
        notifiedOnce (fst (deleteBlog user_id isAdmin blog_id st)))
  /\ (forall user_id _id isLikedByUser notifOid now,
        notifiedOnce (fst (likeBlog user_id _id isLikedByUser notifOid now
                                    st)))
  /\ (forall authorId isAdmin body blogOid nanoid now,
        notifications (fst (createBlog authorId isAdmin body blogOid nanoid
                                       now st))
        = notifications st).
Proof.
  intros Hinv. split; [|split; [|split; [|split; [|split]]]].
  - intros. now apply addComment_notifiedOnce.
  - intros user_id _id. unfold deleteComment.
    destruct (findOne (Comment.byId _id) (comments st)) as [doc|];
      [|exact Hinv].
    destruct ((user_id =? Comment.commented_by doc)
              || (user_id =? Comment.blog_author doc)); [|exact Hinv].
    cbn [fst].
    destruct (deleteComments (deleteCommentsFuel st) _id st) as [st'|] eqn:E;
      [|exact Hinv].
    exact (deleteComments_notifiedOnce _ _ _ _ E Hinv).
  - intros fuel _id st' Hrun.
    exact (deleteComments_notifiedOnce _ _ _ _ Hrun Hinv).
  - intros user_id isAdmin blog_id c. unfold deleteBlog.
    destruct isAdmin; [|apply Hinv].
    destruct (findOne (Blog.bySlug blog_id) (blogs st)) as [blog|];
      [|apply Hinv].
    cbn. destruct (Hinv c) as [Hc Hr]. split.
    + exact (Nat.le_trans _ _ _ (countDocuments_deleteMany_le _ _ _) Hc).
    + exact (Nat.le_trans _ _ _ (countDocuments_deleteMany_le _ _ _) Hr).
  - intros user_id _id flag notifOid now c. unfold likeBlog.
    destruct (Hinv c) as [Hc Hr].
    destruct (negb (Like.truthy flag)).
    + destruct (findOne (Blog.byId _id) (blogs st)) as [b|];
        [|split; assumption].
      cbn [fst notifications withNotifications withBlogs].
      rewrite !countDocuments_save. cbn. split; lia.
    + cbn [fst notifications withNotifications withBlogs]. split.
      * exact (Nat.le_trans _ _ _ (countDocuments_findOneAndDelete _ _ _) Hc).
      * exact (Nat.le_trans _ _ _ (countDocuments_findOneAndDelete _ _ _) Hr).
  - intros authorId isAdmin body blogOid nanoid now. unfold createBlog.
    destruct isAdmin; [|reflexivity].
    destruct (createBlogValidation body); [reflexivity|]. cbv zeta.
    destruct (Js.truthy (cb_id body)); reflexivity.
Qed.

Lemma sampleStore_notifiedOnce : notifiedOnce sampleStore.
Proof.
  intros c. unfold countDocuments, Notification.byComment, Notification.byReply.
  cbn [sampleStore notifications filter map isId Notification.comment_
       Notification.reply_].
  split.
  - destruct (String.eqb_spec "A" c) as [<-|?]; [cbn; lia|].
    destruct (String.eqb_spec "C" c) as [<-|?]; [cbn; lia|].
    destruct (String.eqb_spec "D" c) as [<-|?]; [cbn; lia|].
    destruct (String.eqb_spec "E" c) as [<-|?]; cbn; lia.
  - destruct (String.eqb_spec "C" c) as [<-|?]; [cbn; lia|].
    destruct (String.eqb_spec "D" c) as [<-|?]; cbn; lia.
Qed.

Lemma notifiedOnce_invariant_witness :
  notifiedOnce (fst (addComment "u0" replyFromNotification "F" "nF" 15
                                sampleStore))
  /\ notifiedOnce (fst (deleteComment "u1" "A" sampleStore))
  /\ (exists st',
        deleteComments 5 "C" sampleStore = Some st' /\ notifiedOnce st')
  /\ notifiedOnce (fst (deleteBlog "u0" true "The-Quick-Fox-Xy12"
                                   sampleStore))
  /\ notifiedOnce (fst (likeBlog "u2" "B" None "nL" 16 sampleStore))
  /\ notifications (fst (createBlog "u0" true publishBody "B2" "Zz99" 20
                                    sampleStore))
     = notifications sampleStore.
Proof.
  destruct (notifiedOnce_invariant sampleStore sampleStore_notifiedOnce)
    as (Hadd & Hdel & Hrun & Hblog & Hlike & Hcreate).
  split; [|split; [|split; [|split; [|split]]]].
  - apply Hadd. unfold unnotified. cbn [sampleStore notifications].
    repeat (constructor; [split; discriminate|]). constructor.
  - apply Hdel.
  - eexists. split; [reflexivity|]. apply (Hrun 5%nat "C"). reflexivity.
  - apply Hblog.
  - apply Hlike.
  - apply Hcreate.
Defined.
